(** * TWTuth_Agent: the event pipeline of [src/scraper]

    A shallow embedding of the polling, pricing, analysis, registration and
    resubmission code of the scraper daemon ([contract_poller.py],
    [price_aggregator.py], [huggingface_sentiment.py],
    [registry_interaction.py], [main_daemon.py], [config.py], with the gate
    of [tweet_submitter.py] and the classifier of
    [ecosystem_classifier.py]), followed by the properties of its design
    document, each proved of the embedded code or evaluated on it where the
    code departs from the document, and by further properties of the code.

    Conventions of the embedding.
    - Python [float] values (scores, prices, clock readings) are rationals
      [Q]: rounding is left out, no statement below depends on it.
    - Python [str] is [string]; [upper], [lower], [strip] and [in] act on
      the ASCII range.
    - A Python [dict] whose keys matter is a [gmap string pyval]; a dict
      built in one place with fixed keys is a record.
    - A method that can raise is a function into [outcome]; a method that
      also mutates its object is a function in the monad [M St].  A state
      change made before an exception is raised is kept, as in Python.
    - Every collaborator that leaves the process (RPC node, HTTP API, model
      inference, file system, clock) is a field of a record of oracles
      which the embedded method takes as an argument; the calls that matter
      are appended to a log kept in the state.  One call of an embedded
      method sees one reading of the clock. *)

From Stdlib Require Import ZArith QArith Qround Qabs String Ascii List Lia Lqa.
From stdpp Require Import gmap strings.

#[local] Set Warnings "-register-all".
#[local] Open Scope Z_scope.
#[local] Open Scope string_scope.

(* ===================================================================== *)
(** ** Python values, exceptions and the state-and-exception monad *)
(* ===================================================================== *)

Inductive pyval : Type :=
| VNone
| VBool (b : bool)
| VInt (z : Z)
| VFloat (q : Q)
| VStr (s : string)
| VBytes (b : list Byte.byte)
| VDict (d : gmap string pyval).

Inductive exn : Type :=
| TypeError
| KeyError
| AttributeError
| ValueError
| OSError
| ExternalError.

Inductive outcome (A : Type) : Type :=
| Ret (a : A)
| Raise (e : exn).

Arguments Ret {A} a.
Arguments Raise {A} e.

Definition M (St A : Type) : Type := St -> outcome A * St.

Definition ret {St A} (a : A) : M St A := fun s => (Ret a, s).

Definition raise {St A} (e : exn) : M St A := fun s => (Raise e, s).

Definition bind {St A B} (m : M St A) (k : A -> M St B) : M St B :=
  fun s => match m s with
           | (Ret a, s') => k a s'
           | (Raise e, s') => (Raise e, s')
           end.

Definition lift {St A} (o : outcome A) : M St A := fun s => (o, s).

Definition modify {St} (f : St -> St) : M St unit := fun s => (Ret tt, f s).

Definition gets {St A} (f : St -> A) : M St A := fun s => (Ret (f s), s).

(** Run a method of a component on the part of the state that holds it. *)
Definition zoom {St T A} (proj : St -> T) (upd : T -> St -> St) (m : M T A) : M St A :=
  fun s => let (r, t') := m (proj s) in (r, upd t' s).

(** [try: m except Exception: h] *)
Definition try_except {St A} (m : M St A) (h : exn -> M St A) : M St A :=
  fun s => match m s with
           | (Ret a, s') => (Ret a, s')
           | (Raise e, s') => h e s'
           end.

Notation "'let*' x ':=' m 'in' k" := (bind m (fun x => k))
  (at level 10, x pattern, m at level 100, k at level 200).
Notation "m ';;' k" := (bind m (fun _ => k))
  (at level 100, k at level 200, right associativity, only parsing).

(** Sequencing without state. *)
Definition obind {A B} (o : outcome A) (k : A -> outcome B) : outcome B :=
  match o with
  | Ret a => k a
  | Raise e => Raise e
  end.

Notation "'let+' x ':=' o 'in' k" := (obind o (fun x => k))
  (at level 10, x pattern, o at level 100, k at level 200).

Fixpoint omap_all {A B} (f : A -> outcome B) (l : list A) : outcome (list B) :=
  match l with
  | [] => Ret []
  | x :: l' =>
      let+ y := f x in
      let+ ys := omap_all f l' in
      Ret (y :: ys)
  end.

(** Truth value of an object in a condition. *)
Definition truthy (v : pyval) : bool :=
  match v with
  | VNone => false
  | VBool b => b
  | VInt z => negb (Z.eqb z 0)
  | VFloat q => negb (Qeq_bool q 0)
  | VStr s => negb (String.eqb s "")
  | VBytes b => match b with [] => false | _ => true end
  | VDict d => negb (bool_decide (d = ∅))
  end.

(** The numeric value of an operand of [-], [*] or [<]: [int], [float] and
    [bool] are numbers, everything else is a [TypeError]. *)
Definition as_number (v : pyval) : outcome Q :=
  match v with
  | VInt z => Ret (inject_Z z)
  | VFloat q => Ret q
  | VBool b => Ret (if b then 1%Q else 0%Q)
  | _ => Raise TypeError
  end.

(** [d.get(k, dflt)] *)
Definition dict_get (d : gmap string pyval) (k : string) (dflt : pyval) : pyval :=
  default dflt (d !! k).

(** [d[k]] *)
Definition dict_item (d : gmap string pyval) (k : string) : outcome pyval :=
  match d !! k with
  | Some v => Ret v
  | None => Raise KeyError
  end.

(* ===================================================================== *)
(** ** Strings *)
(* ===================================================================== *)

Module Str.

(** [sub in s] *)
Fixpoint contains (sub s : string) : bool :=
  String.prefix sub s ||
  match s with
  | EmptyString => false
  | String _ s' => contains sub s'
  end.

(** The ASCII characters for which [str.isspace] holds. *)
Definition is_space (c : ascii) : bool :=
  let n := N_of_ascii c in
  ((9 <=? n) && (n <=? 13) || (28 <=? n) && (n <=? 32))%N.

Fixpoint lstrip (s : string) : string :=
  match s with
  | EmptyString => EmptyString
  | String c s' => if is_space c then lstrip s' else s
  end.

Fixpoint rstrip (s : string) : string :=
  match s with
  | EmptyString => EmptyString
  | String c s' =>
      match rstrip s' with
      | EmptyString => if is_space c then EmptyString else String c EmptyString
      | r => String c r
      end
  end.

(** [s.strip()] *)
Definition strip (s : string) : string := rstrip (lstrip s).

Definition upper_ascii (c : ascii) : ascii :=
  let n := N_of_ascii c in
  if ((97 <=? n) && (n <=? 122))%N then ascii_of_N (n - 32) else c.

Definition lower_ascii (c : ascii) : ascii :=
  let n := N_of_ascii c in
  if ((65 <=? n) && (n <=? 90))%N then ascii_of_N (n + 32) else c.

Fixpoint map_chars (f : ascii -> ascii) (s : string) : string :=
  match s with
  | EmptyString => EmptyString
  | String c s' => String (f c) (map_chars f s')
  end.

(** [s.upper()], [s.lower()] *)
Definition upper : string -> string := map_chars upper_ascii.
Definition lower : string -> string := map_chars lower_ascii.

(** [s.split("/")[-1]]: what follows the last ["/"] of [s]. *)
Fixpoint last_segment_from (cur s : string) : string :=
  match s with
  | EmptyString => cur
  | String c s' =>
      if Ascii.eqb c "/"%char then last_segment_from EmptyString s'
      else last_segment_from (cur ++ String c EmptyString) s'
  end.

Definition last_segment (s : string) : string := last_segment_from EmptyString s.

(** [s[:n]] *)
Definition take (n : nat) (s : string) : string := String.substring 0 n s.

Definition hex_digit (n : N) : ascii :=
  if (n <? 10)%N then ascii_of_N (48 + n) else ascii_of_N (87 + n).

(** [b.hex()] *)
Fixpoint hex (b : list Byte.byte) : string :=
  match b with
  | [] => EmptyString
  | x :: b' =>
      let n := Byte.to_N x in
      String (hex_digit (n / 16)) (String (hex_digit (n mod 16)) (hex b'))
  end.

End Str.

(* ===================================================================== *)
(** ** config.py *)
(* ===================================================================== *)

(** The options read from the environment that the embedded code uses. *)
Record config : Type := {
  MAX_BLOCK_RANGE : Z;
  AUTO_SUBMIT_THRESHOLD : Q;
  DATA_DIR : string;
}.

(** [SUPPORTED_TOKENS]: symbol, chain, CoinGecko id. *)
Definition SUPPORTED_TOKENS : list (string * (string * string)) :=
  [ ("BTC", ("Bitcoin", "bitcoin"));
    ("ETH", ("Ethereum", "ethereum"));
    ("SOL", ("Solana", "solana"));
    ("ADA", ("Cardano", "cardano"));
    ("DOT", ("Polkadot", "polkadot"));
    ("AVAX", ("Avalanche", "avalanche-2"));
    ("MATIC", ("Polygon", "matic-network"));
    ("POL", ("Polygon", "matic-network"));
    ("LINK", ("Ethereum", "chainlink"));
    ("UNI", ("Ethereum", "uniswap"));
    ("ATOM", ("Cosmos", "cosmos"));
    ("XRP", ("Ripple", "ripple"));
    ("DOGE", ("Dogecoin", "dogecoin"));
    ("LTC", ("Litecoin", "litecoin"));
    ("XLM", ("Stellar", "stellar"));
    ("ALGO", ("Algorand", "algorand"));
    ("FIL", ("Filecoin", "filecoin"));
    ("ARB", ("Arbitrum", "arbitrum"));
    ("BNB", ("BNB Chain", "binancecoin"));
    ("USDC", ("Multi-chain", "usd-coin"));
    ("USDT", ("Multi-chain", "tether"));
    ("XDC", ("XDC Network", "xdce-crowd-sale"));
    ("FLR", ("Flare", "flare-networks")) ].

(** [get_token_info(symbol)]: the token's dict, [{}] for an unknown symbol. *)
Definition get_token_info (symbol : string) : gmap string pyval :=
  match List.find (fun e => String.eqb (fst e) (Str.upper symbol)) SUPPORTED_TOKENS with
  | Some (_, (chain, cg)) =>
      <["chain" := VStr chain]> (<["coingecko_id" := VStr cg]> ∅)
  | None => ∅
  end.

(* ===================================================================== *)
(** ** contract_poller.py *)
(* ===================================================================== *)

Module Poller.

(** A log entry as the node returns it. *)
Record raw_log : Type := {
  log_blockNumber : Z;
  log_transactionHash : list Byte.byte;
  log_args : gmap string pyval;
}.

(** The dict built by [_parse_event]; its keys are fixed, the optional
    ABI fields are carried in [optional]. *)
Record event : Type := {
  block_number : Z;
  transaction_hash : string;
  tweet_hash : string;
  depositor : pyval;
  recipient : pyval;
  ip_amount : pyval;
  validation : pyval;
  proof : string;
  timestamp : string;
  optional : list (string * pyval);
}.

(** What the poller reaches outside the process. *)
Record chain : Type := {
  eth_block_number : outcome Z;
  (** [contract.events.DepositProcessed.get_logs(from_block=, to_block=)] *)
  get_logs : Z -> Z -> outcome (list raw_log);
  (** [datetime.utcnow().isoformat()] *)
  utcnow_iso : string;
  (** creating the directory and writing the block file *)
  write_block_file : outcome unit;
}.

(** The poller object: the attribute [last_processed_block], the content
    of [LAST_BLOCK_FILE] (the integer whose decimal text it holds), and
    the log of the ranges passed to [get_logs]. *)
Record poller : Type := {
  last_processed_block : Z;
  block_file : option Z;
  queried : list (Z * Z);
}.

Definition set_last (b : Z) (p : poller) : poller :=
  {| last_processed_block := b; block_file := block_file p; queried := queried p |}.

Definition set_file (b : Z) (p : poller) : poller :=
  {| last_processed_block := last_processed_block p; block_file := Some b;
     queried := queried p |}.

Definition log_query (f t : Z) (p : poller) : poller :=
  {| last_processed_block := last_processed_block p; block_file := block_file p;
     queried := queried p ++ [(f, t)] |}.

(** [x.hex()] on a value that has to be [bytes]. *)
Definition hex_of (v : pyval) : outcome string :=
  match v with
  | VBytes b => Ret (Str.hex b)
  | _ => Raise AttributeError
  end.

Definition optional_fields : list string :=
  ["collectionAddress"; "collectionConfig"; "licenseTermsConfig";
   "licenseMintParams"; "coCreators"].

Section WithChain.
Variable cfg : config.
Variable w : chain.

Definition _parse_event (e : raw_log) : outcome event :=
  let args := log_args e in
  let+ th := dict_item args "tweetHash" in
  let+ tweet_hash := hex_of th in
  let+ dep := dict_item args "depositor" in
  let+ rcp := dict_item args "recipient" in
  let+ amt := dict_item args "ipAmount" in
  let+ prf :=
    (if truthy (dict_get args "proof" VNone)
     then hex_of (dict_get args "proof" (VBytes []))
     else Ret "") in
  Ret {| block_number := log_blockNumber e;
         transaction_hash := Str.hex (log_transactionHash e);
         tweet_hash := tweet_hash;
         depositor := dep;
         recipient := rcp;
         ip_amount := amt;
         validation := dict_get args "validation" (VStr "");
         proof := prf;
         timestamp := utcnow_iso w;
         optional :=
           omap (fun k => (fun v => (k, v)) <$> (args !! k)) optional_fields |}.

Definition _save_last_processed_block (b : Z) : M poller unit :=
  let* _ := lift (write_block_file w) in
  modify (set_file b).

Definition get_new_events (from_block to_block : option Z) : M poller (list event) :=
  let* from_block :=
    match from_block with
    | None => gets (fun p => last_processed_block p + 1)
    | Some f => ret f
    end in
  let* to_block :=
    match to_block with
    | None => lift (eth_block_number w)
    | Some t => ret t
    end in
  let to_block :=
    if Z.gtb (to_block - from_block) (MAX_BLOCK_RANGE cfg)
    then from_block + MAX_BLOCK_RANGE cfg
    else to_block in
  if Z.gtb from_block to_block then ret []
  else
    try_except
      (modify (log_query from_block to_block) ;;
       let* events := lift (get_logs w from_block to_block) in
       lift (omap_all _parse_event events))
      (fun _ => ret []).

Definition poll_once : M poller (list event) :=
  try_except
    (let* current_block := lift (eth_block_number w) in
     let* events := get_new_events None (Some current_block) in
     (match events with
      | [] => ret tt
      | _ :: _ =>
          modify (set_last current_block) ;;
          _save_last_processed_block current_block
      end) ;;
     ret events)
    (fun _ => ret []).

End WithChain.

(** [extract_tweet_url(event)].  The [in] test is a substring test on a
    [str] and a key test on a dict, which has no [strip]; on the other
    values it raises. *)
Definition extract_tweet_url (e : event) : outcome (option string) :=
  match validation e with
  | VStr v =>
      if Str.contains "twitter.com" v || Str.contains "x.com" v
      then Ret (Some (Str.strip v))
      else Ret None
  | VDict d =>
      if bool_decide (is_Some (d !! "twitter.com")) || bool_decide (is_Some (d !! "x.com"))
      then Raise AttributeError
      else Ret None
  | _ => Raise TypeError
  end.

End Poller.

(* ===================================================================== *)
(** ** Arithmetic on scores *)
(* ===================================================================== *)

Definition Qlt_bool (x y : Q) : bool := negb (Qle_bool y x).

(** [min(1.0, x)] *)
Definition py_min1 (x : Q) : Q := if Qlt_bool x 1 then x else 1%Q.

(** [int(x)] on a float: truncation toward zero. *)
Definition py_int (x : Q) : Z := if Qle_bool 0 x then Qfloor x else Qceiling x.

(* ===================================================================== *)
(** ** huggingface_sentiment.py *)
(* ===================================================================== *)

Module Sentiment.

(** The analyzer object.  An inference returns the label and the score of
    the first result; [Raise] stands for whatever makes the [try] block
    around it fail (transport error, empty or malformed reply). *)
Record analyzer : Type := {
  use_api : bool;
  finbert_api : string -> outcome (string * Q);
  finbert_local : string -> outcome (string * Q);
  twitter_api : string -> outcome (string * Q);
  twitter_local : string -> outcome (string * Q);
}.

Definition controversy_keywords : list string :=
  ["scam"; "fraud"; "rug"; "dump"; "crash"; "moon"; "lambos";
   "ponzi"; "shitcoin"; "pump"; "fud"; "manipulation"; "insider"].

(** [sentiment_map[label]] *)
Definition sentiment_map (label : string) : outcome Q :=
  if String.eqb label "positive" then Ret 1%Q
  else if String.eqb label "neutral" then Ret 0%Q
  else if String.eqb label "negative" then Ret (-1)%Q
  else Raise KeyError.

Section WithAnalyzer.
Variable a : analyzer.

(** The dict of one model: label, score, model name. *)
Definition analyze_financial_sentiment (text : string) : string * Q * string :=
  match (if use_api a then finbert_api a text
         else finbert_local a (Str.take 512 text)) with
  | Ret (label, score) => (Str.lower label, score, "finbert")
  | Raise _ => ("neutral", 5 # 10, "finbert")
  end.

Definition analyze_twitter_sentiment (text : string) : string * Q * string :=
  match (if use_api a then twitter_api a text
         else twitter_local a (Str.take 512 text)) with
  | Ret (label, score) =>
      let label := Str.lower label in
      let label :=
        if Str.contains "pos" label then "positive"
        else if Str.contains "neg" label then "negative"
        else "neutral" in
      (label, score, "twitter-roberta")
  | Raise _ => ("neutral", 5 # 10, "twitter-roberta")
  end.

Definition model_dict (r : string * Q * string) : gmap string pyval :=
  let '(label, score, model) := r in
  <["label" := VStr label]>
    (<["score" := VFloat score]> (<["model" := VStr model]> ∅)).

Definition analyze_multimodal (text : string) : outcome (gmap string pyval) :=
  let financial := analyze_financial_sentiment text in
  let twitter := analyze_twitter_sentiment text in
  let '(fin_label, fin_score, _) := financial in
  let '(twt_label, twt_score, _) := twitter in
  let+ fin_sign := sentiment_map fin_label in
  let+ twt_sign := sentiment_map twt_label in
  let fin_value := (fin_sign * fin_score)%Q in
  let twt_value := (twt_sign * twt_score)%Q in
  let combined_value := (fin_value * (6 # 10) + twt_value * (4 # 10))%Q in
  let combined_label :=
    if Qlt_bool (2 # 10) combined_value then "positive"
    else if Qlt_bool combined_value (- (2 # 10)) then "negative"
    else "neutral" in
  let agreement := if String.eqb fin_label twt_label then 1%Q else (5 # 10)%Q in
  let avg_confidence := ((fin_score + twt_score) / 2)%Q in
  let confidence := (agreement * avg_confidence)%Q in
  Ret (<["financial" := VDict (model_dict financial)]>
      (<["twitter" := VDict (model_dict twitter)]>
      (<["combined_label" := VStr combined_label]>
      (<["combined_score" := VFloat ((combined_value + 1) / 2)]>
      (<["confidence" := VFloat confidence]>
      (<["text_length" := VInt (Z.of_nat (String.length text))]> ∅)))))).

Definition keyword_hits (text_lower : string) : nat :=
  length (filter (fun kw => Str.contains kw text_lower = true) controversy_keywords).

Definition get_controversy_score (text : string) : outcome Q :=
  let+ analysis := analyze_multimodal text in
  let+ cs := dict_item analysis "combined_score" in
  let+ cs := as_number cs in
  let+ cf := dict_item analysis "confidence" in
  let+ cf := as_number cf in
  let sentiment_extremity := (Qabs (cs - (5 # 10)) * 2)%Q in
  let disagreement := (1 - cf)%Q in
  let text_lower := Str.lower text in
  let keyword_score :=
    (inject_Z (Z.of_nat (keyword_hits text_lower))
     / inject_Z (Z.of_nat (length controversy_keywords)))%Q in
  let controversy :=
    (sentiment_extremity * (4 # 10) + disagreement * (3 # 10)
     + keyword_score * (3 # 10))%Q in
  Ret (py_min1 controversy).

End WithAnalyzer.

End Sentiment.

(* ===================================================================== *)
(** ** price_aggregator.py *)
(* ===================================================================== *)

Module Prices.

(** What the aggregator reaches outside the process during one call. *)
Record feeds : Type := {
  (** whether [import ftso_price] succeeded *)
  FTSO_AVAILABLE : bool;
  (** [ftso_price.get_price_for(test_symbol)]: a pair, or an exception *)
  ftso_get_price_for : string -> outcome (pyval * pyval);
  (** the decoded JSON object of a 200 reply of [/simple/price] for an id;
      [Raise] for a transport error, a timeout, an error status or a body
      that is not JSON *)
  coingecko_http : string -> outcome (gmap string pyval);
  (** the same for [/ticker/price] and a pair *)
  binance_http : string -> outcome (gmap string pyval);
  (** [float(s)] on a string *)
  float_of_str : string -> outcome Q;
  (** [time.time()] *)
  time_time : Q;
  (** [datetime.utcnow().isoformat()] *)
  utcnow_iso : string;
  (** [datetime.utcfromtimestamp(t).isoformat()] *)
  utcfromtimestamp_iso : Q -> outcome string;
}.

Inductive source_event : Type :=
| Attempt (name : string)
| Request (name : string) (arg : string).

(** The aggregator object: [price_cache], and the log of the source
    functions entered and of the requests sent. *)
Record aggregator : Type := {
  price_cache : gmap string (gmap string pyval);
  source_log : list source_event;
}.

Definition cache_ttl : Q := 60.

Definition log_source (e : source_event) (s : aggregator) : aggregator :=
  {| price_cache := price_cache s; source_log := source_log s ++ [e] |}.

Definition cache_put (symbol : string) (q : gmap string pyval) (s : aggregator)
  : aggregator :=
  {| price_cache := <[symbol := q]> (price_cache s); source_log := source_log s |}.

Definition empty_aggregator : aggregator :=
  {| price_cache := ∅; source_log := [] |}.

Section WithFeeds.
Variable w : feeds.

Definition _is_cache_valid (symbol : string) : M aggregator bool :=
  let* cache := gets price_cache in
  match cache !! symbol with
  | None => ret false
  | Some entry =>
      let cached_time := dict_get entry "timestamp" (VInt 0) in
      let* t := lift (as_number cached_time) in
      ret (Qlt_bool (time_time w - t) cache_ttl)
  end.

(** The formatted log line [f"{price:.4f}"] needs a number. *)
Definition format_4f (price : pyval) : outcome unit :=
  let+ _ := as_number price in Ret tt.

Definition _get_from_ftso (symbol : string) : M aggregator (option (pyval * pyval)) :=
  if negb (FTSO_AVAILABLE w) then ret None
  else
    try_except
      (let test_symbol :=
         if negb (String.prefix "test" symbol) then "test" ++ symbol else symbol in
       modify (log_source (Request "FTSO" test_symbol)) ;;
       let* (price, timestamp) := lift (ftso_get_price_for w test_symbol) in
       lift (format_4f price) ;;
       ret (Some (price, timestamp)))
      (fun _ => ret None).

Definition _get_from_coingecko (symbol : string)
  : M aggregator (option (pyval * pyval)) :=
  try_except
    (let token_info := get_token_info symbol in
     let coingecko_id := dict_get token_info "coingecko_id" VNone in
     match coingecko_id with
     | VStr id =>
         if String.eqb id "" then ret None
         else
           modify (log_source (Request "CoinGecko" id)) ;;
           let* data := lift (coingecko_http w id) in
           match data !! id with
           | Some entry =>
               let* entry :=
                 lift (match entry with
                       | VDict d => Ret d
                       | _ => Raise TypeError
                       end) in
               let* price := lift (dict_item entry "usd") in
               let timestamp_unix :=
                 dict_get entry "last_updated_at" (VFloat (time_time w)) in
               let* t := lift (as_number timestamp_unix) in
               let* iso := lift (utcfromtimestamp_iso w t) in
               let timestamp := iso ++ "Z" in
               lift (format_4f price) ;;
               ret (Some (price, VStr timestamp))
           | None => ret None
           end
     | _ => ret None
     end)
    (fun _ => ret None).

(** [float(x)] *)
Definition py_float (x : pyval) : outcome Q :=
  match x with
  | VStr s => float_of_str w s
  | VInt z => Ret (inject_Z z)
  | VFloat q => Ret q
  | VBool b => Ret (if b then 1%Q else 0%Q)
  | _ => Raise TypeError
  end.

Definition _get_from_binance (symbol : string)
  : M aggregator (option (pyval * pyval)) :=
  try_except
    (let pair := symbol ++ "USDT" in
     modify (log_source (Request "Binance" pair)) ;;
     let* data := lift (binance_http w pair) in
     let* p := lift (dict_item data "price") in
     let* price := lift (py_float p) in
     let timestamp := utcnow_iso w ++ "Z" in
     ret (Some (VFloat price, VStr timestamp)))
    (fun _ => ret None).

Definition sources : list (string * (string -> M aggregator (option (pyval * pyval)))) :=
  [ ("FTSO", _get_from_ftso);
    ("CoinGecko", _get_from_coingecko);
    ("Binance", _get_from_binance) ].

Definition success_quote (symbol : string) (price timestamp : pyval)
  (source_name : string) : gmap string pyval :=
  <["timestamp_unix" := VFloat (time_time w)]>
    (<["symbol" := VStr symbol]>
    (<["price" := price]>
    (<["timestamp" := timestamp]>
    (<["source" := VStr source_name]>
    (<["success" := VBool true]> ∅))))).

Definition failure_quote (symbol : string) : gmap string pyval :=
  <["symbol" := VStr symbol]>
    (<["price" := VFloat 0]>
    (<["timestamp" := VStr (utcnow_iso w ++ "Z")]>
    (<["source" := VStr "none"]>
    (<["success" := VBool false]>
    (<["error" := VStr "All price sources failed"]> ∅))))).

(** The [for] loop of [get_price] over the sources still to try. *)
Fixpoint try_sources
  (l : list (string * (string -> M aggregator (option (pyval * pyval)))))
  (symbol : string) : M aggregator (gmap string pyval) :=
  match l with
  | [] => ret (failure_quote symbol)
  | (source_name, source_func) :: l' =>
      let* r :=
        try_except
          (modify (log_source (Attempt source_name)) ;;
           let* result := source_func symbol in
           match result with
           | Some (price, timestamp) =>
               let response := success_quote symbol price timestamp source_name in
               modify (cache_put symbol response) ;;
               lift (format_4f price) ;;
               ret (Some response)
           | None => ret None
           end)
          (fun _ => ret None) in
      match r with
      | Some response => ret response
      | None => try_sources l' symbol
      end
  end.

Definition get_price (symbol : string) (use_cache : bool)
  : M aggregator (gmap string pyval) :=
  let symbol := Str.upper symbol in
  let* hit := (if use_cache then _is_cache_valid symbol else ret false) in
  if hit then
    let* cache := gets price_cache in
    lift (match cache !! symbol with
          | Some q => Ret q
          | None => Raise KeyError
          end)
  else try_sources sources symbol.

End WithFeeds.

End Prices.

(* ===================================================================== *)
(** ** registry_interaction.py *)
(* ===================================================================== *)

Module Registry.

(** The arguments of the contract's [storeTweet]. *)
Record store_args : Type := {
  identity : list pyval;
  content : pyval;
  metrics : list pyval;
  storage_data : list pyval;
  submitter : pyval;
}.

Record tx_params : Type := {
  tx_from : string;
  nonce : Z;
  chainId : Z;
  gas : Z;
  gasPrice : Z;
}.

(** The node and the contract behind the registry object. *)
Record node : Type := {
  (** [w3.keccak(text=s)] *)
  keccak : string -> list Byte.byte;
  account_address : string;
  (** [contract.functions.exists(h).call()] *)
  contract_exists : list Byte.byte -> outcome bool;
  get_transaction_count : outcome Z;
  chain_id : outcome Z;
  estimate_gas : store_args -> outcome Z;
  gas_price : outcome Z;
  (** build the transaction, sign it, [send_raw_transaction] *)
  send_transaction : store_args -> tx_params -> outcome (list Byte.byte);
}.

(** The calls made to the contract. *)
Inductive rpc : Type :=
| RpcExists (h : list Byte.byte) (r : outcome bool)
| RpcEstimateGas (a : store_args)
| RpcSend (a : store_args) (p : tx_params).

Definition is_write (c : rpc) : bool :=
  match c with
  | RpcSend _ _ => true
  | _ => false
  end.

Definition log_rpc (c : rpc) (l : list rpc) : list rpc := l ++ [c].

Section WithNode.
Variable n : node.

Definition store_tweet (tweet_data_dict : gmap string pyval)
  : M (list rpc) (option string) :=
  let get k dflt := dict_get tweet_data_dict k dflt in
  let* url := lift (dict_item tweet_data_dict "tweetURL") in
  let* tweet_url :=
    lift (match url with VStr s => Ret s | _ => Raise TypeError end) in
  let tweet_hash := keccak n tweet_url in
  let* present :=
    try_except
      (modify (log_rpc (RpcExists tweet_hash (contract_exists n tweet_hash))) ;;
       lift (contract_exists n tweet_hash))
      (fun _ => ret false) in
  if present then ret None
  else
    let args :=
      {| identity :=
           [ VBytes tweet_hash; get "tweetURL" (VStr ""); get "tweetId" (VStr "");
             get "user" (VStr ""); get "handle" (VStr "");
             get "verified" (VBool false) ];
         content := get "content" (VStr "");
         metrics :=
           [ get "timestamp" (VInt 0); get "likes" (VInt 0);
             get "retweets" (VInt 0); get "replies" (VInt 0);
             get "controversyScore" (VInt 0); get "deletionLikelihood" (VInt 0) ];
         storage_data :=
           [ get "ipfsScreenshotCID" (VStr ""); get "ipfsDataCID" (VStr "");
             get "filecoinRootCID" (VStr ""); get "filecoinDealId" (VStr "");
             get "ecosystem" (VStr "UNKNOWN") ];
         submitter := get "submitter" (VStr (account_address n)) |} in
    let* nonce := lift (get_transaction_count n) in
    let* chain := lift (chain_id n) in
    let* gas_limit :=
      try_except
        (modify (log_rpc (RpcEstimateGas args)) ;;
         let* estimated_gas := lift (estimate_gas n args) in
         ret (py_int (inject_Z estimated_gas * (13 # 10))))
        (fun _ => ret 5000000) in
    let* gas_price :=
      try_except
        (let* base_gas_price := lift (gas_price n) in
         ret (py_int (inject_Z base_gas_price * (15 # 10))))
        (fun _ => ret 50000000000) in
    let params :=
      {| tx_from := account_address n; nonce := nonce; chainId := chain;
         gas := gas_limit; gasPrice := gas_price |} in
    modify (log_rpc (RpcSend args params)) ;;
    let* tx_hash := lift (send_transaction n args params) in
    ret (Some (Str.hex tx_hash)).

End WithNode.

End Registry.

(* ===================================================================== *)
(** ** main_daemon.py *)
(* ===================================================================== *)

Module Daemon.

Record stats : Type := {
  tweets_processed : Z;
  tweets_stored : Z;
  tweets_registered : Z;
  tweets_resubmitted : Z;
  errors : Z;
}.

(** The dict returned by [analyze_tweet_content]; its five keys are fixed. *)
Record analysis : Type := {
  deletion_likelihood : Q;
  analysis_text : string;
  sentiment : option (gmap string pyval);
  ecosystem : option (gmap string pyval);
  combined_controversy : Q;
}.

(** The content of the JSON file written before the upload. *)
Record full_data : Type := {
  fd_tweet : gmap string pyval;
  fd_analysis : analysis;
  fd_timestamp : string;
  fd_controversy_score : Q;
  fd_price : option (gmap string pyval);
}.

(** The components built by [__init__] (the optional ones are [None] when
    their construction failed), the clock and the file system, and two
    builtins that are left abstract. *)
Record components : Type := {
  (** [ai_analysis.analyze_tweet(content)]: score and text *)
  analyze_tweet : pyval -> outcome (Q * string);
  sentiment_analyzer : option Sentiment.analyzer;
  (** [classifier.classify_tweet(content)] *)
  classifier : option (pyval -> outcome (gmap string pyval));
  price_aggregator : option Prices.feeds;
  (** [storage.store_file(filepath)] *)
  store_file : string -> outcome (gmap string pyval);
  registry : option Registry.node;
  (** [submitter.submit_tweet(tweet_url, controversy)] *)
  submitter : option (string -> Q -> outcome string);
  (** [datetime.utcnow().isoformat()] *)
  utcnow_iso : string;
  (** [datetime.utcnow().strftime("%Y%m%d_%H%M%S")] *)
  utcnow_stamp : string;
  (** [int(datetime.now().timestamp())] *)
  now_timestamp : Z;
  (** [open(filepath, 'w')] and [json.dump] *)
  write_json : string -> full_data -> outcome unit;
  (** [str(x)] *)
  py_str : pyval -> string;
  (** [int(x)] on an object that is neither a [str] nor a number *)
  py_int_of : pyval -> outcome Z;
}.

(** The daemon object: its counters, the state of its price aggregator,
    and the logs of what it asked of its collaborators. *)
Record daemon : Type := {
  st_stats : stats;
  st_prices : Prices.aggregator;
  scraped : list string;
  written : list (string * full_data);
  uploaded : list string;
  registry_calls : list Registry.rpc;
  submitted : list (string * Q);
}.

Definition with_stats (f : stats -> stats) (d : daemon) : daemon :=
  {| st_stats := f (st_stats d); st_prices := st_prices d; scraped := scraped d;
     written := written d; uploaded := uploaded d;
     registry_calls := registry_calls d; submitted := submitted d |}.

Definition set_prices (a : Prices.aggregator) (d : daemon) : daemon :=
  {| st_stats := st_stats d; st_prices := a; scraped := scraped d;
     written := written d; uploaded := uploaded d;
     registry_calls := registry_calls d; submitted := submitted d |}.

Definition log_scrape (u : string) (d : daemon) : daemon :=
  {| st_stats := st_stats d; st_prices := st_prices d; scraped := scraped d ++ [u];
     written := written d; uploaded := uploaded d;
     registry_calls := registry_calls d; submitted := submitted d |}.

Definition log_write (p : string) (c : full_data) (d : daemon) : daemon :=
  {| st_stats := st_stats d; st_prices := st_prices d; scraped := scraped d;
     written := written d ++ [(p, c)]; uploaded := uploaded d;
     registry_calls := registry_calls d; submitted := submitted d |}.

Definition log_upload (p : string) (d : daemon) : daemon :=
  {| st_stats := st_stats d; st_prices := st_prices d; scraped := scraped d;
     written := written d; uploaded := uploaded d ++ [p];
     registry_calls := registry_calls d; submitted := submitted d |}.

Definition set_registry_calls (l : list Registry.rpc) (d : daemon) : daemon :=
  {| st_stats := st_stats d; st_prices := st_prices d; scraped := scraped d;
     written := written d; uploaded := uploaded d;
     registry_calls := l; submitted := submitted d |}.

Definition log_submit (u : string) (c : Q) (d : daemon) : daemon :=
  {| st_stats := st_stats d; st_prices := st_prices d; scraped := scraped d;
     written := written d; uploaded := uploaded d;
     registry_calls := registry_calls d; submitted := submitted d ++ [(u, c)] |}.

Definition incr_processed (s : stats) : stats :=
  {| tweets_processed := tweets_processed s + 1; tweets_stored := tweets_stored s;
     tweets_registered := tweets_registered s;
     tweets_resubmitted := tweets_resubmitted s; errors := errors s |}.

Definition incr_stored (s : stats) : stats :=
  {| tweets_processed := tweets_processed s; tweets_stored := tweets_stored s + 1;
     tweets_registered := tweets_registered s;
     tweets_resubmitted := tweets_resubmitted s; errors := errors s |}.

Definition incr_registered (s : stats) : stats :=
  {| tweets_processed := tweets_processed s; tweets_stored := tweets_stored s;
     tweets_registered := tweets_registered s + 1;
     tweets_resubmitted := tweets_resubmitted s; errors := errors s |}.

Definition incr_resubmitted (s : stats) : stats :=
  {| tweets_processed := tweets_processed s; tweets_stored := tweets_stored s;
     tweets_registered := tweets_registered s;
     tweets_resubmitted := tweets_resubmitted s + 1; errors := errors s |}.

Definition incr_errors (s : stats) : stats :=
  {| tweets_processed := tweets_processed s; tweets_stored := tweets_stored s;
     tweets_registered := tweets_registered s;
     tweets_resubmitted := tweets_resubmitted s; errors := errors s + 1 |}.

Definition is_digit (c : ascii) : bool :=
  let n := N_of_ascii c in ((48 <=? n) && (n <=? 57))%N.

(** The digits of [s], read as a decimal number ([0] when there are none). *)
Fixpoint digits_value (acc : Z) (s : string) : Z :=
  match s with
  | EmptyString => acc
  | String c s' =>
      if is_digit c
      then digits_value (10 * acc + Z.of_N (N_of_ascii c) - 48) s'
      else digits_value acc s'
  end.

(** [os.path.join(d, f)] for a relative [f]. *)
Definition path_join (d f : string) : string :=
  if String.eqb d "" then f
  else if String.eqb (String.substring (String.length d - 1) 1 d) "/" then d ++ f
  else d ++ "/" ++ f.

Definition zero_address : string := "0x0000000000000000000000000000000000000000".

(** [x] where a [str] is needed. *)
Definition as_str (e : exn) (v : pyval) : outcome string :=
  match v with
  | VStr s => Ret s
  | _ => Raise e
  end.

Section WithComponents.
Variable cfg : config.
Variable c : components.

(** The record that the placeholder scraper of the source returns for
    every URL. *)
Definition mock_tweet (tweet_url : string) : gmap string pyval :=
  <["url" := VStr tweet_url]>
    (<["content" := VStr "Sample tweet content for testing"]>
    (<["user" := VStr "Test User"]>
    (<["handle" := VStr "@testuser"]>
    (<["timestamp" := VStr (utcnow_iso c)]>
    (<["verified" := VBool false]>
    (<["likes" := VStr "0"]>
    (<["retweets" := VStr "0"]>
    (<["replies" := VStr "0"]>
    (<["tweet_id" := VStr (Str.last_segment tweet_url)]>
    (<["ipfs_screenshot" := VStr ""]> ∅)))))))))).

Definition scrape_single_tweet (tweet_url : string) : M daemon (gmap string pyval) :=
  modify (log_scrape tweet_url) ;;
  ret (mock_tweet tweet_url).

(** The sentiment block: [sentiment] is assigned as soon as
    [analyze_multimodal] returns; the controversy score of the analyzer
    is then computed and written to the log only.  A content that is not a
    [str] makes the block fail, and the failure is caught. *)
Definition sentiment_block (content : pyval) : option (gmap string pyval) :=
  match sentiment_analyzer c with
  | None => None
  | Some a =>
      match content with
      | VStr text =>
          match Sentiment.analyze_multimodal a text with
          | Ret sentiment =>
              let controversy_from_sentiment :=
                Sentiment.get_controversy_score a text in
              Some sentiment
          | Raise _ => None
          end
      | _ => None
      end
  end.

Definition ecosystem_block (content : pyval) : option (gmap string pyval) :=
  match classifier c with
  | None => None
  | Some classify_tweet =>
      match classify_tweet content with
      | Ret ecosystem => Some ecosystem
      | Raise _ => None
      end
  end.

Definition analyze_tweet_content (tweet_data : gmap string pyval) : outcome analysis :=
  let content := dict_get tweet_data "content" (VStr "") in
  let+ (deletion_score, analysis_text) := analyze_tweet c content in
  let sentiment := sentiment_block content in
  let ecosystem := ecosystem_block content in
  let+ combined_score :=
    match sentiment with
    | Some s =>
        if truthy (VDict s) then
          let+ cs := as_number (dict_get s "controversy_score" (VInt 0)) in
          Ret (deletion_score * (6 # 10) + cs * (4 # 10))%Q
        else Ret deletion_score
    | None => Ret deletion_score
    end in
  Ret {| deletion_likelihood := deletion_score;
         analysis_text := analysis_text;
         sentiment := sentiment;
         ecosystem := ecosystem;
         combined_controversy := combined_score |}.

(** The price lookup of [store_to_filecoin]; every failure of the
    lookup itself is caught.  The classifier builds its dict with a [str]
    under ["token"]; for another object the lookup is taken to fail inside
    the [try], as [upper] does on [None] or a number. *)
Definition price_block (a : analysis) : M daemon (option (gmap string pyval)) :=
  match price_aggregator c, ecosystem a with
  | Some feeds, Some eco =>
      if truthy (VDict eco) then
        let* token := lift (dict_item eco "token") in
        match token with
        | VStr "UNKNOWN" => ret None
        | VStr symbol =>
            try_except
              (let* price_info :=
                 zoom st_prices set_prices (Prices.get_price feeds symbol true) in
               ret (Some price_info))
              (fun _ => ret None)
        | _ => ret None
        end
      else ret None
  | _, _ => ret None
  end.

Definition store_to_filecoin (tweet_data : gmap string pyval) (a : analysis)
  : M daemon (gmap string pyval) :=
  let filename := "tweet_" ++ utcnow_stamp c ++ ".json" in
  let filepath := path_join (DATA_DIR cfg) filename in
  let* price := price_block a in
  let full :=
    {| fd_tweet := tweet_data; fd_analysis := a; fd_timestamp := utcnow_iso c;
       fd_controversy_score := combined_controversy a; fd_price := price |} in
  lift (write_json c filepath full) ;;
  modify (log_write filepath full) ;;
  modify (log_upload filepath) ;;
  lift (store_file c filepath).

Definition _safe_int (value : pyval) : Z :=
  match value with
  | VStr s => digits_value 0 s
  | VInt z => z
  | VFloat q => if truthy value then py_int q else 0
  | VBool b => if b then 1 else 0
  | VNone => 0
  | _ =>
      if truthy value then
        match py_int_of c value with
        | Ret z => z
        | Raise _ => 0
        end
      else 0
  end.

Definition on_chain_data (r : Registry.node) (tweet_data : gmap string pyval)
  (a : analysis) (storage_result : gmap string pyval) (submitter : pyval)
  : outcome (gmap string pyval) :=
  let get k dflt := dict_get tweet_data k dflt in
  let+ ipfs_screenshot_cid :=
    (if truthy (get "ipfs_screenshot" VNone)
     then let+ s := as_str AttributeError (get "ipfs_screenshot" VNone) in
          Ret (Str.last_segment s)
     else Ret "") in
  let+ url := as_str TypeError (get "url" (VStr "")) in
  let+ eco :=
    match ecosystem a with
    | Some d => Ret (dict_get d "token" (VStr "UNKNOWN"))
    | None => Raise AttributeError
    end in
  Ret (<["tweetHash" := VStr (Str.hex (Registry.keccak r url))]>
      (<["tweetURL" := get "url" (VStr "")]>
      (<["tweetId" := get "tweet_id" (VStr "")]>
      (<["user" := get "user" (VStr "")]>
      (<["handle" := get "handle" (VStr "")]>
      (<["verified" := get "verified" (VBool false)]>
      (<["content" := get "content" (VStr "")]>
      (<["timestamp" := VInt (now_timestamp c)]>
      (<["likes" := VInt (_safe_int (get "likes" (VStr "0")))]>
      (<["retweets" := VInt (_safe_int (get "retweets" (VStr "0")))]>
      (<["replies" := VInt (_safe_int (get "replies" (VStr "0")))]>
      (<["controversyScore" := VInt (py_int (combined_controversy a * 100))]>
      (<["deletionLikelihood" := VInt (py_int (deletion_likelihood a * 100))]>
      (<["ipfsScreenshotCID" := VStr ipfs_screenshot_cid]>
      (<["ipfsDataCID" := dict_get storage_result "ipfs_cid" (VStr "")]>
      (<["filecoinRootCID" := dict_get storage_result "root_cid" (VStr "")]>
      (<["filecoinDealId" :=
           VStr (py_str c (dict_get storage_result "deal_id" (VStr "")))]>
      (<["ecosystem" := eco]>
      (<["submitter" :=
           if truthy submitter then submitter else VStr zero_address]> ∅))))))))))))))))))).

Definition store_on_chain (tweet_data : gmap string pyval) (a : analysis)
  (storage_result : gmap string pyval) (submitter : pyval)
  : M daemon (option string) :=
  match registry c with
  | None => ret None
  | Some r =>
      try_except
        (let* data := lift (on_chain_data r tweet_data a storage_result submitter) in
         let* tx_hash :=
           zoom registry_calls set_registry_calls (Registry.store_tweet r data) in
         match tx_hash with
         | Some h =>
             if String.eqb h "" then ret None
             else modify (with_stats incr_registered) ;; ret (Some h)
         | None => ret None
         end)
        (fun _ => ret None)
  end.

(** Step 5 of [process_tweet_event]. *)
Definition resubmit (tweet_url : string) (controversy : Q) : M daemon unit :=
  match submitter c with
  | Some submit_tweet =>
      if Qle_bool (AUTO_SUBMIT_THRESHOLD cfg) controversy then
        try_except
          (modify (log_submit tweet_url controversy) ;;
           let* tx_hash := lift (submit_tweet tweet_url controversy) in
           modify (with_stats incr_resubmitted))
          (fun _ => ret tt)
      else ret tt
  | None => ret tt
  end.

(** The two lines of the analysis summary that index a dict. *)
Definition log_summary (a : analysis) : outcome unit :=
  let+ _ :=
    match sentiment a with
    | Some s => if truthy (VDict s) then dict_item s "combined_label" else Ret VNone
    | None => Ret VNone
    end in
  let+ _ :=
    match ecosystem a with
    | Some e => if truthy (VDict e) then dict_item e "token" else Ret VNone
    | None => Ret VNone
    end in
  Ret tt.

Definition process_tweet_event (event : Poller.event) : M daemon unit :=
  try_except
    (let* tweet_url := lift (Poller.extract_tweet_url event) in
     match tweet_url with
     | None | Some EmptyString => modify (with_stats incr_errors)
     | Some tweet_url =>
         let* tweet_data := scrape_single_tweet tweet_url in
         if negb (truthy (VDict tweet_data)) then modify (with_stats incr_errors)
         else
           modify (with_stats incr_processed) ;;
           let* a := lift (analyze_tweet_content tweet_data) in
           let controversy := combined_controversy a in
           lift (log_summary a) ;;
           let* storage_result := store_to_filecoin tweet_data a in
           modify (with_stats incr_stored) ;;
           lift (dict_item storage_result "ipfs_cid") ;;
           lift (dict_item storage_result "root_cid") ;;
           let* registry_tx :=
             store_on_chain tweet_data a storage_result (Poller.depositor event) in
           resubmit tweet_url controversy
     end)
    (fun _ => modify (with_stats incr_errors)).

End WithComponents.

End Daemon.

(* ===================================================================== *)
(** * Notions used in the statements *)
(* ===================================================================== *)

(** [preserves f m]: running [m] does not change the part [f] of the state,
    whether [m] returns or raises. *)
Definition preserves {St A B} (f : St -> B) (m : M St A) : Prop :=
forall s, f (snd (m s)) = f s.

Section PollerNotions.
Import Poller.
Variable cfg : config.
Variable w : chain.

(** The upper bound that [get_new_events] passes to the node for the
    bounds [f] and [t], after the clamp. *)
Definition clamped_to (f t : Z) : Z :=
if Z.gtb (t - f) (MAX_BLOCK_RANGE cfg) then f + MAX_BLOCK_RANGE cfg else t.

(** The batch that the event query of a poll cycle yields: empty when the
    block height cannot be read, when the range is empty, when the query
    raises, when a log does not parse, or when there is no event. *)
Definition cycle_batch (p : poller) : list event :=
match eth_block_number w with
| Ret current_block =>
    match fst (get_new_events cfg w None (Some current_block) p) with
    | Ret evs => evs
    | Raise _ => []
    end
| Raise _ => []
end.

End PollerNotions.

Section PricesNotions.
Import Prices.
Variable w : feeds.

(** A source fails when its function returns [None]; the three functions
    catch every exception themselves. *)
Definition source_fails (f : string -> M aggregator (option (pyval * pyval)))
  (symbol : string) : Prop :=
forall s, fst (f symbol s) = Ret None.

Definition all_sources_fail (symbol : string) : Prop :=
source_fails (_get_from_ftso w) symbol /\
source_fails (_get_from_coingecko w) symbol /\
source_fails (_get_from_binance w) symbol.

End PricesNotions.

Section DaemonNotions.
Import Daemon.
Variable cfg : config.
Variable c : components.

Definition errors_of (d : daemon) : Z := errors (st_stats d).

Definition registered_of (d : daemon) : Z := tweets_registered (st_stats d).

(** Steps 1 to 4 of [process_tweet_event], that is its body without the
    resubmission stage: [Some] with the locator and the analysis when that
    stage is reached, [None] after an early return. *)
Definition before_resubmit (event : Poller.event)
  : M daemon (option (string * analysis)) :=
let* tweet_url := lift (Poller.extract_tweet_url event) in
match tweet_url with
| None | Some EmptyString => modify (with_stats incr_errors) ;; ret None
| Some tweet_url =>
    let* tweet_data := scrape_single_tweet c tweet_url in
    if negb (truthy (VDict tweet_data))
    then modify (with_stats incr_errors) ;; ret None
    else
      modify (with_stats incr_processed) ;;
      let* a := lift (analyze_tweet_content c tweet_data) in
      lift (log_summary a) ;;
      let* storage_result := store_to_filecoin cfg c tweet_data a in
      modify (with_stats incr_stored) ;;
      lift (dict_item storage_result "ipfs_cid") ;;
      lift (dict_item storage_result "root_cid") ;;
      let* registry_tx :=
        store_on_chain c tweet_data a storage_result (Poller.depositor event) in
      ret (Some (tweet_url, a))
end.

(** How [process_tweet_event] ends after steps 1 to 4. *)
Definition finish (r : outcome (option (string * analysis)) * daemon)
  : outcome unit * daemon :=
match r with
| (Ret (Some (tweet_url, a)), s') =>
    resubmit cfg c tweet_url (combined_controversy a) s'
| (Ret None, s') => (Ret tt, s')
| (Raise _, s') => (Ret tt, with_stats incr_errors s')
end.

(** The handler of the outer [try] of [process_tweet_event]. *)
Definition count_error : exn -> M daemon unit :=
fun _ => modify (with_stats incr_errors).

End DaemonNotions.

(** The event [e] with the validation field [v]. *)
Definition with_validation (v : pyval) (e : Poller.event) : Poller.event :=
{| Poller.block_number := Poller.block_number e;
   Poller.transaction_hash := Poller.transaction_hash e;
   Poller.tweet_hash := Poller.tweet_hash e;
   Poller.depositor := Poller.depositor e;
   Poller.recipient := Poller.recipient e;
   Poller.ip_amount := Poller.ip_amount e;
   Poller.validation := v;
   Poller.proof := Poller.proof e;
   Poller.timestamp := Poller.timestamp e;
   Poller.optional := Poller.optional e |}.

(* ===================================================================== *)
(** * Concrete configurations and collaborators *)
(* ===================================================================== *)

(** The defaults of [config.py]. *)
Definition cfg_default : config :=
{| MAX_BLOCK_RANGE := 1000; AUTO_SUBMIT_THRESHOLD := 75 # 100; DATA_DIR := "./data" |}.

Definition poller_at (b : Z) : Poller.poller :=
{| Poller.last_processed_block := b; Poller.block_file := Some b; Poller.queried := [] |}.

(** A chain at height 5000 without deposits. *)
Definition chain_quiet : Poller.chain :=
{| Poller.eth_block_number := Ret 5000;
   Poller.get_logs := fun _ _ => Ret [];
   Poller.utcnow_iso := "2025-01-01T00:00:00";
   Poller.write_block_file := Ret tt |}.

(** A node that reports its height and fails every log query. *)
Definition chain_down : Poller.chain :=
{| Poller.eth_block_number := Ret 5000;
   Poller.get_logs := fun _ _ => Raise ExternalError;
   Poller.utcnow_iso := "2025-01-01T00:00:00";
   Poller.write_block_file := Ret tt |}.

(** One deposit log, in block 500. *)
Definition log_500 : Poller.raw_log :=
{| Poller.log_blockNumber := 500;
   Poller.log_transactionHash := [Byte.x0a];
   Poller.log_args :=
     <["tweetHash" := VBytes [Byte.x0b]]>
       (<["depositor" := VStr "0xdepositor"]>
       (<["recipient" := VStr "0xbackend"]>
       (<["ipAmount" := VInt 1000000000000000]>
       (<["validation" := VStr "https://x.com/user/status/123"]> ∅)))) |}.

(** A chain at height [height] with that one deposit. *)
Definition chain_at (height : Z) : Poller.chain :=
{| Poller.eth_block_number := Ret height;
   Poller.get_logs := fun f t =>
     if Z.leb f 500 && Z.leb 500 t then Ret [log_500] else Ret [];
   Poller.utcnow_iso := "2025-01-01T00:00:00";
   Poller.write_block_file := Ret tt |}.

(** A call at time [now] in which CoinGecko and Binance answer; the oracle
    module is not installed. *)
Definition feeds_up (now : Q) : Prices.feeds :=
{| Prices.FTSO_AVAILABLE := false;
   Prices.ftso_get_price_for := fun _ => Raise ExternalError;
   Prices.coingecko_http := fun id =>
     Ret (<[id := VDict (<["usd" := VFloat 50000]>
                        (<["last_updated_at" := VInt 1735689600]> ∅))]> ∅);
   Prices.binance_http := fun _ => Ret (<["price" := VStr "50000.00"]> ∅);
   Prices.float_of_str := fun _ => Ret 50000%Q;
   Prices.time_time := now;
   Prices.utcnow_iso := "2025-01-01T00:00:00";
   Prices.utcfromtimestamp_iso := fun _ => Ret "2025-01-01T00:00:00" |}.

(** A call at time [now] in which no source answers. *)
Definition feeds_down (now : Q) : Prices.feeds :=
{| Prices.FTSO_AVAILABLE := true;
   Prices.ftso_get_price_for := fun _ => Raise ExternalError;
   Prices.coingecko_http := fun _ => Raise ExternalError;
   Prices.binance_http := fun _ => Raise ExternalError;
   Prices.float_of_str := fun _ => Raise ValueError;
   Prices.time_time := now;
   Prices.utcnow_iso := "2025-01-01T00:10:00";
   Prices.utcfromtimestamp_iso := fun _ => Ret "2025-01-01T00:10:00" |}.

(** The aggregator after one successful lookup of BTC at time 1000. *)
Definition aggregator_after_btc : Prices.aggregator :=
snd (Prices.get_price (feeds_up 1000) "btc" true Prices.empty_aggregator).

(** The quote cached by that lookup. *)
Definition btc_quote : gmap string pyval :=
Prices.success_quote (feeds_up 1000) "BTC" (VFloat 50000)
  (VStr "2025-01-01T00:00:00Z") "CoinGecko".

(** Both models call the text negative, with scores 0.9 and 0.8. *)
Definition analyzer_negative : Sentiment.analyzer :=
{| Sentiment.use_api := false;
   Sentiment.finbert_api := fun _ => Raise ExternalError;
   Sentiment.finbert_local := fun _ => Ret ("negative", 9 # 10);
   Sentiment.twitter_api := fun _ => Raise ExternalError;
   Sentiment.twitter_local := fun _ => Ret ("negative", 8 # 10) |}.

(** A registry whose existence check answers [present]. *)
Definition node_answering (present : bool) : Registry.node :=
{| Registry.keccak := fun _ => [Byte.xab; Byte.xcd];
   Registry.account_address := "0xbackend";
   Registry.contract_exists := fun _ => Ret present;
   Registry.get_transaction_count := Ret 7;
   Registry.chain_id := Ret 314;
   Registry.estimate_gas := fun _ => Ret 100000;
   Registry.gas_price := Ret 1000;
   Registry.send_transaction := fun _ _ => Ret [Byte.x01; Byte.x02] |}.

(** A daemon whose removal-risk scorer answers [score], whose classifier
    finds no token, whose storage succeeds, and with the given optional
    components. *)
Definition components_with (score : Q) (sa : option Sentiment.analyzer)
  (reg : option Registry.node) (sub : option (string -> Q -> outcome string))
  : Daemon.components :=
{| Daemon.analyze_tweet := fun _ => Ret (score, "analysis");
   Daemon.sentiment_analyzer := sa;
   Daemon.classifier := Some (fun _ =>
     Ret (<["token" := VStr "UNKNOWN"]> (<["confidence" := VFloat 0]> ∅)));
   Daemon.price_aggregator := None;
   Daemon.store_file := fun _ =>
     Ret (<["ipfs_cid" := VStr "QmData"]> (<["root_cid" := VStr "bafyRoot"]> ∅));
   Daemon.registry := reg;
   Daemon.submitter := sub;
   Daemon.utcnow_iso := "2025-01-01T00:00:00";
   Daemon.utcnow_stamp := "20250101_000000";
   Daemon.now_timestamp := 1735689600;
   Daemon.write_json := fun _ _ => Ret tt;
   Daemon.py_str := fun v => match v with VStr s => s | _ => "None" end;
   Daemon.py_int_of := fun _ => Raise TypeError |}.

Definition daemon_fresh : Daemon.daemon :=
{| Daemon.st_stats :=
     {| Daemon.tweets_processed := 0; Daemon.tweets_stored := 0;
        Daemon.tweets_registered := 0; Daemon.tweets_resubmitted := 0;
        Daemon.errors := 0 |};
   Daemon.st_prices := Prices.empty_aggregator;
   Daemon.scraped := []; Daemon.written := []; Daemon.uploaded := [];
   Daemon.registry_calls := []; Daemon.submitted := [] |}.

Definition event_blank : Poller.event :=
{| Poller.block_number := 4200;
   Poller.transaction_hash := "aa";
   Poller.tweet_hash := "bb";
   Poller.depositor := VStr "0xdepositor";
   Poller.recipient := VStr "0xbackend";
   Poller.ip_amount := VInt 1000000000000000;
   Poller.validation := VStr "";
   Poller.proof := "";
   Poller.timestamp := "2025-01-01T00:00:00";
   Poller.optional := [] |}.

Definition event_x : Poller.event :=
with_validation (VStr "https://x.com/user/status/123") event_blank.

(** The analysis of the placeholder record when the scorer answers 0.80
    and no sentiment analyzer is configured. *)
Definition analysis_080 : Daemon.analysis :=
{| Daemon.deletion_likelihood := 80 # 100;
   Daemon.analysis_text := "analysis";
   Daemon.sentiment := None;
   Daemon.ecosystem :=
     Some (<["token" := VStr "UNKNOWN"]> (<["confidence" := VFloat 0]> ∅));
   Daemon.combined_controversy := 80 # 100 |}.

(* ===================================================================== *)
(** * More of the cited files *)
(* ===================================================================== *)

(** ** contract_poller.py: the block file at start-up, the callback loop *)

Module Checkpoint.

Definition digit_char (n : N) : ascii := ascii_of_N (48 + n).

(** The decimal digits of [n] put in front of [acc]; [fuel] bounds their
    number. *)
Fixpoint digits_of (fuel : nat) (n : N) (acc : string) : string :=
  match fuel with
  | O => acc
  | S fuel' =>
      let acc' := String (digit_char (n mod 10)) acc in
      if (n / 10 =? 0)%N then acc' else digits_of fuel' (n / 10) acc'
  end.

(** [str(z)] on an [int]. *)
Definition str_of_int (z : Z) : string :=
  match z with
  | Z0 => "0"
  | Zpos p => digits_of (Pos.size_nat p) (Npos p) ""
  | Zneg p => String "-" (digits_of (Pos.size_nat p) (Npos p) "")
  end.

(** The digits of an integer literal: at least one digit, single
    underscores between digits. *)
Fixpoint int_digits (acc : Z) (after_digit : bool) (s : string) : option Z :=
  match s with
  | EmptyString => if after_digit then Some acc else None
  | String c s' =>
      if Daemon.is_digit c
      then int_digits (10 * acc + Z.of_N (N_of_ascii c) - 48) true s'
      else if Ascii.eqb c "_" && after_digit then int_digits acc false s'
      else None
  end.

(** [int(s)] on a [str], in base 10 and on ASCII digits: surrounding white
    space, an optional sign, the digits. *)
Definition int_of_str (s : string) : outcome Z :=
  let s := Str.strip s in
  let '(negative, body) :=
    match s with
    | String "-" b => (true, b)
    | String "+" b => (false, b)
    | _ => (false, s)
    end in
  match int_digits 0 false body with
  | Some v => Ret (if negative then - v else v)
  | None => Raise ValueError
  end.

(** [LAST_BLOCK_FILE] on disk. *)
Inductive file_state : Type :=
| Missing
| Unreadable
| Content (text : string).

(** The file that [_save_last_processed_block] leaves: the poller keeps the
    integer, the file holds its [str]. *)
Definition block_file_text (p : Poller.poller) : file_state :=
  match Poller.block_file p with
  | Some b => Content (str_of_int b)
  | None => Missing
  end.

Section WithChain.
Variable w : Poller.chain.

Definition _get_last_processed_block (f : file_state) : outcome Z :=
  let from_current :=
    let+ current := Poller.eth_block_number w in
    Ret (Z.max 0 (current - 100)) in
  match f with
  | Content text =>
      match int_of_str (Str.strip text) with
      | Ret block => Ret block
      | Raise _ => from_current
      end
  | Unreadable => from_current
  | Missing => from_current
  end.

End WithChain.

End Checkpoint.

Module PollLoop.

(** The [for] loop of [poll_forever] over one batch: each callback runs in
    its own [try]. *)
Fixpoint dispatch {St} (callback : Poller.event -> M St unit)
  (events : list Poller.event) : M St unit :=
  match events with
  | [] => ret tt
  | event :: rest =>
      try_except (callback event) (fun _ => ret tt) ;;
      dispatch callback rest
  end.

(** One turn of the [while] loop of [poll_forever], without the sleep. *)
Definition poll_forever_turn {St} (cfg : config) (w : Poller.chain)
  (callback : option (Poller.event -> M St unit)) : M (Poller.poller * St) unit :=
  let* events := zoom fst (fun p s => (p, snd s)) (Poller.poll_once cfg w) in
  match events, callback with
  | _ :: _, Some cb => zoom snd (fun t s => (fst s, t)) (dispatch cb events)
  | _, _ => ret tt
  end.

End PollLoop.

(** ** price_aggregator.py: the cache and the batch lookup *)

Module PricesBatch.

(** The aggregator together with the durations passed to [time.sleep]. *)
Record sleeper : Type := {
  sl_agg : Prices.aggregator;
  sl_slept : list Q;
}.

Definition set_agg (a : Prices.aggregator) (s : sleeper) : sleeper :=
  {| sl_agg := a; sl_slept := sl_slept s |}.

Definition sleep (d : Q) (s : sleeper) : sleeper :=
  {| sl_agg := sl_agg s; sl_slept := sl_slept s ++ [d] |}.

(** [clear_cache()] *)
Definition clear_cache : M Prices.aggregator unit :=
  modify (fun s => {| Prices.price_cache := ∅; Prices.source_log := Prices.source_log s |}).

Section WithFeeds.
(** The outside world at the i-th lookup of the batch. *)
Variable w : nat -> Prices.feeds.

(** The [for] loop of [get_multiple_prices] from the i-th symbol on. *)
Fixpoint lookup_all (i : nat) (symbols : list string)
  (results : gmap string (gmap string pyval))
  : M sleeper (gmap string (gmap string pyval)) :=
  match symbols with
  | [] => ret results
  | symbol :: rest =>
      let* q := zoom sl_agg set_agg (Prices.get_price (w i) symbol true) in
      modify (sleep (1 # 10)) ;;
      lookup_all (S i) rest (<[symbol := q]> results)
  end.

Definition get_multiple_prices (symbols : list string)
  : M sleeper (gmap string (gmap string pyval)) :=
  let* results := lookup_all 0 symbols ∅ in
  (* the count of successes indexes ["success"] in every result *)
  lift (omap_all (fun r => dict_item (snd r) "success") (map_to_list results)) ;;
  ret results.

End WithFeeds.

End PricesBatch.

(** ** huggingface_sentiment.py: the module-level helper *)

Module SentimentHelper.

(** [analyze_tweet_sentiment(text)]: the dict of [analyze_multimodal] with
    the controversy score added. *)
Definition analyze_tweet_sentiment (a : Sentiment.analyzer) (text : string)
  : outcome (gmap string pyval) :=
  let+ analysis := Sentiment.analyze_multimodal a text in
  let+ score := Sentiment.get_controversy_score a text in
  Ret (<["controversy_score" := VFloat score]> analysis).

End SentimentHelper.

(** ** tweet_submitter.py: the gate of the submitter itself *)

Module Submitter.

Definition should_submit (cfg : config) (controversy_score : Q) : bool :=
  Qle_bool (AUTO_SUBMIT_THRESHOLD cfg) controversy_score.

(** [submit_if_controversial]; the state is the log of [submit_tweet]
    calls. *)
Definition submit_if_controversial (cfg : config)
  (submit_tweet : string -> Q -> outcome string)
  (tweet_url : string) (controversy_score : Q)
  : M (list (string * Q)) (option string) :=
  if should_submit cfg controversy_score then
    modify (fun l => (l ++ [(tweet_url, controversy_score)])%list) ;;
    let* tx_hash := lift (submit_tweet tweet_url controversy_score) in
    ret (Some tx_hash)
  else ret None.

End Submitter.

(** ** ecosystem_classifier.py *)

Module Classifier.

(** The language model behind the classifier. *)
Record llm : Type := {
  (** the content of the reply to the prompt built from a tweet text *)
  invoke : string -> outcome string;
  (** [str(e)] *)
  error_text : exn -> string;
}.

(** [list(config.SUPPORTED_TOKENS.keys())] *)
Definition supported_tokens : list string := map fst SUPPORTED_TOKENS.

Definition variations : list (string * list string) :=
  [ ("BTC", ["bitcoin"; "btc"]);
    ("ETH", ["ethereum"; "eth"; "ether"]);
    ("SOL", ["solana"; "sol"]);
    ("ADA", ["cardano"; "ada"]);
    ("DOT", ["polkadot"; "dot"]);
    ("AVAX", ["avalanche"; "avax"]);
    ("MATIC", ["polygon"; "matic"]);
    ("POL", ["polygon"; "pol"]) ].

Definition _calculate_confidence (text token : string) : Q :=
  if String.eqb token "UNKNOWN" then 0%Q
  else
    let text_lower := Str.lower text in
    let token_lower := Str.lower token in
    let metadata := get_token_info token in
    let chain :=
      match dict_get metadata "chain" (VStr "") with
      | VStr c => Str.lower c
      | _ => ""
      end in
    let score := 0%Q in
    let score :=
      if Str.contains ("$" ++ token_lower) text_lower then (score + (5 # 10))%Q
      else if Str.contains token_lower text_lower then (score + (3 # 10))%Q
      else score in
    let score :=
      if negb (String.eqb chain "") && Str.contains chain text_lower
      then (score + (3 # 10))%Q else score in
    let score :=
      match List.find (fun e => String.eqb (fst e) token) variations with
      | Some (_, vars) =>
          if existsb (fun var => Str.contains var text_lower) vars
          then (score + (2 # 10))%Q else score
      | None => score
      end in
    py_min1 score.

Definition unknown_result : gmap string pyval :=
  <["token" := VStr "UNKNOWN"]>
    (<["confidence" := VFloat 0]>
    (<["ecosystem" := VStr "Unknown"]>
    (<["metadata" := VDict ∅]> ∅))).

Section WithModel.
Variable l : llm.

(** [classify_tweet(tweet_text)]; the state is the log of the texts sent
    to the model. *)
Definition classify_tweet (tweet_text : string) : M (list string) (gmap string pyval) :=
  if String.eqb tweet_text "" || String.eqb (Str.strip tweet_text) ""
  then ret unknown_result
  else
    try_except
      (modify (fun log => (log ++ [tweet_text])%list) ;;
       let* content := lift (invoke l tweet_text) in
       let token := Str.upper (Str.strip content) in
       let token :=
         if negb (existsb (String.eqb token) supported_tokens)
            && negb (String.eqb token "UNKNOWN")
         then "UNKNOWN" else token in
       let metadata :=
         if negb (String.eqb token "UNKNOWN") then get_token_info token else ∅ in
       let confidence := _calculate_confidence tweet_text token in
       ret (<["token" := VStr token]>
           (<["confidence" := VFloat confidence]>
           (<["ecosystem" := dict_get metadata "chain" (VStr "Unknown")]>
           (<["metadata" := VDict metadata]> ∅)))))
      (fun e => ret (<["error" := VStr (error_text l e)]> unknown_result)).

End WithModel.

End Classifier.

(** ** main_daemon.py: the loop over a batch *)

Module DaemonLoop.

(** The [for] loop over the events of one poll, as in [main] with
    [--once] and in [run] while no shutdown is requested. *)
Fixpoint process_events (cfg : config) (c : Daemon.components)
  (events : list Poller.event) : M Daemon.daemon unit :=
  match events with
  | [] => ret tt
  | event :: rest =>
      Daemon.process_tweet_event cfg c event ;;
      process_events cfg c rest
  end.

(** One poll followed by the loop over its batch. *)
Definition poll_and_process (cfg : config) (c : Daemon.components) (w : Poller.chain)
  : M (Poller.poller * Daemon.daemon) unit :=
  let* events := zoom fst (fun p s => (p, snd s)) (Poller.poll_once cfg w) in
  zoom snd (fun t s => (fst s, t)) (process_events cfg c events).

End DaemonLoop.

(** ** Notions used in the further statements *)

(** No character of [s] is white space. *)
Fixpoint no_space (s : string) : Prop :=
  match s with
  | EmptyString => True
  | String c s' => Str.is_space c = false /\ no_space s'
  end.

(** A block file from which no height can be read. *)
Definition unusable (f : Checkpoint.file_state) : Prop :=
  match f with
  | Checkpoint.Content text => exists e, Checkpoint.int_of_str (Str.strip text) = Raise e
  | _ => True
  end.

(** The keys that [_parse_event] indexes without a default. *)
Definition required_args : list string :=
  ["tweetHash"; "depositor"; "recipient"; "ipAmount"].

(** A price source in the sense of [get_price]: it leaves the cache alone,
    and it either gives up with [None] or returns a price that is a
    number; it never raises. *)
Definition answers_or_gives_up
  (f : string -> M Prices.aggregator (option (pyval * pyval))) : Prop :=
forall symbol s,
  Prices.price_cache (snd (f symbol s)) = Prices.price_cache s /\
  (fst (f symbol s) = Ret None \/
   exists price timestamp x,
     fst (f symbol s) = Ret (Some (price, timestamp)) /\ as_number price = Ret x).

(** The reply of each model to the analyzer, through the API or from the
    local pipeline. *)
Definition finbert_reply (a : Sentiment.analyzer) (text : string) : outcome (string * Q) :=
if Sentiment.use_api a then Sentiment.finbert_api a text
else Sentiment.finbert_local a (Str.take 512 text).

Definition twitter_reply (a : Sentiment.analyzer) (text : string) : outcome (string * Q) :=
if Sentiment.use_api a then Sentiment.twitter_api a text
else Sentiment.twitter_local a (Str.take 512 text).

(** The score that a model's dict carries: the model's own, or 0.5 after a
    failure. *)
Definition score_of (r : outcome (string * Q)) : Q :=
match r with
| Ret (_, score) => score
| Raise _ => 5 # 10
end.

(** The share of the controversy keywords found in a text. *)
Definition keyword_share (text : string) : Q :=
(inject_Z (Z.of_nat (Sentiment.keyword_hits (Str.lower text))) / 13)%Q.

(** What one processed event may do to the counters: each moves by at
    most one; a record is stored only if it was processed, registered or
    resubmitted only if it was stored; an event that is not counted as
    processed is counted as an error; and an event counted as an error is
    neither registered nor resubmitted. *)
Definition stats_step (st st' : Daemon.stats) : Prop :=
let dpro := Daemon.tweets_processed st' - Daemon.tweets_processed st in
let dsto := Daemon.tweets_stored st' - Daemon.tweets_stored st in
let dreg := Daemon.tweets_registered st' - Daemon.tweets_registered st in
let dres := Daemon.tweets_resubmitted st' - Daemon.tweets_resubmitted st in
let derr := Daemon.errors st' - Daemon.errors st in
0 <= dreg <= dsto /\ 0 <= dres <= dsto /\ dsto <= dpro <= 1 /\ 0 <= derr <= 1 /\
(dpro = 0 -> derr = 1) /\ (derr = 1 -> dreg = 0 /\ dres = 0).

(** The counters are consistent: nothing is registered that was not
    stored, nothing stored that was not processed. *)
Definition stats_consistent (st : Daemon.stats) : Prop :=
0 <= Daemon.tweets_registered st <= Daemon.tweets_stored st /\
0 <= Daemon.tweets_resubmitted st <= Daemon.tweets_stored st /\
Daemon.tweets_stored st <= Daemon.tweets_processed st /\
0 <= Daemon.errors st.

(** The classification of an analysis, when there is one, names a token. *)
Definition has_token (a : Daemon.analysis) : Prop :=
forall eco, Daemon.ecosystem a = Some eco -> is_Some (eco !! "token").

(** The daemon whose classifier could not be built. *)
Definition without_classifier (c : Daemon.components) : Daemon.components :=
{| Daemon.analyze_tweet := Daemon.analyze_tweet c;
   Daemon.sentiment_analyzer := Daemon.sentiment_analyzer c;
   Daemon.classifier := None;
   Daemon.price_aggregator := Daemon.price_aggregator c;
   Daemon.store_file := Daemon.store_file c;
   Daemon.registry := Daemon.registry c;
   Daemon.submitter := Daemon.submitter c;
   Daemon.utcnow_iso := Daemon.utcnow_iso c;
   Daemon.utcnow_stamp := Daemon.utcnow_stamp c;
   Daemon.now_timestamp := Daemon.now_timestamp c;
   Daemon.write_json := Daemon.write_json c;
   Daemon.py_str := Daemon.py_str c;
   Daemon.py_int_of := Daemon.py_int_of c |}.

(** [returns m]: [m] never raises. *)
Definition returns {St A} (m : M St A) : Prop :=
forall s, exists r, fst (m s) = Ret r.

(** The file that [store_to_filecoin] writes and uploads. *)
Definition data_file (cfg : config) (c : Daemon.components) : string :=
Daemon.path_join (DATA_DIR cfg) ("tweet_" ++ Daemon.utcnow_stamp c ++ ".json").

(** The daemon with the price aggregator [feeds]. *)
Definition with_price_feeds (feeds : Prices.feeds) (c : Daemon.components)
  : Daemon.components :=
{| Daemon.analyze_tweet := Daemon.analyze_tweet c;
   Daemon.sentiment_analyzer := Daemon.sentiment_analyzer c;
   Daemon.classifier := Daemon.classifier c;
   Daemon.price_aggregator := Some feeds;
   Daemon.store_file := Daemon.store_file c;
   Daemon.registry := Daemon.registry c;
   Daemon.submitter := Daemon.submitter c;
   Daemon.utcnow_iso := Daemon.utcnow_iso c;
   Daemon.utcnow_stamp := Daemon.utcnow_stamp c;
   Daemon.now_timestamp := Daemon.now_timestamp c;
   Daemon.write_json := Daemon.write_json c;
   Daemon.py_str := Daemon.py_str c;
   Daemon.py_int_of := Daemon.py_int_of c |}.




(** ** Further collaborators *)

(** A deposit log whose arguments lack the depositor. *)
Definition log_without_depositor : Poller.raw_log :=
{| Poller.log_blockNumber := 501;
   Poller.log_transactionHash := [Byte.x0c];
   Poller.log_args :=
     <["tweetHash" := VBytes [Byte.x0d]]>
       (<["recipient" := VStr "0xbackend"]>
       (<["ipAmount" := VInt 1]> ∅)) |}.

(** A chain at height 600 that returns the well-formed deposit followed by
    the malformed one. *)
Definition chain_mixed : Poller.chain :=
{| Poller.eth_block_number := Ret 600;
   Poller.get_logs := fun _ _ => Ret [log_500; log_without_depositor];
   Poller.utcnow_iso := "2025-01-01T00:00:00";
   Poller.write_block_file := Ret tt |}.

(** The chain of [chain_at] seen from a host whose data directory cannot
    be written. *)
Definition chain_readonly (height : Z) : Poller.chain :=
{| Poller.eth_block_number := Ret height;
   Poller.get_logs := Poller.get_logs (chain_at height);
   Poller.utcnow_iso := "2025-01-01T00:00:00";
   Poller.write_block_file := Raise OSError |}.

(** A call at time [now] in which the oracle answers with a numeric time
    stamp and the HTTP sources are down. *)
Definition feeds_ftso (now : Q) : Prices.feeds :=
{| Prices.FTSO_AVAILABLE := true;
   Prices.ftso_get_price_for := fun _ => Ret (VFloat (2 # 100), VInt 1735689600);
   Prices.coingecko_http := fun _ => Raise ExternalError;
   Prices.binance_http := fun _ => Raise ExternalError;
   Prices.float_of_str := fun _ => Raise ValueError;
   Prices.time_time := now;
   Prices.utcnow_iso := "2025-01-01T00:00:00";
   Prices.utcfromtimestamp_iso := fun _ => Ret "2025-01-01T00:00:00" |}.

(** An aggregator object that has not looked anything up yet, with the
    record of its pauses. *)
Definition sleeper_fresh : PricesBatch.sleeper :=
{| PricesBatch.sl_agg := Prices.empty_aggregator; PricesBatch.sl_slept := [] |}.

(** An analyzer whose FinBERT endpoint answers with a class index instead
    of a sentiment name. *)
Definition analyzer_indexed : Sentiment.analyzer :=
{| Sentiment.use_api := true;
   Sentiment.finbert_api := fun _ => Ret ("LABEL_2", 9 # 10);
   Sentiment.finbert_local := fun _ => Raise ExternalError;
   Sentiment.twitter_api := fun _ => Ret ("LABEL_2", 8 # 10);
   Sentiment.twitter_local := fun _ => Raise ExternalError |}.


(** An analysis whose classification names BTC. *)
Definition analysis_btc : Daemon.analysis :=
{| Daemon.deletion_likelihood := 80 # 100;
   Daemon.analysis_text := "analysis";
   Daemon.sentiment := None;
   Daemon.ecosystem := Some (<["token" := VStr "BTC"]> (<["confidence" := VFloat 1]> ∅));
   Daemon.combined_controversy := 80 # 100 |}.

(** A daemon whose aggregator has looked BTC up once, with success. *)
Definition daemon_after_btc : Daemon.daemon :=
{| Daemon.st_stats := Daemon.st_stats daemon_fresh;
   Daemon.st_prices := aggregator_after_btc;
   Daemon.scraped := []; Daemon.written := []; Daemon.uploaded := [];
   Daemon.registry_calls := []; Daemon.submitted := [] |}.




(* ===================================================================== *)
(** * Proof tools *)
(* ===================================================================== *)

Ltac run := unfold bind, ret, raise, lift, modify, gets, try_except, zoom; simpl.

Section Preserves.
Context {St B : Type} (f : St -> B).

Lemma preserves_ret {A} (a : A) : preserves f (ret a).
Proof. intros s. reflexivity. Qed.

Lemma preserves_raise {A} (e : exn) : preserves f (@raise St A e).
Proof. intros s. reflexivity. Qed.

Lemma preserves_lift {A} (o : outcome A) : preserves f (lift o).
Proof. intros s. reflexivity. Qed.

Lemma preserves_gets {A} (g : St -> A) : preserves f (gets g).
Proof. intros s. reflexivity. Qed.

Lemma preserves_modify (g : St -> St) :
  (forall s, f (g s) = f s) -> preserves f (modify g).
Proof. intros H s. apply H. Qed.

Lemma preserves_bind {A C} (m : M St A) (k : A -> M St C) :
  preserves f m -> (forall a, preserves f (k a)) -> preserves f (bind m k).
Proof.
  intros Hm Hk s. unfold bind. specialize (Hm s).
  destruct (m s) as [[a|e] s']; simpl in *; [|assumption].
  rewrite Hk. assumption.
Qed.

Lemma preserves_try_except {A} (m : M St A) (h : exn -> M St A) :
  preserves f m -> (forall e, preserves f (h e)) -> preserves f (try_except m h).
Proof.
  intros Hm Hh s. unfold try_except. specialize (Hm s).
  destruct (m s) as [[a|e] s']; simpl in *; [assumption|].
  rewrite Hh. assumption.
Qed.

Lemma preserves_zoom {T A} (proj : St -> T) (upd : T -> St -> St) (m : M T A) :
  (forall t s, f (upd t s) = f s) -> preserves f (zoom proj upd m).
Proof. intros H s. unfold zoom. destruct (m (proj s)). simpl. apply H. Qed.

End Preserves.

Ltac frame_step :=
  lazymatch goal with
  | |- forall _, _ => intro
  | |- preserves _ (ret _) => apply preserves_ret
  | |- preserves _ (raise _) => apply preserves_raise
  | |- preserves _ (lift _) => apply preserves_lift
  | |- preserves _ (gets _) => apply preserves_gets
  | |- preserves _ (modify _) => apply preserves_modify; intros []; reflexivity
  | |- preserves _ (zoom _ _ _) => apply preserves_zoom; intros ? []; reflexivity
  | |- preserves _ (bind _ _) => apply preserves_bind
  | |- preserves _ (try_except _ _) => apply preserves_try_except
  | |- preserves _ (match ?x with _ => _ end) => destruct x
  end.

Ltac frame := repeat frame_step.

(** Close a goal about the calls added to a log when none was added. *)
Ltac stop tac := exists []; rewrite app_nil_r; split; [tac | intros ? []].

Lemma truthy_insert (k : string) (v : pyval) (d : gmap string pyval) :
  truthy (VDict (<[k := v]> d)) = true.
Proof.
  simpl. rewrite bool_decide_eq_false_2; [reflexivity|]. apply insert_non_empty.
Qed.

(* ===================================================================== *)
(** * The poller *)
(* ===================================================================== *)

Section PollerFacts.
Import Poller.
Variable cfg : config.
Variable w : chain.

Lemma get_new_events_bounds (f t : Z) (p : poller) :
  get_new_events cfg w (Some f) (Some t) p =
  if Z.gtb f (clamped_to cfg f t) then (Ret [], p)
  else
    (match get_logs w f (clamped_to cfg f t) with
     | Ret logs =>
         match omap_all (_parse_event w) logs with
         | Ret evs => Ret evs
         | Raise _ => Ret []
         end
     | Raise _ => Ret []
     end, log_query f (clamped_to cfg f t) p).
Proof.
  unfold get_new_events, clamped_to. run.
  destruct (Z.gtb f _); [reflexivity|].
  destruct (get_logs w f _) as [logs|e]; simpl; [|reflexivity].
  destruct (omap_all _ logs); reflexivity.
Qed.

Lemma get_new_events_default_from (t : Z) (p : poller) :
  get_new_events cfg w None (Some t) p =
  get_new_events cfg w (Some (last_processed_block p + 1)) (Some t) p.
Proof. reflexivity. Qed.

(** [get_new_events] touches neither the attribute nor the file. *)
Lemma get_new_events_frame (t : Z) (p : poller) :
  last_processed_block (snd (get_new_events cfg w None (Some t) p))
    = last_processed_block p /\
  block_file (snd (get_new_events cfg w None (Some t) p)) = block_file p.
Proof.
  rewrite get_new_events_default_from, get_new_events_bounds.
  destruct (Z.gtb _ _); simpl; auto.
Qed.

(** The two ways to an empty batch that the poller logs differently. *)
Lemma cycle_batch_query_raises (p : poller) (cur : Z) (e : exn) :
  eth_block_number w = Ret cur ->
  get_logs w (last_processed_block p + 1)
    (clamped_to cfg (last_processed_block p + 1) cur) = Raise e ->
  cycle_batch cfg w p = [].
Proof.
  intros Hc Hq. unfold cycle_batch. rewrite Hc.
  rewrite get_new_events_default_from, get_new_events_bounds.
  destruct (Z.gtb _ _); simpl; [reflexivity|]. now rewrite Hq.
Qed.

Lemma cycle_batch_no_events (p : poller) (cur : Z) :
  eth_block_number w = Ret cur ->
  get_logs w (last_processed_block p + 1)
    (clamped_to cfg (last_processed_block p + 1) cur) = Ret [] ->
  cycle_batch cfg w p = [].
Proof.
  intros Hc Hq. unfold cycle_batch. rewrite Hc.
  rewrite get_new_events_default_from, get_new_events_bounds.
  destruct (Z.gtb _ _); simpl; [reflexivity|]. now rewrite Hq.
Qed.

Lemma poll_once_empty (p : poller) :
  cycle_batch cfg w p = [] ->
  fst (poll_once cfg w p) = Ret [] /\
  last_processed_block (snd (poll_once cfg w p)) = last_processed_block p /\
  block_file (snd (poll_once cfg w p)) = block_file p.
Proof.
  unfold cycle_batch, poll_once. run.
  destruct (eth_block_number w) as [cur|e]; simpl; [|auto].
  pose proof (get_new_events_frame cur p) as Hf.
  destruct (get_new_events cfg w None (Some cur) p) as [[evs|e] p1]; simpl in *.
  - intros ->. simpl. auto.
  - intros _. auto.
Qed.

(** A cycle with events: the height read at the start of the cycle is
    stored, whatever range was queried. *)
Lemma poll_once_events (p : poller) (cur : Z) :
  eth_block_number w = Ret cur ->
  cycle_batch cfg w p <> [] ->
  write_block_file w = Ret tt ->
  last_processed_block (snd (poll_once cfg w p)) = cur /\
  block_file (snd (poll_once cfg w p)) = Some cur /\
  queried (snd (poll_once cfg w p)) =
    (queried p ++ [(last_processed_block p + 1,
                    clamped_to cfg (last_processed_block p + 1) cur)])%list.
Proof.
  intros Hc Hb Hw. unfold cycle_batch in Hb. unfold poll_once. run.
  rewrite Hc in *. simpl.
  rewrite get_new_events_default_from, get_new_events_bounds in *.
  destruct (Z.gtb _ _); simpl in *; [congruence|].
  destruct (get_logs w _ _) as [logs|e]; simpl in *; [|congruence].
  destruct (omap_all _ logs) as [[|ev evs]|e]; simpl in *; try congruence.
  unfold _save_last_processed_block. run. rewrite Hw. simpl. auto.
Qed.

(** The checkpoint moves only in a cycle whose query yields an event. *)
Corollary poll_once_checkpoint_moved (p : poller) :
  last_processed_block (snd (poll_once cfg w p)) <> last_processed_block p \/
  block_file (snd (poll_once cfg w p)) <> block_file p ->
  cycle_batch cfg w p <> [].
Proof.
  intros H Hb. destruct (poll_once_empty p Hb) as (_ & H1 & H2).
  destruct H; congruence.
Qed.

End PollerFacts.

(** C5: with explicit bounds [from_block > to_block], [get_new_events]
    returns the empty list and leaves the poller as it was; in particular
    the log of ledger queries is unchanged: no query is made. *)
Theorem get_new_events_inverted_range
  (cfg : config) (w : Poller.chain) (p : Poller.poller) (f t : Z) :
  f > t -> Poller.get_new_events cfg w (Some f) (Some t) p = (Ret [], p).
Proof.
  intros H. rewrite get_new_events_bounds. unfold clamped_to.
  destruct (Z.gtb_spec (t - f) (MAX_BLOCK_RANGE cfg)) as [Hc|Hc].
  - destruct (Z.gtb_spec f (f + MAX_BLOCK_RANGE cfg)); [reflexivity | lia].
  - destruct (Z.gtb_spec f t); [reflexivity | lia].
Qed.

Lemma get_new_events_inverted_range_witness :
  Poller.get_new_events cfg_default chain_quiet (Some 10) (Some 5) (poller_at 0)
  = (Ret [], poller_at 0).
Proof.
  apply (get_new_events_inverted_range cfg_default chain_quiet (poller_at 0) 10 5).
  lia.
Defined.





(** C2 at the failing input: the checkpoint is 0, the chain is at height
    5000 and the maximum span is 1000.  The cycle queries blocks 1 to
    1001, finds the deposit of block 500, and stores 5000 in the attribute
    and in the file, although blocks 1002 to 5000 were not queried; the
    next cycle starts at block 5001. *)
Theorem poll_once_stores_height_beyond_queried_range :
  let p1 := snd (Poller.poll_once cfg_default (chain_at 5000) (poller_at 0)) in
  let p2 := snd (Poller.poll_once cfg_default (chain_at 5010) p1) in
  length (cycle_batch cfg_default (chain_at 5000) (poller_at 0)) = 1%nat /\
  Poller.queried p1 = [(1, 1001)] /\
  Poller.last_processed_block p1 = 5000 /\
  Poller.block_file p1 = Some 5000 /\
  1001 < 5000 /\
  Poller.queried p2 = [(1, 1001); (5001, 5010)].
Proof. repeat split. Qed.

(* ===================================================================== *)
(** * The price aggregator *)
(* ===================================================================== *)

Section PricesFacts.
Import Prices.
Variable w : feeds.

Lemma _get_from_ftso_cache symbol : preserves price_cache (_get_from_ftso w symbol).
Proof. unfold _get_from_ftso. frame. Qed.

Lemma _get_from_coingecko_cache symbol :
  preserves price_cache (_get_from_coingecko w symbol).
Proof. unfold _get_from_coingecko. frame. Qed.

Lemma _get_from_binance_cache symbol :
  preserves price_cache (_get_from_binance w symbol).
Proof. unfold _get_from_binance. frame. Qed.

Lemma attempt_failing_source name f symbol rest s :
  source_fails f symbol ->
  try_sources w ((name, f) :: rest) symbol s =
  try_sources w rest symbol (snd (f symbol (log_source (Attempt name) s))).
Proof.
  intros Hf. simpl. run. specialize (Hf (log_source (Attempt name) s)).
  destruct (f symbol _) as [[[r|]|e] s']; simpl in *; try discriminate.
  reflexivity.
Qed.

(** When the loop over the sources is reached and every source fails, the
    zero quote is returned and the cache is left as it was. *)
Lemma try_sources_all_fail symbol s :
  all_sources_fail w symbol ->
  fst (try_sources w (sources w) symbol s) = Ret (failure_quote w symbol) /\
  price_cache (snd (try_sources w (sources w) symbol s)) = price_cache s.
Proof.
  intros (H1 & H2 & H3). unfold sources.
  rewrite (attempt_failing_source _ _ _ _ _ H1).
  rewrite (attempt_failing_source _ _ _ _ _ H2).
  rewrite (attempt_failing_source _ _ _ _ _ H3).
  split; [reflexivity|]. simpl.
  rewrite _get_from_binance_cache. simpl.
  rewrite _get_from_coingecko_cache. simpl.
  rewrite _get_from_ftso_cache. reflexivity.
Qed.

(** The fall-through of [get_price] when the cache is not consulted or
    holds nothing for the symbol: price 0.0, [success] false, source
    ["none"]. *)
Lemma get_price_all_fail_without_entry symbol use_cache s :
  all_sources_fail w (Str.upper symbol) ->
  use_cache = false \/ price_cache s !! Str.upper symbol = None ->
  fst (get_price w symbol use_cache s) = Ret (failure_quote w (Str.upper symbol)) /\
  price_cache (snd (get_price w symbol use_cache s)) = price_cache s.
Proof.
  intros Hf Hc. unfold get_price, _is_cache_valid. run.
  destruct Hc as [-> | Hc].
  - apply try_sources_all_fail; assumption.
  - destruct use_cache; [rewrite Hc|]; apply try_sources_all_fail; assumption.
Qed.

Lemma failure_quote_fields symbol :
  failure_quote w symbol !! "price" = Some (VFloat 0) /\
  failure_quote w symbol !! "success" = Some (VBool false) /\
  failure_quote w symbol !! "source" = Some (VStr "none").
Proof. repeat split. Qed.

(** The validity test reads the key ["timestamp"]; on an entry whose
    ["timestamp"] is not a number the subtraction raises, before any
    source is tried. *)
Lemma get_price_raises_on_entry symbol entry s :
  price_cache s !! Str.upper symbol = Some entry ->
  as_number (dict_get entry "timestamp" (VInt 0)) = Raise TypeError ->
  get_price w symbol true s = (Raise TypeError, s).
Proof.
  intros Hc Ht. unfold get_price, _is_cache_valid. run.
  rewrite Hc, Ht. reflexivity.
Qed.

(** The time stamp of a CoinGecko or Binance result is always a [str]. *)
Lemma _get_from_coingecko_timestamp symbol s price timestamp :
  fst (_get_from_coingecko w symbol s) = Ret (Some (price, timestamp)) ->
  exists iso, timestamp = VStr iso.
Proof.
  unfold _get_from_coingecko. run.
  destruct (dict_get _ "coingecko_id" VNone) as [| | | |id| |]; try discriminate.
  destruct (String.eqb id ""); [discriminate|]. simpl.
  destruct (coingecko_http w id) as [data|]; simpl; [|discriminate].
  destruct (data !! id) as [[| | | | | |entry]|]; simpl; try discriminate.
  destruct (dict_item entry "usd") as [p|]; simpl; [|discriminate].
  destruct (as_number (dict_get entry "last_updated_at" _)); simpl; [|discriminate].
  destruct (utcfromtimestamp_iso w _) as [iso|]; simpl; [|discriminate].
  unfold format_4f. destruct (as_number p); simpl; [|discriminate].
  intros [= <- <-]. eauto.
Qed.

Lemma _get_from_binance_timestamp symbol s price timestamp :
  fst (_get_from_binance w symbol s) = Ret (Some (price, timestamp)) ->
  exists iso, timestamp = VStr iso.
Proof.
  unfold _get_from_binance. run.
  destruct (binance_http w _) as [data|]; simpl; [|discriminate].
  destruct (dict_item data "price") as [p|]; simpl; [|discriminate].
  destruct (py_float w p); simpl; [|discriminate].
  intros [= <- <-]. eauto.
Qed.

(** The quote that [get_price] caches keeps the time stamp of the source
    under ["timestamp"] and the clock reading under ["timestamp_unix"]. *)
Lemma success_quote_timestamp symbol price timestamp name :
  success_quote w symbol price timestamp name !! "timestamp" = Some timestamp /\
  success_quote w symbol price timestamp name !! "timestamp_unix"
    = Some (VFloat (time_time w)).
Proof. split; reflexivity. Qed.

End PricesFacts.

Lemma coingecko_id_of_token (symbol : string) :
  dict_get (get_token_info symbol) "coingecko_id" VNone = VNone \/
  exists id, dict_get (get_token_info symbol) "coingecko_id" VNone = VStr id.
Proof.
  unfold get_token_info.
  destruct (find _ SUPPORTED_TOKENS) as [[? [chain id]]|]; [right|left].
  - exists id. reflexivity.
  - reflexivity.
Qed.

Lemma feeds_down_all_fail (now : Q) (symbol : string) :
  all_sources_fail (feeds_down now) symbol.
Proof.
  split; [|split]; intros s; [reflexivity| |reflexivity].
  unfold Prices._get_from_coingecko.
  destruct (coingecko_id_of_token symbol) as [H|[id H]]; rewrite H; [reflexivity|].
  run. destruct (String.eqb id ""); reflexivity.
Qed.

Lemma first_lookup_is_cached :
  fst (Prices.get_price (feeds_up 1000) "btc" true Prices.empty_aggregator)
    = Ret btc_quote /\
  Prices.price_cache aggregator_after_btc !! "BTC" = Some btc_quote.
Proof. split; reflexivity. Qed.

(** C3 at the failing input: BTC was looked up once with success, then
    every source goes down.  The next [get_price("BTC")] does not return
    the zero quote: the validity test of the cache raises [TypeError]
    before any source is tried, and nothing catches it. *)
Theorem get_price_all_fail_raises_after_success :
  all_sources_fail (feeds_down 5000) "BTC" /\
  Prices.get_price (feeds_down 5000) "BTC" true aggregator_after_btc
    = (Raise TypeError, aggregator_after_btc).
Proof.
  split; [apply feeds_down_all_fail|].
  apply (get_price_raises_on_entry _ "BTC" btc_quote);
    [apply first_lookup_is_cached | reflexivity].
Qed.

(** C4 at the failing input: the second lookup of a cached symbol, one
    second later and so within the 60 seconds, raises instead of returning
    the cached quote; a lookup long after the 60 seconds raises as well,
    and no source function is entered. *)
Theorem get_price_cached_lookup_raises :
  Prices.price_cache aggregator_after_btc !! "BTC" = Some btc_quote /\
  Prices.get_price (feeds_up 1001) "BTC" true aggregator_after_btc
    = (Raise TypeError, aggregator_after_btc) /\
  Prices.get_price (feeds_up 2000) "BTC" true aggregator_after_btc
    = (Raise TypeError, aggregator_after_btc).
Proof.
  split; [apply first_lookup_is_cached|].
  split; apply (get_price_raises_on_entry _ "BTC" btc_quote);
    first [apply first_lookup_is_cached | reflexivity].
Qed.

(* ===================================================================== *)
(** * The analysis stage *)
(* ===================================================================== *)

Section SentimentFacts.
Import Sentiment.
Variable a : analyzer.

(** The dict of [analyze_multimodal] has six keys, and
    ["controversy_score"] is not one of them. *)
Lemma analyze_multimodal_keys (text : string) (d : gmap string pyval) :
  analyze_multimodal a text = Ret d ->
  d !! "controversy_score" = None /\
  is_Some (d !! "combined_label") /\
  truthy (VDict d) = true.
Proof.
  unfold analyze_multimodal.
  destruct (analyze_financial_sentiment a text) as [[fl fs] fm].
  destruct (analyze_twitter_sentiment a text) as [[tl ts] tm].
  destruct (sentiment_map fl); simpl; [|discriminate].
  destruct (sentiment_map tl); simpl; [|discriminate].
  intros [= <-]. split; [reflexivity|]. split; [eexists; reflexivity|].
  apply truthy_insert.
Qed.

End SentimentFacts.

Section AnalysisFacts.
Import Daemon.
Variable c : components.

Lemma sentiment_block_keys (content : pyval) (d : gmap string pyval) :
  sentiment_block c content = Some d ->
  d !! "controversy_score" = None /\ truthy (VDict d) = true.
Proof.
  unfold sentiment_block.
  destruct (sentiment_analyzer c) as [a|]; [|discriminate].
  destruct content; try discriminate.
  destruct (Sentiment.analyze_multimodal a s) as [d'|] eqn:E; [|discriminate].
  intros [= <-]. destruct (analyze_multimodal_keys a s d' E) as (H1 & _ & H2). auto.
Qed.

(** What [analyze_tweet_content] computes as the combined score: the
    primary score alone without a sentiment result, and with one the
    blend in which the secondary term is the default [0]. *)
Lemma combined_score_computed (tweet_data : gmap string pyval) (a : analysis) :
  analyze_tweet_content c tweet_data = Ret a ->
  match sentiment a with
  | Some _ =>
      combined_controversy a = (deletion_likelihood a * (6 # 10) + 0 * (4 # 10))%Q
  | None => combined_controversy a = deletion_likelihood a
  end.
Proof.
  unfold analyze_tweet_content.
  destruct (analyze_tweet c _) as [[ds txt]|]; simpl; [|discriminate].
  destruct (sentiment_block c _) as [d|] eqn:E; simpl.
  - destruct (sentiment_block_keys _ _ E) as [Hk Ht].
    simpl in Ht. rewrite Ht. unfold dict_get. rewrite Hk. simpl.
    intros [= <-]. reflexivity.
  - intros [= <-]. reflexivity.
Qed.

(** The combined score stays in the unit interval. *)
Lemma combined_score_bounded (tweet_data : gmap string pyval) (a : analysis) :
  analyze_tweet_content c tweet_data = Ret a ->
  (0 <= deletion_likelihood a <= 1)%Q ->
  (0 <= combined_controversy a <= 1)%Q.
Proof.
  intros H [H0 H1]. apply combined_score_computed in H.
  destruct (sentiment a); rewrite H; lra.
Qed.

End AnalysisFacts.

(** C1 at the failing input: the removal-risk score is 0.5 and the
    sentiment analyzer succeeds, its controversy score for the text being
    0.389.  The combined score that [analyze_tweet_content] returns is
    0.3, that is 0.6 * 0.5 + 0.4 * 0, and not 0.6 * 0.5 + 0.4 * 0.389: the
    secondary score is read from a key that the sentiment dict does not
    have. *)
Theorem combined_score_leaves_out_sentiment_controversy :
  let c := components_with (5 # 10) (Some analyzer_negative) None None in
  let text := "Sample tweet content for testing" in
  exists (a : Daemon.analysis) (secondary : Q),
    Daemon.analyze_tweet_content c (Daemon.mock_tweet c "https://x.com/user/status/123")
      = Ret a /\
    Sentiment.get_controversy_score analyzer_negative text = Ret secondary /\
    Daemon.deletion_likelihood a == 5 # 10 /\
    secondary == 389 # 1000 /\
    is_Some (Daemon.sentiment a) /\
    Daemon.combined_controversy a == 3 # 10 /\
    ~ Daemon.combined_controversy a == (6 # 10) * (5 # 10) + (4 # 10) * secondary.
Proof.
  intros c text. eexists. eexists.
  split; [reflexivity|]. split; [reflexivity|].
  split; [reflexivity|]. split; [reflexivity|].
  split; [eexists; reflexivity|]. split; [reflexivity|].
  intros H. vm_compute in H. discriminate.
Qed.

(* ===================================================================== *)
(** * The register and resubmission stages *)
(* ===================================================================== *)

Section RegistryFacts.
Import Registry.
Variable n : node.

(** The calls of one [store_tweet]: when the existence check answers
    [True] it is the only call, and the method returns [None]. *)
Lemma store_tweet_calls (d : gmap string pyval) (l : list rpc) :
  exists new,
    snd (store_tweet n d l) = (l ++ new)%list /\
    forall h, In (RpcExists h (Ret true)) new ->
              new = [RpcExists h (Ret true)] /\ fst (store_tweet n d l) = Ret None.
Proof.
  unfold store_tweet. run.
  destruct (dict_item d "tweetURL") as [[]|]; simpl;
    try (exists []; rewrite app_nil_r; split; [reflexivity | intros ? []]).
  unfold log_rpc.
  destruct (contract_exists n (keccak n s)) as [[|]|] eqn:E; simpl.
  - eexists; split; [reflexivity|]. intros h [H|[]]. inversion H. auto.
  - destruct (get_transaction_count n); simpl;
      [|eexists; split; [reflexivity|]; intros h [H|[]]; discriminate].
    destruct (chain_id n); simpl;
      [|eexists; split; [reflexivity|]; intros h [H|[]]; discriminate].
    destruct (estimate_gas n _); simpl; destruct (gas_price n); simpl;
      destruct (send_transaction n _ _); simpl;
      rewrite <- ?app_assoc; simpl;
      (eexists; split; [reflexivity|]);
      intros h H; simpl in H; intuition discriminate.
  - destruct (get_transaction_count n); simpl;
      [|eexists; split; [reflexivity|]; intros h [H|[]]; discriminate].
    destruct (chain_id n); simpl;
      [|eexists; split; [reflexivity|]; intros h [H|[]]; discriminate].
    destruct (estimate_gas n _); simpl; destruct (gas_price n); simpl;
      destruct (send_transaction n _ _); simpl;
      rewrite <- ?app_assoc; simpl;
      (eexists; split; [reflexivity|]);
      intros h H; simpl in H; intuition discriminate.
Qed.

End RegistryFacts.

Section ProcessFacts.
Import Daemon.
Variable cfg : config.
Variable c : components.

Lemma price_block_stats a : preserves st_stats (price_block c a).
Proof. unfold price_block. frame. Qed.

Lemma price_block_registry a : preserves registry_calls (price_block c a).
Proof. unfold price_block. frame. Qed.

Lemma price_block_submitted a : preserves submitted (price_block c a).
Proof. unfold price_block. frame. Qed.

Lemma store_to_filecoin_stats td a : preserves st_stats (store_to_filecoin cfg c td a).
Proof. unfold store_to_filecoin. frame. apply price_block_stats. Qed.

Lemma store_to_filecoin_registry td a :
  preserves registry_calls (store_to_filecoin cfg c td a).
Proof. unfold store_to_filecoin. frame. apply price_block_registry. Qed.

Lemma store_to_filecoin_submitted td a :
  preserves submitted (store_to_filecoin cfg c td a).
Proof. unfold store_to_filecoin. frame. apply price_block_submitted. Qed.

Lemma store_on_chain_submitted td a sr sub :
  preserves submitted (store_on_chain c td a sr sub).
Proof. unfold store_on_chain. frame. Qed.

Lemma store_on_chain_returns td a sr sub s :
  exists r, fst (store_on_chain c td a sr sub s) = Ret r.
Proof.
  unfold store_on_chain. destruct (registry c); [|eexists; reflexivity].
  unfold try_except. destruct (bind _ _ s) as [[r|e] s']; eexists; reflexivity.
Qed.

Lemma resubmit_errors url cs : preserves errors_of (resubmit cfg c url cs).
Proof. unfold resubmit. frame. Qed.

Lemma resubmit_registered url cs : preserves registered_of (resubmit cfg c url cs).
Proof. unfold resubmit. frame. Qed.

Lemma resubmit_registry url cs : preserves registry_calls (resubmit cfg c url cs).
Proof. unfold resubmit. frame. Qed.

(** The resubmission stage catches the failure of its call. *)
Lemma resubmit_returns url cs s : fst (resubmit cfg c url cs s) = Ret tt.
Proof.
  unfold resubmit. destruct (submitter c) as [f|]; [|reflexivity].
  destruct (Qle_bool _ _); [|reflexivity]. run.
  destruct (f url cs); reflexivity.
Qed.

Lemma resubmit_at_or_above_threshold submit_tweet url cs s :
  submitter c = Some submit_tweet ->
  (AUTO_SUBMIT_THRESHOLD cfg <= cs)%Q ->
  submitted (snd (resubmit cfg c url cs s)) = (submitted s ++ [(url, cs)])%list.
Proof.
  intros Hs Hle. unfold resubmit. rewrite Hs.
  apply Qle_bool_iff in Hle. rewrite Hle. run.
  destruct (submit_tweet url cs); reflexivity.
Qed.

Lemma resubmit_below_threshold url cs s :
  (cs < AUTO_SUBMIT_THRESHOLD cfg)%Q ->
  resubmit cfg c url cs s = (Ret tt, s).
Proof.
  intros Hlt. unfold resubmit. destruct (submitter c); [|reflexivity].
  destruct (Qle_bool _ _) eqn:E; [|reflexivity].
  apply Qle_bool_iff in E. lra.
Qed.

(** The register stage when the existence check answers [True]: that
    check is the only call to the contract, the counters are as before,
    and the stage returns [None]. *)
Lemma store_on_chain_calls td a sr sub s :
  exists new,
    registry_calls (snd (store_on_chain c td a sr sub s))
      = (registry_calls s ++ new)%list /\
    forall h, In (Registry.RpcExists h (Ret true)) new ->
              new = [Registry.RpcExists h (Ret true)] /\
              st_stats (snd (store_on_chain c td a sr sub s)) = st_stats s /\
              fst (store_on_chain c td a sr sub s) = Ret None.
Proof.
  unfold store_on_chain.
  destruct (registry c) as [r|]; [|stop ltac:(reflexivity)].
  run.
  destruct (on_chain_data c r td a sr sub) as [d|]; simpl; [|stop ltac:(reflexivity)].
  destruct (store_tweet_calls r d (registry_calls s)) as (new & Hs & Hn).
  exists new.
  destruct (Registry.store_tweet r d (registry_calls s)) as [[[h|]|e] l'];
    simpl in *; subst l'.
  - destruct (String.eqb h ""); simpl; (split; [reflexivity|]);
      intros h' Hin; destruct (Hn h' Hin) as [_ ?]; discriminate.
  - split; [reflexivity|]. intros h' Hin. destruct (Hn h' Hin) as [-> _].
    destruct s; auto.
  - split; [reflexivity|].
    intros h' Hin; destruct (Hn h' Hin) as [_ ?]; discriminate.
Qed.

Lemma mock_tweet_truthy url : truthy (VDict (mock_tweet c url)) = true.
Proof. apply truthy_insert. Qed.

Lemma finish_step {A} (m : M daemon A) (k : A -> M daemon unit)
  (kb : A -> M daemon (option (string * analysis))) :
  (forall a s', try_except (k a) count_error s' = finish cfg c (kb a s')) ->
  forall s, try_except (bind m k) count_error s = finish cfg c (bind m kb s).
Proof.
  intros H s. unfold try_except, bind in *.
  destruct (m s) as [[a|e] s']; [apply H | reflexivity].
Qed.

Lemma finish_abort s :
  try_except (modify (with_stats incr_errors)) count_error s
  = finish cfg c ((modify (with_stats incr_errors) ;; ret None) s).
Proof. reflexivity. Qed.

Lemma finish_resubmit url a s :
  try_except (resubmit cfg c url (combined_controversy a)) count_error s
  = finish cfg c (ret (Some (url, a)) s).
Proof.
  unfold try_except, finish, ret.
  pose proof (resubmit_returns url (combined_controversy a) s).
  destruct (resubmit cfg c url _ s) as [[[]|e] s']; simpl in *;
    [reflexivity | discriminate].
Qed.

(** [process_tweet_event] is steps 1 to 4 followed by the resubmission
    stage; an exception in steps 1 to 4 is counted as an error. *)
Lemma process_tweet_event_stages (event : Poller.event) (s : daemon) :
  process_tweet_event cfg c event s = finish cfg c (before_resubmit cfg c event s).
Proof.
  unfold process_tweet_event, before_resubmit.
  fold count_error. revert s.
  apply finish_step. intros [[|ch url]|] s; try apply finish_abort.
  revert s. apply finish_step. intros td s.
  destruct (negb (truthy (VDict td))); [apply finish_abort|].
  revert s. repeat (apply finish_step; intros ?).
  intros s. apply finish_resubmit.
Qed.

(** Steps 1 to 4 leave the log of resubmissions as it was. *)
Lemma before_resubmit_submitted event :
  preserves submitted (before_resubmit cfg c event).
Proof.
  unfold before_resubmit, scrape_single_tweet. frame.
  all: first [apply store_to_filecoin_submitted | apply store_on_chain_submitted].
Qed.

(** When steps 1 to 4 reach the resubmission stage, the locator they hand
    over is the one extracted from the event, and the score is the
    combined score computed for the fetched record. *)
Lemma before_resubmit_reached event s url a s' :
  before_resubmit cfg c event s = (Ret (Some (url, a)), s') ->
  Poller.extract_tweet_url event = Ret (Some url) /\
  analyze_tweet_content c (mock_tweet c url) = Ret a.
Proof.
  unfold before_resubmit, scrape_single_tweet.
  remember (store_to_filecoin cfg c) as F eqn:HF.
  remember (store_on_chain c) as G eqn:HG.
  remember (analyze_tweet_content c) as A eqn:HA.
  remember log_summary as L eqn:HL.
  remember (mock_tweet c) as K eqn:HK.
  run.
  destruct (Poller.extract_tweet_url event) as [[[|ch u]|]|e]; simpl;
    try discriminate.
  destruct (negb _); [discriminate|].
  destruct (A (K (String ch u))) as [a'|] eqn:EA; simpl; [|discriminate].
  destruct (L a'); simpl; [|discriminate].
  destruct (F _ _ _) as [[sr|] s2]; simpl; [|discriminate].
  destruct (dict_item sr "ipfs_cid"); simpl; [|discriminate].
  destruct (dict_item sr "root_cid"); simpl; [|discriminate].
  destruct (G _ _ _ _ _) as [[tx|] s4]; simpl; [|discriminate].
  intros [= <- <- <-]. auto.
Qed.

(** Steps 1 to 4 and the registry: when the existence check of the
    register stage answers [True], that check is the only call made to
    the contract, the resubmission stage is reached, and neither the
    error counter nor the registration counter has moved. *)
Lemma before_resubmit_duplicate (event : Poller.event) (s : daemon) :
  exists new,
    registry_calls (snd (before_resubmit cfg c event s))
      = (registry_calls s ++ new)%list /\
    forall h, In (Registry.RpcExists h (Ret true)) new ->
              new = [Registry.RpcExists h (Ret true)] /\
              errors_of (snd (before_resubmit cfg c event s)) = errors_of s /\
              registered_of (snd (before_resubmit cfg c event s)) = registered_of s /\
              exists url a, fst (before_resubmit cfg c event s) = Ret (Some (url, a)).
Proof.
  unfold before_resubmit, scrape_single_tweet.
  remember (store_to_filecoin cfg c) as F eqn:HF.
  remember (store_on_chain c) as G eqn:HG.
  remember (analyze_tweet_content c) as A eqn:HA.
  remember log_summary as L eqn:HL.
  remember (mock_tweet c) as K eqn:HK.
  run.
  destruct (Poller.extract_tweet_url event) as [[[|ch url]|]|e]; simpl;
    try (stop ltac:(destruct s; reflexivity)).
  set (u := String ch url).
  assert (Ht : truthy (VDict (K u)) = true) by (subst K; apply mock_tweet_truthy).
  simpl in Ht. rewrite Ht. simpl.
  destruct (A (K u)) as [a|]; simpl; [|stop ltac:(destruct s; reflexivity)].
  destruct (L a); simpl; [|stop ltac:(destruct s; reflexivity)].
  set (s1 := with_stats incr_processed (log_scrape u s)).
  pose proof (store_to_filecoin_registry (K u) a s1) as Hr.
  pose proof (store_to_filecoin_stats (K u) a s1) as Hs.
  rewrite <- HF in Hr, Hs.
  destruct (F (K u) a s1) as [[sr|] s2]; simpl in *;
    [|stop ltac:(rewrite Hr; destruct s; reflexivity)].
  destruct (dict_item sr "ipfs_cid"); simpl;
    [|stop ltac:(destruct s2; simpl in *; rewrite Hr; destruct s; reflexivity)].
  destruct (dict_item sr "root_cid"); simpl;
    [|stop ltac:(destruct s2; simpl in *; rewrite Hr; destruct s; reflexivity)].
  set (s3 := with_stats incr_stored s2).
  destruct (store_on_chain_calls (K u) a sr (Poller.depositor event) s3)
    as (new & Hn & Hd).
  destruct (store_on_chain_returns (K u) a sr (Poller.depositor event) s3) as [tx Htx].
  rewrite <- HG in Hn, Hd, Htx.
  destruct (G (K u) a sr (Poller.depositor event) s3) as [[tx'|] s4]; simpl in *;
    [|discriminate].
  exists new. split.
  - rewrite Hn. subst s3. destruct s2; simpl in *. rewrite Hr. destruct s; reflexivity.
  - intros h Hin. destruct (Hd h Hin) as (-> & Hst & _).
    split; [reflexivity|]. unfold errors_of, registered_of. rewrite Hst.
    subst s3. destruct s2; simpl in *. rewrite Hs. destruct s; simpl.
    repeat split; eauto.
Qed.

End ProcessFacts.

(** C7: when the existence check of the registry answers [True] for the
    record of an event, processing that event makes no other call to the
    contract (no gas estimate, no transaction is sent), the error counter
    is not incremented, and the record is not counted as registered. *)
Theorem duplicate_record_is_skipped_without_error
  (cfg : config) (c : Daemon.components) (event : Poller.event) (s : Daemon.daemon)
  (h : list Byte.byte) (new : list Registry.rpc) :
  Daemon.registry_calls (snd (Daemon.process_tweet_event cfg c event s))
    = (Daemon.registry_calls s ++ new)%list ->
  In (Registry.RpcExists h (Ret true)) new ->
  new = [Registry.RpcExists h (Ret true)] /\
  filter (fun r => Registry.is_write r = true) new = [] /\
  Daemon.errors (Daemon.st_stats (snd (Daemon.process_tweet_event cfg c event s)))
    = Daemon.errors (Daemon.st_stats s) /\
  Daemon.tweets_registered (Daemon.st_stats (snd (Daemon.process_tweet_event cfg c event s)))
    = Daemon.tweets_registered (Daemon.st_stats s).
Proof.
  rewrite process_tweet_event_stages.
  destruct (before_resubmit_duplicate cfg c event s) as (new' & Hn & Hd).
  destruct (before_resubmit cfg c event s) as [r s1]; simpl in Hn, Hd.
  assert (Hreg : Daemon.registry_calls (snd (finish cfg c (r, s1)))
                 = Daemon.registry_calls s1).
  { destruct r as [[[url a]|]|e]; simpl; [apply resubmit_registry | reflexivity |].
    destruct s1; reflexivity. }
  rewrite Hreg, Hn. intros Heq Hin. apply app_inv_head in Heq. subst new'.
  destruct (Hd h Hin) as (-> & He & Hr & url & a & ->). simpl.
  split; [reflexivity|]. split; [reflexivity|].
  fold (errors_of (snd (Daemon.resubmit cfg c url (Daemon.combined_controversy a) s1))).
  fold (registered_of (snd (Daemon.resubmit cfg c url (Daemon.combined_controversy a) s1))).
  rewrite resubmit_errors, resubmit_registered. auto.
Qed.

Lemma duplicate_record_is_skipped_without_error_witness :
  let c := components_with (5 # 10) None (Some (node_answering true)) None in
  let s' := snd (Daemon.process_tweet_event cfg_default c event_x daemon_fresh) in
  Daemon.registry_calls s'
    = [Registry.RpcExists [Byte.xab; Byte.xcd] (Ret true)] /\
  Daemon.errors (Daemon.st_stats s') = 0 /\
  Daemon.tweets_registered (Daemon.st_stats s') = 0.
Proof.
  intros c s'.
  destruct (duplicate_record_is_skipped_without_error cfg_default c event_x daemon_fresh
              [Byte.xab; Byte.xcd] [Registry.RpcExists [Byte.xab; Byte.xcd] (Ret true)])
    as (_ & _ & He & Hr).
  - reflexivity.
  - left. reflexivity.
  - split; [reflexivity|]. split; [exact He | exact Hr].
Defined.

(** C8: when the processing of an event reaches the resubmission stage
    and a submitter is configured: with the threshold at 0.75 and a
    combined score of 0.80 the stage issues exactly one [submit_tweet]
    call, with the locator extracted from the event and that score; with
    a combined score below the threshold it issues none. *)
Theorem resubmission_gate_scenario
  (cfg : config) (c : Daemon.components) (event : Poller.event) (s s' : Daemon.daemon)
  (url : string) (a : Daemon.analysis) (submit_tweet : string -> Q -> outcome string) :
  before_resubmit cfg c event s = (Ret (Some (url, a)), s') ->
  Daemon.submitter c = Some submit_tweet ->
  Poller.extract_tweet_url event = Ret (Some url) /\
  (AUTO_SUBMIT_THRESHOLD cfg == 75 # 100 ->
   Daemon.combined_controversy a == 80 # 100 ->
   Daemon.submitted (snd (Daemon.process_tweet_event cfg c event s))
     = (Daemon.submitted s ++ [(url, Daemon.combined_controversy a)])%list) /\
  ((Daemon.combined_controversy a < AUTO_SUBMIT_THRESHOLD cfg)%Q ->
   Daemon.submitted (snd (Daemon.process_tweet_event cfg c event s))
     = Daemon.submitted s).
Proof.
  intros Hb Hs.
  pose proof (before_resubmit_submitted cfg c event s) as Hf.
  rewrite process_tweet_event_stages, Hb in *. simpl in Hf. unfold finish.
  split; [apply (before_resubmit_reached cfg c event s url a s' Hb)|].
  split.
  - intros Ht Hc.
    rewrite (resubmit_at_or_above_threshold cfg c submit_tweet); [|assumption|lra].
    now rewrite Hf.
  - intros Hlt. rewrite resubmit_below_threshold by assumption. exact Hf.
Qed.

Lemma resubmission_gate_scenario_witness :
  let c := components_with (80 # 100) None None (Some (fun _ _ => Ret "0xtx")) in
  Daemon.submitted (snd (Daemon.process_tweet_event cfg_default c event_x daemon_fresh))
  = [("https://x.com/user/status/123", 80 # 100)].
Proof.
  intros c.
  destruct (resubmission_gate_scenario cfg_default c event_x daemon_fresh
              (snd (before_resubmit cfg_default c event_x daemon_fresh))
              "https://x.com/user/status/123" analysis_080
              (fun _ _ => Ret "0xtx")) as (_ & H & _).
  - reflexivity.
  - reflexivity.
  - apply H; reflexivity.
Defined.

(** C9: the locator of an event whose validation string is
    ["https://x.com/user/status/123"] is that string; for the validation
    string ["not a link"] there is no locator, and processing the event
    only increments the error counter: nothing is scraped. *)
Theorem locator_scenarios
  (cfg : config) (c : Daemon.components) (event : Poller.event) (s : Daemon.daemon) :
  Poller.extract_tweet_url (with_validation (VStr "https://x.com/user/status/123") event)
    = Ret (Some "https://x.com/user/status/123") /\
  Poller.extract_tweet_url (with_validation (VStr "not a link") event) = Ret None /\
  Daemon.process_tweet_event cfg c (with_validation (VStr "not a link") event) s
    = (Ret tt, Daemon.with_stats Daemon.incr_errors s) /\
  Daemon.errors (Daemon.st_stats
    (snd (Daemon.process_tweet_event cfg c (with_validation (VStr "not a link") event) s)))
    = Daemon.errors (Daemon.st_stats s) + 1 /\
  Daemon.scraped
    (snd (Daemon.process_tweet_event cfg c (with_validation (VStr "not a link") event) s))
    = Daemon.scraped s.
Proof. repeat split. Qed.

(* ===================================================================== *)
(** * The block file at start-up *)
(* ===================================================================== *)

Section CheckpointFacts.
Import Checkpoint.

Lemma digit_char_value (k : N) :
  (k < 10)%N ->
  Daemon.is_digit (digit_char k) = true /\
  Z.of_N (N_of_ascii (digit_char k)) - 48 = Z.of_N k /\
  Str.is_space (digit_char k) = false /\
  Ascii.eqb (digit_char k) "-" = false /\
  Ascii.eqb (digit_char k) "+" = false.
Proof.
  intros H.
  assert (Hk : (k = 0 \/ k = 1 \/ k = 2 \/ k = 3 \/ k = 4 \/ k = 5 \/ k = 6 \/ k = 7
                \/ k = 8 \/ k = 9)%N) by lia.
  repeat (destruct Hk as [-> | Hk]); try subst k; repeat split.
Qed.

(** Reading the digits written by [digits_of] gives the number back. *)
Lemma int_digits_digits_of (fuel : nat) :
  forall (n : N) (acc : string) (b : bool),
    (0 < n)%N -> (n < 2 ^ N.of_nat fuel)%N ->
    int_digits 0 b (digits_of fuel n acc) = int_digits (Z.of_N n) true acc.
Proof.
  induction fuel as [|fuel IH]; intros n acc b Hpos Hlt.
  - simpl in Hlt. lia.
  - cbn [digits_of].
    assert (Hmod : (n mod 10 < 10)%N) by (apply N.mod_lt; lia).
    destruct (digit_char_value _ Hmod) as (Hd & Hv & _).
    destruct (N.eqb_spec (n / 10) 0) as [Hz|Hnz].
    + cbn [int_digits]. rewrite Hd. f_equal.
      assert (Hn : (n = 10 * (n / 10) + n mod 10)%N) by (apply N.div_mod; lia).
      set (q := (n / 10)%N) in *. set (r := (n mod 10)%N) in *.
      set (x := Z.of_N (N_of_ascii (digit_char r))) in *. lia.
    + rewrite IH.
      * cbn [int_digits]. rewrite Hd. f_equal.
        assert (Hn : (n = 10 * (n / 10) + n mod 10)%N) by (apply N.div_mod; lia).
        set (q := (n / 10)%N) in *. set (r := (n mod 10)%N) in *.
        set (x := Z.of_N (N_of_ascii (digit_char r))) in *. lia.
      * apply N.neq_0_lt_0. exact Hnz.
      * rewrite Nat2N.inj_succ, N.pow_succ_r' in Hlt.
        apply N.Div0.div_lt_upper_bound.
        set (m := (2 ^ N.of_nat fuel)%N) in *. lia.
Qed.

Lemma strip_no_space (s : string) : no_space s -> Str.strip s = s.
Proof.
  intros H. unfold Str.strip.
  assert (Hl : Str.lstrip s = s) by (destruct s; simpl in *; [|destruct H as [-> _]]; reflexivity).
  rewrite Hl. clear Hl. induction s as [|c s IH]; [reflexivity|].
  destruct H as [Hc Hs]. simpl. rewrite (IH Hs), Hc. destruct s; reflexivity.
Qed.

Lemma digits_of_no_space (fuel : nat) :
  forall n acc, no_space acc -> no_space (digits_of fuel n acc).
Proof.
  induction fuel as [|fuel IH]; intros n acc H; [exact H|].
  cbn [digits_of].
  assert (Hmod : (n mod 10 < 10)%N) by (apply N.mod_lt; lia).
  destruct (digit_char_value _ Hmod) as (_ & _ & Hs & _).
  destruct (n / 10 =? 0)%N; [|apply IH]; split; assumption.
Qed.

Lemma digits_of_head (fuel : nat) :
  forall n acc, (0 < n)%N -> (n < 2 ^ N.of_nat fuel)%N ->
    exists k rest, (k < 10)%N /\ digits_of fuel n acc = String (digit_char k) rest.
Proof.
  induction fuel as [|fuel IH]; intros n acc Hpos Hlt.
  - simpl in Hlt. lia.
  - cbn [digits_of].
    assert (Hmod : (n mod 10 < 10)%N) by (apply N.mod_lt; lia).
    destruct (N.eqb_spec (n / 10) 0) as [Hz|Hnz]; [eauto|].
    apply IH; [apply N.neq_0_lt_0; exact Hnz|].
    rewrite Nat2N.inj_succ, N.pow_succ_r' in Hlt.
    apply N.Div0.div_lt_upper_bound.
    set (m := (2 ^ N.of_nat fuel)%N) in *. lia.
Qed.

Lemma pos_below_size (p : positive) : (Npos p < 2 ^ N.of_nat (Pos.size_nat p))%N.
Proof.
  induction p as [p IH|p IH|]; cbn [Pos.size_nat];
    rewrite Nat2N.inj_succ, N.pow_succ_r';
    try (set (m := (2 ^ N.of_nat (Pos.size_nat p))%N) in *; lia).
  simpl. lia.
Qed.

Lemma int_of_digits (p : positive) :
  int_of_str (digits_of (Pos.size_nat p) (Npos p) "") = Ret (Zpos p).
Proof.
  unfold int_of_str.
  rewrite strip_no_space by (apply digits_of_no_space; exact I).
  destruct (digits_of_head (Pos.size_nat p) (Npos p) "") as (k & rest & Hk & Hd);
    [lia | apply pos_below_size |].
  destruct (digit_char_value k Hk) as (_ & _ & _ & Hm & Hp).
  assert (Hsplit :
    match digits_of (Pos.size_nat p) (N.pos p) "" with
    | String "-" b => (true, b)
    | String "+" b => (false, b)
    | _ => (false, digits_of (Pos.size_nat p) (N.pos p) "")
    end = (false, digits_of (Pos.size_nat p) (N.pos p) "")).
  { rewrite Hd.
    assert (Hk' : (k = 0 \/ k = 1 \/ k = 2 \/ k = 3 \/ k = 4 \/ k = 5 \/ k = 6 \/ k = 7
                   \/ k = 8 \/ k = 9)%N) by lia.
    repeat (destruct Hk' as [-> | Hk']); try subst k; reflexivity. }
  rewrite Hsplit.
  rewrite int_digits_digits_of by (try apply pos_below_size; lia).
  reflexivity.
Qed.

(** [int(str(z)) == z] for every integer. *)
Lemma int_of_str_of_int (z : Z) : int_of_str (str_of_int z) = Ret z.
Proof.
  destruct z as [|p|p]; [reflexivity | apply int_of_digits |].
  pose proof (int_of_digits p) as H. unfold int_of_str in *.
  cbn [str_of_int].
  assert (Hs : no_space (String "-" (digits_of (Pos.size_nat p) (N.pos p) "")))
    by (split; [reflexivity | apply digits_of_no_space; exact I]).
  rewrite (strip_no_space _ Hs).
  rewrite strip_no_space in H by (apply digits_of_no_space; exact I).
  destruct (digits_of_head (Pos.size_nat p) (Npos p) "") as (k & rest & Hk & Hd);
    [lia | apply pos_below_size |].
  rewrite int_digits_digits_of by (try apply pos_below_size; lia).
  reflexivity.
Qed.

Lemma str_of_int_no_space (z : Z) : no_space (str_of_int z).
Proof.
  destruct z; simpl; [auto | apply digits_of_no_space; exact I |].
  split; [reflexivity | apply digits_of_no_space; exact I].
Qed.

End CheckpointFacts.

(** X1: the height written by [_save_last_processed_block] is the height
    that [_get_last_processed_block] reads at the next start, whatever the
    node answers then. *)
Theorem saved_block_is_resumed
  (w w' : Poller.chain) (b : Z) (p : Poller.poller) :
  Poller.write_block_file w = Ret tt ->
  Checkpoint._get_last_processed_block w'
    (Checkpoint.block_file_text (snd (Poller._save_last_processed_block w b p)))
  = Ret b.
Proof.
  intros Hw. unfold Poller._save_last_processed_block. run. rewrite Hw. simpl.
  unfold Checkpoint._get_last_processed_block.
  rewrite strip_no_space by apply str_of_int_no_space.
  rewrite int_of_str_of_int. reflexivity.
Qed.

Lemma saved_block_is_resumed_witness :
  Checkpoint._get_last_processed_block chain_down
    (Checkpoint.block_file_text
       (snd (Poller._save_last_processed_block chain_quiet 4321 (poller_at 7))))
  = Ret 4321.
Proof. apply (saved_block_is_resumed chain_quiet chain_down 4321 (poller_at 7)). reflexivity. Defined.

(* ===================================================================== *)
(** * The poll cycle and the callback loop *)
(* ===================================================================== *)

Section PollCycleFacts.
Import Poller.
Variable cfg : config.
Variable w : chain.

Lemma block_file_is_read (w' : chain) (p : poller) (b : Z) :
  block_file p = Some b ->
  Checkpoint._get_last_processed_block w' (Checkpoint.block_file_text p) = Ret b.
Proof.
  intros H. unfold Checkpoint.block_file_text. rewrite H.
  unfold Checkpoint._get_last_processed_block.
  rewrite strip_no_space by apply str_of_int_no_space.
  rewrite int_of_str_of_int. reflexivity.
Qed.

(** The four ways in which a poll cycle ends. *)
Lemma poll_once_cases (p : poller) :
  match eth_block_number w with
  | Raise _ => poll_once cfg w p = (Ret [], p)
  | Ret cur =>
      let r := get_new_events cfg w None (Some cur) p in
      match fst r with
      | Ret (e :: evs) =>
          match write_block_file w with
          | Ret _ => poll_once cfg w p = (Ret (e :: evs), set_file cur (set_last cur (snd r)))
          | Raise _ => poll_once cfg w p = (Ret [], set_last cur (snd r))
          end
      | _ => poll_once cfg w p = (Ret [], snd r)
      end
  end.
Proof.
  unfold poll_once, _save_last_processed_block.
  destruct (eth_block_number w) as [cur|e]; [|reflexivity].
  unfold try_except, bind, lift, ret, modify. cbv beta iota zeta.
  destruct (get_new_events cfg w None (Some cur) p) as [[[|e evs]|e] p'];
    cbn [fst snd]; try reflexivity.
  destruct (write_block_file w) as [[]|]; reflexivity.
Qed.

(** A batch is not empty only if the chain is ahead of the checkpoint. *)
Lemma cycle_batch_ahead (p : poller) (cur : Z) :
  eth_block_number w = Ret cur ->
  cycle_batch cfg w p <> [] ->
  last_processed_block p < cur.
Proof.
  intros Hc Hne. unfold cycle_batch in Hne. rewrite Hc in Hne.
  rewrite get_new_events_default_from, get_new_events_bounds in Hne.
  unfold clamped_to in Hne.
  destruct (Z.gtb_spec (cur - (last_processed_block p + 1)) (MAX_BLOCK_RANGE cfg));
    destruct (Z.gtb_spec (last_processed_block p + 1)
                (last_processed_block p + 1 + MAX_BLOCK_RANGE cfg));
    destruct (Z.gtb_spec (last_processed_block p + 1) cur);
    simpl in Hne; try congruence; lia.
Qed.

Lemma omap_all_raises {A B} (f : A -> outcome B) (l : list A) (bad : A) (e : exn) :
  In bad l -> f bad = Raise e -> exists e', omap_all f l = Raise e'.
Proof.
  induction l as [|x l IH]; intros Hin Hbad; [destruct Hin|].
  simpl. destruct Hin as [->|Hin].
  - rewrite Hbad. simpl. eauto.
  - destruct (f x); simpl; [|eauto].
    destruct (IH Hin Hbad) as [e' ->]. simpl. eauto.
Qed.

Lemma obind_raises {A B} (o : outcome A) (k : A -> outcome B) :
  (forall a, exists e, k a = Raise e) -> exists e, obind o k = Raise e.
Proof. intros H. destruct o; simpl; eauto. Qed.

Lemma _parse_event_missing (bad : raw_log) (k : string) :
  In k required_args -> log_args bad !! k = None ->
  exists e, _parse_event w bad = Raise e.
Proof.
  intros Hk Hnone.
  assert (Hd : dict_item (log_args bad) k = Raise KeyError)
    by (unfold dict_item; rewrite Hnone; reflexivity).
  unfold _parse_event. cbv zeta. simpl in Hk.
  destruct Hk as [<-|[<-|[<-|[<-|[]]]]];
    repeat (first [ rewrite Hd; simpl; solve [eexists; reflexivity]
                  | apply obind_raises; intro ]).
Qed.

Lemma dispatch_runs {St} (callback : event -> M St unit) (events : list event) (s : St) :
  PollLoop.dispatch callback events s
  = (Ret tt, fold_left (fun s e => snd (callback e s)) events s).
Proof.
  revert s. induction events as [|e events IH]; intros s; [reflexivity|].
  simpl. unfold bind, try_except at 1.
  destruct (callback e s) as [[[]|x] s'] eqn:Hcb; simpl; rewrite IH; reflexivity.
Qed.

Lemma poll_once_returns (p : poller) :
  exists events, fst (poll_once cfg w p) = Ret events.
Proof.
  pose proof (poll_once_cases p) as Hc.
  destruct (eth_block_number w) as [cur|e]; [|rewrite Hc; eauto].
  cbv zeta in Hc.
  destruct (fst (get_new_events cfg w None (Some cur) p)) as [[|e evs]|e];
    [| destruct (write_block_file w) |]; rewrite Hc; eauto.
Qed.

End PollCycleFacts.

(** X2: as long as the block file can be written, a poll cycle keeps the
    file equal to [last_processed_block], so a restart after the cycle
    resumes from the height the running poller had reached. *)
Theorem poll_once_keeps_file_in_step
  (cfg : config) (w w' : Poller.chain) (p : Poller.poller) :
  Poller.write_block_file w = Ret tt ->
  Poller.block_file p = Some (Poller.last_processed_block p) ->
  Poller.block_file (snd (Poller.poll_once cfg w p))
    = Some (Poller.last_processed_block (snd (Poller.poll_once cfg w p))) /\
  Checkpoint._get_last_processed_block w'
    (Checkpoint.block_file_text (snd (Poller.poll_once cfg w p)))
  = Ret (Poller.last_processed_block (snd (Poller.poll_once cfg w p))).
Proof.
  intros Hw Hsync.
  assert (H : Poller.block_file (snd (Poller.poll_once cfg w p))
              = Some (Poller.last_processed_block (snd (Poller.poll_once cfg w p)))).
  { pose proof (poll_once_cases cfg w p) as Hc.
    destruct (Poller.eth_block_number w) as [cur|e]; [|rewrite Hc; exact Hsync].
    cbv zeta in Hc.
    destruct (get_new_events_frame cfg w cur p) as [Hl Hf].
    destruct (fst (Poller.get_new_events cfg w None (Some cur) p)) as [[|e evs]|e].
    - rewrite Hc. cbn [snd]. rewrite Hl, Hf. exact Hsync.
    - rewrite Hw in Hc. rewrite Hc. reflexivity.
    - rewrite Hc. cbn [snd]. rewrite Hl, Hf. exact Hsync. }
  split; [exact H | apply block_file_is_read; exact H].
Qed.

Lemma poll_once_keeps_file_in_step_witness :
  Poller.block_file (snd (Poller.poll_once cfg_default (chain_at 5000) (poller_at 0)))
    = Some (Poller.last_processed_block
              (snd (Poller.poll_once cfg_default (chain_at 5000) (poller_at 0)))) /\
  Checkpoint._get_last_processed_block chain_down
    (Checkpoint.block_file_text
       (snd (Poller.poll_once cfg_default (chain_at 5000) (poller_at 0))))
  = Ret (Poller.last_processed_block
           (snd (Poller.poll_once cfg_default (chain_at 5000) (poller_at 0)))).
Proof.
  apply (poll_once_keeps_file_in_step cfg_default (chain_at 5000) chain_down (poller_at 0));
    reflexivity.
Defined.

(** X3: without a usable block file (missing, unreadable, empty or not a
    number) the poller starts 100 blocks behind the chain head, and at
    block 0 on a chain shorter than that; when the node cannot be reached
    either, the start-up fails with the node's error. *)
Theorem start_without_block_file
  (w : Poller.chain) (f : Checkpoint.file_state) :
  unusable f ->
  match Poller.eth_block_number w with
  | Ret current =>
      exists start,
        Checkpoint._get_last_processed_block w f = Ret start /\
        0 <= start /\ (100 <= current -> start = current - 100) /\
        (current < 100 -> start = 0)
  | Raise e => Checkpoint._get_last_processed_block w f = Raise e
  end.
Proof.
  intros Hu.
  assert (H : Checkpoint._get_last_processed_block w f
              = let+ current := Poller.eth_block_number w in Ret (Z.max 0 (current - 100))).
  { destruct f as [| |text]; try reflexivity.
    destruct Hu as [e He]. unfold Checkpoint._get_last_processed_block.
    rewrite He. reflexivity. }
  rewrite H. destruct (Poller.eth_block_number w) as [current|e]; simpl; [|reflexivity].
  exists (Z.max 0 (current - 100)). repeat split; lia.
Qed.

Lemma start_without_block_file_witness :
  exists start,
    Checkpoint._get_last_processed_block chain_quiet (Checkpoint.Content "  ") = Ret start /\
    0 <= start /\ (100 <= 5000 -> start = 5000 - 100) /\ (5000 < 100 -> start = 0).
Proof.
  apply (start_without_block_file chain_quiet (Checkpoint.Content "  ")).
  exists ValueError. reflexivity.
Defined.

(** X4: a poll cycle never raises, never moves [last_processed_block]
    backwards, and returns events only when it moved it forwards. *)
Theorem poll_once_never_goes_back
  (cfg : config) (w : Poller.chain) (p : Poller.poller) :
  exists events,
    fst (Poller.poll_once cfg w p) = Ret events /\
    Poller.last_processed_block p
      <= Poller.last_processed_block (snd (Poller.poll_once cfg w p)) /\
    (events <> [] ->
     Poller.last_processed_block p
       < Poller.last_processed_block (snd (Poller.poll_once cfg w p))).
Proof.
  pose proof (poll_once_cases cfg w p) as Hc.
  pose proof (cycle_batch_ahead cfg w p) as Ha. unfold cycle_batch in Ha.
  destruct (Poller.eth_block_number w) as [cur|e].
  2:{ rewrite Hc. exists []. simpl. split; [reflexivity|]. split; [lia|congruence]. }
  cbv zeta in Hc. specialize (Ha cur eq_refl).
  destruct (get_new_events_frame cfg w cur p) as [Hl _].
  destruct (fst (Poller.get_new_events cfg w None (Some cur) p)) as [[|e evs]|e].
  - rewrite Hc. exists []. simpl. rewrite Hl. split; [reflexivity|]. split; [lia|congruence].
  - assert (Hlt : Poller.last_processed_block p < cur) by (apply Ha; congruence).
    destruct (Poller.write_block_file w); rewrite Hc; simpl.
    + exists (e :: evs). split; [reflexivity|]. split; [lia|]. intros _. exact Hlt.
    + exists []. split; [reflexivity|]. split; [lia|congruence].
  - rewrite Hc. exists []. simpl. rewrite Hl. split; [reflexivity|]. split; [lia|congruence].
Qed.

(** X5: one log that lacks a required argument empties the whole batch:
    the well-formed logs returned by the same query are dropped with it. *)
Theorem malformed_log_empties_batch
  (cfg : config) (w : Poller.chain) (p : Poller.poller) (f t : Z)
  (logs : list Poller.raw_log) (bad : Poller.raw_log) (k : string) :
  Poller.get_logs w f (clamped_to cfg f t) = Ret logs ->
  In bad logs ->
  In k required_args ->
  Poller.log_args bad !! k = None ->
  fst (Poller.get_new_events cfg w (Some f) (Some t) p) = Ret [].
Proof.
  intros Hlogs Hin Hk Hnone. rewrite get_new_events_bounds.
  destruct (Z.gtb f (clamped_to cfg f t)); [reflexivity|]. simpl.
  rewrite Hlogs.
  destruct (_parse_event_missing w bad k Hk Hnone) as [e He].
  destruct (omap_all_raises _ _ _ _ Hin He) as [e' ->]. reflexivity.
Qed.

Lemma malformed_log_empties_batch_witness :
  Poller._parse_event chain_mixed log_500 <> Raise KeyError /\
  fst (Poller.get_new_events cfg_default chain_mixed (Some 1) (Some 600) (poller_at 0))
  = Ret [].
Proof.
  split; [discriminate|].
  apply (malformed_log_empties_batch cfg_default chain_mixed (poller_at 0) 1 600
           [log_500; log_without_depositor] log_without_depositor "depositor").
  - reflexivity.
  - right. left. reflexivity.
  - right. left. reflexivity.
  - reflexivity.
Defined.

(** X6: when the block file cannot be written, the cycle that found events
    returns none of them, although [last_processed_block] has already been
    moved past them. *)
Theorem poll_once_write_failure_loses_batch
  (cfg : config) (w : Poller.chain) (p : Poller.poller) (cur : Z) (e : exn) :
  Poller.eth_block_number w = Ret cur ->
  cycle_batch cfg w p <> [] ->
  Poller.write_block_file w = Raise e ->
  fst (Poller.poll_once cfg w p) = Ret [] /\
  Poller.last_processed_block (snd (Poller.poll_once cfg w p)) = cur /\
  Poller.last_processed_block p < cur.
Proof.
  intros Hcur Hne Hw.
  pose proof (poll_once_cases cfg w p) as Hc.
  pose proof (cycle_batch_ahead cfg w p cur Hcur Hne) as Hlt.
  unfold cycle_batch in Hne. rewrite Hcur in Hc, Hne. cbv zeta in Hc.
  destruct (fst (Poller.get_new_events cfg w None (Some cur) p)) as [[|ev evs]|x];
    try congruence.
  rewrite Hw in Hc. rewrite Hc. simpl. auto.
Qed.

Lemma poll_once_write_failure_loses_batch_witness :
  length (cycle_batch cfg_default (chain_readonly 900) (poller_at 0)) = 1%nat /\
  fst (Poller.poll_once cfg_default (chain_readonly 900) (poller_at 0)) = Ret [] /\
  Poller.last_processed_block
    (snd (Poller.poll_once cfg_default (chain_readonly 900) (poller_at 0))) = 900 /\
  Poller.last_processed_block (poller_at 0) < 900.
Proof.
  split; [reflexivity|].
  apply (poll_once_write_failure_loses_batch cfg_default (chain_readonly 900)
           (poller_at 0) 900 OSError); [reflexivity | discriminate | reflexivity].
Defined.

(** X7: one turn of [poll_forever] never raises; the callback is run on
    every event of the batch, in order, and a callback that raises does not
    keep the later events from being handled. *)
Theorem poll_forever_turn_isolates_callbacks
  {St} (cfg : config) (w : Poller.chain)
  (callback : Poller.event -> M St unit) (p : Poller.poller) (s : St) :
  exists events,
    fst (Poller.poll_once cfg w p) = Ret events /\
    PollLoop.poll_forever_turn cfg w (Some callback) (p, s)
    = (Ret tt, (snd (Poller.poll_once cfg w p),
                fold_left (fun s e => snd (callback e s)) events s)).
Proof.
  destruct (poll_once_returns cfg w p) as (events & He).
  exists events. split; [exact He|].
  unfold PollLoop.poll_forever_turn, bind, zoom. simpl.
  destruct (Poller.poll_once cfg w p) as [r p']. simpl in *. subst r.
  destruct events as [|e evs]; [reflexivity|].
  rewrite dispatch_runs. reflexivity.
Qed.

(* ===================================================================== *)
(** * Price lookups that do not hit the cache *)
(* ===================================================================== *)

Lemma upper_ascii_idempotent (c : ascii) :
  Str.upper_ascii (Str.upper_ascii c) = Str.upper_ascii c.
Proof. destruct c as [[] [] [] [] [] [] [] []]; reflexivity. Qed.

Lemma upper_idempotent (s : string) : Str.upper (Str.upper s) = Str.upper s.
Proof.
  induction s as [|c s IH]; [reflexivity|].
  unfold Str.upper in *. simpl. rewrite upper_ascii_idempotent, IH. reflexivity.
Qed.


Lemma get_token_info_upper (s : string) : get_token_info (Str.upper s) = get_token_info s.
Proof. unfold get_token_info. rewrite upper_idempotent. reflexivity. Qed.

Section LookupFacts.
Import Prices.
Variable w : feeds.

Lemma _get_from_ftso_answers : answers_or_gives_up (_get_from_ftso w).
Proof.
  intros symbol s. split; [apply _get_from_ftso_cache|].
  unfold _get_from_ftso. destruct (FTSO_AVAILABLE w); simpl; [|left; reflexivity].
  run. destruct (ftso_get_price_for w _) as [[price ts]|]; simpl; [|left; reflexivity].
  unfold format_4f. destruct (as_number price) as [x|] eqn:Hx; simpl;
    [right; eauto 6 | left; reflexivity].
Qed.

Lemma _get_from_coingecko_answers : answers_or_gives_up (_get_from_coingecko w).
Proof.
  intros symbol s. split; [apply _get_from_coingecko_cache|].
  unfold _get_from_coingecko.
  destruct (coingecko_id_of_token symbol) as [H|[id H]]; rewrite H; [left; reflexivity|].
  run. destruct (String.eqb id ""); [left; reflexivity|]. simpl.
  destruct (coingecko_http w id) as [data|]; simpl; [|left; reflexivity].
  destruct (data !! id) as [[| | | | | |entry]|]; simpl; try (left; reflexivity).
  destruct (dict_item entry "usd") as [p|]; simpl; [|left; reflexivity].
  destruct (as_number (dict_get entry "last_updated_at" _)); simpl; [|left; reflexivity].
  destruct (utcfromtimestamp_iso w _) as [iso|]; simpl; [|left; reflexivity].
  unfold format_4f. destruct (as_number p) as [x|] eqn:Hx; simpl;
    [right; eauto 6 | left; reflexivity].
Qed.

Lemma _get_from_binance_answers : answers_or_gives_up (_get_from_binance w).
Proof.
  intros symbol s. split; [apply _get_from_binance_cache|].
  unfold _get_from_binance. run.
  destruct (binance_http w _) as [data|]; simpl; [|left; reflexivity].
  destruct (dict_item data "price") as [p|]; simpl; [|left; reflexivity].
  destruct (py_float w p) as [x|]; simpl; [|left; reflexivity].
  right. exists (VFloat x), (VStr (utcnow_iso w ++ "Z")), x. split; reflexivity.
Qed.

Lemma sources_answer : Forall (fun e => answers_or_gives_up (snd e)) (sources w).
Proof.
  unfold sources.
  constructor; [exact _get_from_ftso_answers|].
  constructor; [exact _get_from_coingecko_answers|].
  constructor; [exact _get_from_binance_answers|].
  constructor.
Qed.

(** The loop over the sources ends in one of two ways. *)
Lemma try_sources_outcome l symbol :
  Forall (fun e => answers_or_gives_up (snd e)) l ->
  forall s,
    (exists price timestamp name,
        fst (try_sources w l symbol s)
          = Ret (success_quote w symbol price timestamp name) /\
        price_cache (snd (try_sources w l symbol s))
          = <[symbol := success_quote w symbol price timestamp name]> (price_cache s)) \/
    (fst (try_sources w l symbol s) = Ret (failure_quote w symbol) /\
     price_cache (snd (try_sources w l symbol s)) = price_cache s).
Proof.
  induction 1 as [|[name f] l Hf Hl IH]; intros s; [right; split; reflexivity|].
  simpl in Hf. cbn [try_sources]. run.
  destruct (Hf symbol (log_source (Attempt name) s)) as [Hc [Hn | (price & ts & x & Hr & Hx)]].
  - destruct (f symbol (log_source (Attempt name) s)) as [r s'].
    simpl in Hn, Hc. subst r. simpl.
    destruct (IH s') as [(p & t & n & H1 & H2) | [H1 H2]]; [left | right].
    + exists p, t, n. split; [exact H1|]. rewrite H2, Hc. reflexivity.
    + split; [exact H1|]. rewrite H2, Hc. reflexivity.
  - destruct (f symbol (log_source (Attempt name) s)) as [r s'].
    simpl in Hr, Hc. subst r. simpl. unfold format_4f. rewrite Hx. simpl.
    left. exists price, ts, name. split; [reflexivity|]. rewrite Hc. reflexivity.
Qed.

Lemma get_price_skips_cache symbol use_cache s :
  use_cache = false \/ price_cache s !! Str.upper symbol = None ->
  get_price w symbol use_cache s = try_sources w (sources w) (Str.upper symbol) s.
Proof.
  intros Hc. unfold get_price, _is_cache_valid. run.
  destruct Hc as [-> | Hc]; [reflexivity|].
  destruct use_cache; [rewrite Hc|]; reflexivity.
Qed.

Lemma get_price_miss symbol use_cache s :
  use_cache = false \/ price_cache s !! Str.upper symbol = None ->
  exists q,
    fst (get_price w symbol use_cache s) = Ret q /\
    q !! "symbol" = Some (VStr (Str.upper symbol)) /\
    ((q !! "success" = Some (VBool true) /\
      price_cache (snd (get_price w symbol use_cache s))
        = <[Str.upper symbol := q]> (price_cache s)) \/
     (q = failure_quote w (Str.upper symbol) /\
      price_cache (snd (get_price w symbol use_cache s)) = price_cache s)).
Proof.
  intros Hc. rewrite (get_price_skips_cache _ _ _ Hc).
  destruct (try_sources_outcome (sources w) (Str.upper symbol) sources_answer s)
    as [(p & t & n & H1 & H2) | [H1 H2]].
  - eexists. split; [exact H1|]. split; [reflexivity|]. left. split; [reflexivity|exact H2].
  - eexists. split; [exact H1|]. split; [reflexivity|]. right. split; [reflexivity|exact H2].
Qed.





End LookupFacts.

(** X8: a lookup that does not consult the cache, or finds no entry for
    the symbol, never raises.  It returns either a quote marked as a
    success, which is then the cache entry of the upper-cased symbol, or
    the zero quote, and then the cache is as before. *)
Theorem get_price_without_cache_entry
  (w : Prices.feeds) (symbol : string) (use_cache : bool) (s : Prices.aggregator) :
  use_cache = false \/ Prices.price_cache s !! Str.upper symbol = None ->
  exists q,
    fst (Prices.get_price w symbol use_cache s) = Ret q /\
    q !! "symbol" = Some (VStr (Str.upper symbol)) /\
    ((q !! "success" = Some (VBool true) /\
      Prices.price_cache (snd (Prices.get_price w symbol use_cache s))
        = <[Str.upper symbol := q]> (Prices.price_cache s)) \/
     (q = Prices.failure_quote w (Str.upper symbol) /\
      Prices.price_cache (snd (Prices.get_price w symbol use_cache s))
        = Prices.price_cache s)).
Proof. apply get_price_miss. Qed.

Lemma get_price_without_cache_entry_witness :
  exists q,
    fst (Prices.get_price (feeds_up 1000) "btc" true Prices.empty_aggregator) = Ret q /\
    q !! "symbol" = Some (VStr (Str.upper "btc")) /\
    ((q !! "success" = Some (VBool true) /\
      Prices.price_cache
        (snd (Prices.get_price (feeds_up 1000) "btc" true Prices.empty_aggregator))
        = <[Str.upper "btc" := q]> (Prices.price_cache Prices.empty_aggregator)) \/
     (q = Prices.failure_quote (feeds_up 1000) (Str.upper "btc") /\
      Prices.price_cache
        (snd (Prices.get_price (feeds_up 1000) "btc" true Prices.empty_aggregator))
        = Prices.price_cache Prices.empty_aggregator)).
Proof.
  apply (get_price_without_cache_entry (feeds_up 1000) "btc" true Prices.empty_aggregator).
  right. reflexivity.
Defined.





(** X11: the age of a cache entry is measured from the number stored under
    its key ["timestamp"] (0 when the key is absent).  An entry younger
    than 60 seconds by that measure is returned as it is, without any
    request; an older one is looked up again. *)
Theorem cache_entry_age_is_read_from_timestamp
  (w : Prices.feeds) (symbol : string) (s : Prices.aggregator)
  (entry : gmap string pyval) (t : Q) :
  Prices.price_cache s !! Str.upper symbol = Some entry ->
  as_number (dict_get entry "timestamp" (VInt 0)) = Ret t ->
  ((Prices.time_time w - t < 60)%Q ->
   Prices.get_price w symbol true s = (Ret entry, s)) /\
  ((60 <= Prices.time_time w - t)%Q ->
   Prices.get_price w symbol true s = Prices.get_price w symbol false s).
Proof.
  intros Hc Ht. unfold Prices.get_price, Prices._is_cache_valid. run.
  rewrite Hc, Ht. simpl. unfold Qlt_bool, Prices.cache_ttl.
  split; intros Hage.
  - destruct (Qle_bool 60 (Prices.time_time w - t)) eqn:Hle; simpl.
    + apply Qle_bool_iff in Hle. exfalso. apply (Qlt_not_le _ _ Hage). exact Hle.
    + rewrite Hc. reflexivity.
  - apply Qle_bool_iff in Hage. rewrite Hage. reflexivity.
Qed.

Lemma cache_entry_age_is_read_from_timestamp_witness :
  let s := snd (Prices.get_price (feeds_ftso 1735689700) "flr" true Prices.empty_aggregator) in
  let entry := Prices.success_quote (feeds_ftso 1735689700) "FLR"
                 (VFloat (2 # 100)) (VInt 1735689600) "FTSO" in
  (((1735689650 - 1735689600 < 60)%Q ->
    Prices.get_price (feeds_down 1735689650) "FLR" true s = (Ret entry, s)) /\
   ((60 <= 1735689650 - 1735689600)%Q ->
    Prices.get_price (feeds_down 1735689650) "FLR" true s
    = Prices.get_price (feeds_down 1735689650) "FLR" false s)).
Proof.
  intros s entry.
  apply (cache_entry_age_is_read_from_timestamp (feeds_down 1735689650) "FLR" s entry
           1735689600); reflexivity.
Defined.

(* ===================================================================== *)
(** * The batch lookup and the cache reset *)
(* ===================================================================== *)

Section BatchFacts.
Import Prices PricesBatch.
Variable w : nat -> feeds.

Lemma omap_all_returns {A B} (f : A -> outcome B) (l : list A) :
  (forall x, In x l -> exists y, f x = Ret y) -> exists ys, omap_all f l = Ret ys.
Proof.
  induction l as [|x l IH]; intros H; [exists []; reflexivity|].
  simpl. destruct (H x (or_introl eq_refl)) as [y ->]. simpl.
  destruct IH as [ys ->]; [intros z Hz; apply H; right; exact Hz|].
  simpl. eauto.
Qed.

Lemma lookup_all_distinct (symbols : list string) :
  forall (i : nat) (results : gmap string (gmap string pyval)) (s : sleeper),
    NoDup (map Str.upper symbols) ->
    (forall sym, In sym symbols -> price_cache (sl_agg s) !! Str.upper sym = None) ->
    (forall k q, results !! k = Some q -> is_Some (q !! "success")) ->
    exists results',
      fst (lookup_all w i symbols results s) = Ret results' /\
      (forall k q, results' !! k = Some q -> is_Some (q !! "success")) /\
      (forall k, is_Some (results' !! k) <-> In k symbols \/ is_Some (results !! k)) /\
      sl_slept (snd (lookup_all w i symbols results s))
        = (sl_slept s ++ repeat (1 # 10)%Q (length symbols))%list.
Proof.
  induction symbols as [|sym symbols IH]; intros i results s Hnd Hcache Hres.
  - exists results. simpl. rewrite app_nil_r. repeat split; auto.
    + intros [[]|H]; exact H.
  - destruct (get_price_miss (w i) sym true (sl_agg s))
      as (q & Hq & _ & Hcase); [right; apply Hcache; left; reflexivity|].
    destruct (get_price (w i) sym true (sl_agg s)) as [r a'] eqn:Hgp.
    simpl in Hq, Hcase. subst r.
    assert (Hstep : lookup_all w i (sym :: symbols) results s
                    = lookup_all w (S i) symbols (<[sym := q]> results)
                        (sleep (1 # 10) (set_agg a' s))).
    { cbn [lookup_all]. unfold bind, zoom, modify. rewrite Hgp. reflexivity. }
    rewrite Hstep. clear Hstep.
    inversion Hnd as [|u us Hnotin Hnd' Heq]; subst.
    destruct (IH (S i) (<[sym := q]> results) (sleep (1 # 10) (set_agg a' s)) Hnd')
      as (results' & H1 & H2 & H3 & H4).
    + intros sym' Hin. simpl.
      assert (Hne : Str.upper sym <> Str.upper sym').
      { intros Heq. apply Hnotin. rewrite Heq. apply list_elem_of_In, in_map. exact Hin. }
      destruct Hcase as [[_ ->] | [_ ->]].
      * rewrite lookup_insert_ne by exact Hne. apply Hcache. right. exact Hin.
      * apply Hcache. right. exact Hin.
    + intros k q'. destruct (decide (k = sym)) as [->|Hne].
      * rewrite lookup_insert_eq. intros [= <-].
        destruct Hcase as [[Hs _] | [-> _]]; [rewrite Hs; eauto | eexists; reflexivity].
      * rewrite lookup_insert_ne by congruence. apply Hres.
    + exists results'. split; [exact H1|]. split; [exact H2|]. split.
      * intros k. rewrite H3. destruct (decide (k = sym)) as [->|Hne].
        -- rewrite lookup_insert_eq. split; intros _; [left; left; reflexivity | right; eauto].
        -- rewrite lookup_insert_ne by congruence. simpl. intuition congruence.
      * rewrite H4. simpl. rewrite <- app_assoc. reflexivity.
Qed.

End BatchFacts.

(** X12: for symbols that are pairwise distinct after upper-casing and
    have no cache entry, [get_multiple_prices] never raises: it returns
    one quote per symbol, under the symbol as it was passed in, and pauses
    a tenth of a second after each lookup. *)
Theorem get_multiple_prices_distinct_symbols
  (w : nat -> Prices.feeds) (symbols : list string) (s : PricesBatch.sleeper) :
  NoDup (map Str.upper symbols) ->
  (forall sym, In sym symbols ->
     Prices.price_cache (PricesBatch.sl_agg s) !! Str.upper sym = None) ->
  exists results,
    fst (PricesBatch.get_multiple_prices w symbols s) = Ret results /\
    (forall k, is_Some (results !! k) <-> In k symbols) /\
    PricesBatch.sl_slept (snd (PricesBatch.get_multiple_prices w symbols s))
      = (PricesBatch.sl_slept s ++ repeat (1 # 10)%Q (length symbols))%list.
Proof.
  intros Hnd Hcache.
  destruct (lookup_all_distinct w symbols 0%nat ∅ s Hnd Hcache)
    as (results & H1 & H2 & H3 & H4).
  { intros k q Hk. rewrite lookup_empty in Hk. discriminate. }
  destruct (PricesBatch.lookup_all w 0 symbols ∅ s) as [r s'] eqn:Hla.
  simpl in H1, H4. subst r.
  destruct (omap_all_returns (fun r => dict_item (snd r) "success") (map_to_list results))
    as [ys Hys].
  { intros [k q] Hin. apply list_elem_of_In, elem_of_map_to_list in Hin.
    destruct (H2 k q Hin) as [v Hv]. exists v. unfold dict_item. simpl. rewrite Hv.
    reflexivity. }
  assert (Hall : PricesBatch.get_multiple_prices w symbols s = (Ret results, s')).
  { unfold PricesBatch.get_multiple_prices, bind, lift, ret. rewrite Hla, Hys. reflexivity. }
  rewrite Hall. exists results. split; [reflexivity|]. split; [|exact H4].
  intros k. rewrite H3. rewrite lookup_empty. split; [intros [H|[? [=]]]; exact H | auto].
Qed.

Lemma get_multiple_prices_distinct_symbols_witness :
  exists results,
    fst (PricesBatch.get_multiple_prices (fun _ => feeds_up 1000) ["btc"; "pepe"]
           sleeper_fresh) = Ret results /\
    (forall k, is_Some (results !! k) <-> In k ["btc"; "pepe"]) /\
    PricesBatch.sl_slept
      (snd (PricesBatch.get_multiple_prices (fun _ => feeds_up 1000) ["btc"; "pepe"]
              sleeper_fresh))
      = (PricesBatch.sl_slept sleeper_fresh ++ repeat (1 # 10)%Q (length ["btc"; "pepe"]))%list.
Proof.
  apply (get_multiple_prices_distinct_symbols (fun _ => feeds_up 1000) ["btc"; "pepe"]
           sleeper_fresh).
  - refine (bool_decide_unpack (NoDup (map Str.upper ["btc"; "pepe"])) _).
    vm_compute. exact I.
  - intros sym _. reflexivity.
Defined.

(** X13: right after [clear_cache] a lookup never raises, with or without
    [use_cache], whatever the cache held before; afterwards the cache holds
    the returned quote if it is a success and nothing otherwise. *)
Theorem get_price_after_clear_cache
  (w : Prices.feeds) (symbol : string) (use_cache : bool) (s : Prices.aggregator) :
  exists q,
    fst ((PricesBatch.clear_cache ;; Prices.get_price w symbol use_cache) s) = Ret q /\
    ((q !! "success" = Some (VBool true) /\
      Prices.price_cache
        (snd ((PricesBatch.clear_cache ;; Prices.get_price w symbol use_cache) s))
      = {[ Str.upper symbol := q ]}) \/
     (q !! "success" = Some (VBool false) /\
      Prices.price_cache
        (snd ((PricesBatch.clear_cache ;; Prices.get_price w symbol use_cache) s))
      = ∅)).
Proof.
  unfold bind, PricesBatch.clear_cache, modify.
  set (s0 := {| Prices.price_cache := ∅; Prices.source_log := Prices.source_log s |}).
  destruct (get_price_miss w symbol use_cache s0) as (q & Hq & _ & Hcase);
    [right; reflexivity|].
  exists q. split; [exact Hq|].
  destruct Hcase as [[Hs ->] | [-> ->]]; [left | right]; split; auto.
Qed.

(* ===================================================================== *)
(** * The sentiment analyzer *)
(* ===================================================================== *)

Lemma py_min1_le (x : Q) : (py_min1 x <= 1)%Q.
Proof.
  unfold py_min1, Qlt_bool. destruct (Qle_bool 1 x) eqn:H; simpl; [lra|].
  destruct (Qlt_le_dec x 1) as [Hlt|Hle]; [lra|].
  apply Qle_bool_iff in Hle. congruence.
Qed.

Lemma py_min1_ge (x : Q) : (0 <= x)%Q -> (0 <= py_min1 x)%Q.
Proof. intros H. unfold py_min1. destruct (Qlt_bool x 1); lra. Qed.


Section SentimentMore.
Import Sentiment.
Variable a : analyzer.

Lemma analyze_financial_sentiment_reply (text : string) :
  analyze_financial_sentiment a text
  = match finbert_reply a text with
    | Ret (label, score) => (Str.lower label, score, "finbert")
    | Raise _ => ("neutral", 5 # 10, "finbert")
    end.
Proof. reflexivity. Qed.

(** The label of the Twitter model is normalised to one of the three keys
    of [sentiment_map]. *)
Lemma analyze_twitter_sentiment_label (text : string) :
  exists tl sign,
    analyze_twitter_sentiment a text = (tl, score_of (twitter_reply a text), "twitter-roberta") /\
    sentiment_map tl = Ret sign /\ (-1 <= sign <= 1)%Q.
Proof.
  unfold analyze_twitter_sentiment, twitter_reply, score_of.
  destruct (if use_api a then twitter_api a text else twitter_local a (Str.take 512 text))
    as [[label score]|].
  - cbv zeta. destruct (Str.contains "pos" (Str.lower label)).
    + exists "positive", 1%Q. repeat split; simpl; lra.
    + destruct (Str.contains "neg" (Str.lower label)).
      * exists "negative", (-1)%Q. repeat split; simpl; lra.
      * exists "neutral", 0%Q. repeat split; simpl; lra.
  - exists "neutral", 0%Q. repeat split; simpl; lra.
Qed.

Lemma sentiment_map_sign (label : string) (sign : Q) :
  sentiment_map label = Ret sign -> (-1 <= sign <= 1)%Q.
Proof.
  unfold sentiment_map.
  destruct (String.eqb label "positive"); [intros [= <-]; lra|].
  destruct (String.eqb label "neutral"); [intros [= <-]; lra|].
  destruct (String.eqb label "negative"); [intros [= <-]; lra | discriminate].
Qed.

(** The two numbers of the dict that [get_controversy_score] reads. *)
Lemma analyze_multimodal_numbers (text : string) (fl : string) (fs fsign : Q) (fm : string) :
  analyze_financial_sentiment a text = (fl, fs, fm) ->
  sentiment_map fl = Ret fsign ->
  exists d tl tsign,
    analyze_multimodal a text = Ret d /\
    sentiment_map tl = Ret tsign /\ (-1 <= tsign <= 1)%Q /\
    d !! "combined_score"
      = Some (VFloat ((fsign * fs * (6 # 10)
                       + tsign * score_of (twitter_reply a text) * (4 # 10) + 1) / 2)) /\
    d !! "confidence"
      = Some (VFloat ((if String.eqb fl tl then 1 else 5 # 10)
                      * ((fs + score_of (twitter_reply a text)) / 2))) /\
    d !! "combined_label"
      = Some (VStr (if Qlt_bool (2 # 10)
                         (fsign * fs * (6 # 10)
                          + tsign * score_of (twitter_reply a text) * (4 # 10))
                    then "positive"
                    else if Qlt_bool
                              (fsign * fs * (6 # 10)
                               + tsign * score_of (twitter_reply a text) * (4 # 10))
                              (- (2 # 10))
                         then "negative" else "neutral")).
Proof.
  intros Hf Hs.
  destruct (analyze_twitter_sentiment_label text) as (tl & tsign & Ht & Hts & Hb).
  unfold analyze_multimodal. rewrite Hf, Ht. rewrite Hs, Hts. simpl.
  eexists _, tl, tsign. split; [reflexivity|]. split; [exact Hts|]. split; [exact Hb|].
  repeat split.
Qed.

Lemma get_controversy_score_value (text : string) (d : gmap string pyval) (cs cf : Q) :
  analyze_multimodal a text = Ret d ->
  d !! "combined_score" = Some (VFloat cs) ->
  d !! "confidence" = Some (VFloat cf) ->
  get_controversy_score a text
  = Ret (py_min1 (Qabs (cs - (5 # 10)) * 2 * (4 # 10) + (1 - cf) * (3 # 10)
                  + keyword_share text * (3 # 10))).
Proof.
  intros Ha Hcs Hcf. unfold get_controversy_score. rewrite Ha. simpl.
  unfold dict_item. rewrite Hcs, Hcf. reflexivity.
Qed.

Lemma keyword_share_bounds (text : string) : (0 <= keyword_share text <= 1)%Q.
Proof.
  unfold keyword_share, keyword_hits.
  set (l := filter _ controversy_keywords).
  assert (H : (length l <= 13)%nat).
  { subst l. change 13%nat with (length controversy_keywords). apply length_filter. }
  assert (H0 : (0 <= inject_Z (Z.of_nat (length l)))%Q)
    by (rewrite <- (Zle_Qle 0); lia).
  assert (H1 : (inject_Z (Z.of_nat (length l)) <= 13)%Q)
    by (change 13%Q with (inject_Z 13); rewrite <- Zle_Qle; lia).
  set (x := inject_Z (Z.of_nat (length l))) in *.
  unfold Qdiv. change (/ 13)%Q with (1 # 13)%Q. lra.
Qed.

End SentimentMore.

(** X14: a FinBERT label outside positive, neutral and negative makes
    [analyze_multimodal] and [get_controversy_score] raise [KeyError],
    whatever the Twitter model answers; the daemon then goes on without a
    sentiment result. *)
Theorem unknown_finbert_label_raises
  (a : Sentiment.analyzer) (c : Daemon.components) (text label : string) (score : Q) :
  finbert_reply a text = Ret (label, score) ->
  Sentiment.sentiment_map (Str.lower label) = Raise KeyError ->
  Daemon.sentiment_analyzer c = Some a ->
  Sentiment.analyze_multimodal a text = Raise KeyError /\
  Sentiment.get_controversy_score a text = Raise KeyError /\
  Daemon.sentiment_block c (VStr text) = None.
Proof.
  intros Hr Hl Hc.
  assert (H : Sentiment.analyze_multimodal a text = Raise KeyError).
  { unfold Sentiment.analyze_multimodal.
    rewrite analyze_financial_sentiment_reply, Hr.
    destruct (Sentiment.analyze_twitter_sentiment a text) as [[tl ts] tm].
    rewrite Hl. reflexivity. }
  split; [exact H|]. split.
  - unfold Sentiment.get_controversy_score. rewrite H. reflexivity.
  - unfold Daemon.sentiment_block. rewrite Hc, H. reflexivity.
Qed.

Lemma unknown_finbert_label_raises_witness :
  Sentiment.analyze_multimodal analyzer_indexed "to the moon" = Raise KeyError /\
  Sentiment.get_controversy_score analyzer_indexed "to the moon" = Raise KeyError /\
  Daemon.sentiment_block (components_with (5 # 10) (Some analyzer_indexed) None None)
    (VStr "to the moon") = None.
Proof.
  apply (unknown_finbert_label_raises analyzer_indexed
           (components_with (5 # 10) (Some analyzer_indexed) None None)
           "to the moon" "LABEL_2" (9 # 10)); reflexivity.
Defined.

(** X15: when FinBERT fails or names one of the three sentiments, and both
    model scores lie between 0 and 1, [get_controversy_score] returns a
    number between 0 and 1; a failure of the Twitter model or a label of its
    own making does not matter. *)
Theorem get_controversy_score_in_unit_interval
  (a : Sentiment.analyzer) (text : string) :
  (exists sign,
     Sentiment.sentiment_map (fst (fst (Sentiment.analyze_financial_sentiment a text)))
       = Ret sign) ->
  (0 <= score_of (finbert_reply a text) <= 1)%Q ->
  (0 <= score_of (twitter_reply a text) <= 1)%Q ->
  exists x, Sentiment.get_controversy_score a text = Ret x /\ (0 <= x <= 1)%Q.
Proof.
  intros [fsign Hs] Hf Ht.
  destruct (Sentiment.analyze_financial_sentiment a text) as [[fl fs] fm] eqn:Hfin.
  simpl in Hs.
  assert (Hfs : fs = score_of (finbert_reply a text)).
  { rewrite analyze_financial_sentiment_reply in Hfin. unfold score_of.
    destruct (finbert_reply a text) as [[l sc]|]; congruence. }
  destruct (analyze_multimodal_numbers a text fl fs fsign fm Hfin Hs)
    as (d & tl & tsign & Hd & _ & _ & Hcs & Hcf & _).
  rewrite (get_controversy_score_value a text d _ _ Hd Hcs Hcf).
  eexists. split; [reflexivity|]. split; [|apply py_min1_le].
  apply py_min1_ge.
  pose proof (keyword_share_bounds text) as Hk.
  rewrite <- Hfs in Hf.
  set (ts := score_of (twitter_reply a text)) in *.
  set (k := keyword_share text) in *.
  match goal with |- context [Qabs ?y] => pose proof (Qabs_nonneg y) as Habs; set (q := Qabs y) in * end.
  unfold Qdiv. change (/ 2)%Q with (1 # 2)%Q.
  destruct (String.eqb fl tl); lra.
Qed.

Lemma get_controversy_score_in_unit_interval_witness :
  exists x,
    Sentiment.get_controversy_score analyzer_negative "total scam" = Ret x /\
    (0 <= x <= 1)%Q.
Proof.
  apply (get_controversy_score_in_unit_interval analyzer_negative "total scam").
  - exists (-1)%Q. reflexivity.
  - split; discriminate.
  - split; discriminate.
Defined.



(** X17: [analyze_tweet_sentiment] returns exactly when
    [analyze_multimodal] does, and its dict is that of [analyze_multimodal]
    with the controversy score added under ["controversy_score"]; the score
    itself never fails once the analysis has returned. *)
Theorem analyze_tweet_sentiment_adds_score
  (a : Sentiment.analyzer) (text : string) :
  match Sentiment.analyze_multimodal a text with
  | Ret analysis =>
      exists x,
        Sentiment.get_controversy_score a text = Ret x /\
        SentimentHelper.analyze_tweet_sentiment a text
        = Ret (<["controversy_score" := VFloat x]> analysis) /\
        analysis !! "controversy_score" = None
  | Raise e => SentimentHelper.analyze_tweet_sentiment a text = Raise e
  end.
Proof.
  unfold SentimentHelper.analyze_tweet_sentiment.
  destruct (Sentiment.analyze_multimodal a text) as [d|e] eqn:Hd; [|reflexivity].
  destruct (analyze_multimodal_keys a text d Hd) as (Hk & _ & _).
  destruct (Sentiment.analyze_financial_sentiment a text) as [[fl fs] fm] eqn:Hfin.
  assert (Hs : exists fsign, Sentiment.sentiment_map fl = Ret fsign).
  { unfold Sentiment.analyze_multimodal in Hd. rewrite Hfin in Hd.
    destruct (Sentiment.analyze_twitter_sentiment a text) as [[tl ts] tm].
    destruct (Sentiment.sentiment_map fl); [eauto | discriminate]. }
  destruct Hs as [fsign Hs].
  destruct (analyze_multimodal_numbers a text fl fs fsign fm Hfin Hs)
    as (d' & tl & tsign & Hd' & _ & _ & Hcs & Hcf & _).
  assert (d' = d) by congruence. subst d'.
  rewrite (get_controversy_score_value a text d _ _ Hd Hcs Hcf).
  simpl. eexists. repeat split. exact Hk.
Qed.

(* ===================================================================== *)
(** * The daemon: the counters, the stages, the batch *)
(* ===================================================================== *)

Section StageFacts.
Import Daemon.
Variable cfg : config.
Variable c : components.

Lemma store_on_chain_stats td a sr sub s :
  st_stats (snd (store_on_chain c td a sr sub s)) = st_stats s \/
  (st_stats (snd (store_on_chain c td a sr sub s)) = incr_registered (st_stats s) /\
   exists h, fst (store_on_chain c td a sr sub s) = Ret (Some h)).
Proof.
  unfold store_on_chain. destruct (registry c) as [r|]; [|left; reflexivity].
  run. destruct (on_chain_data c r td a sr sub) as [d|]; simpl; [|left; reflexivity].
  destruct (Registry.store_tweet r d (registry_calls s)) as [[[h|]|e] l']; simpl;
    try (left; reflexivity).
  destruct (String.eqb h ""); simpl; [left; reflexivity|].
  right. split; [reflexivity | eauto].
Qed.

Lemma resubmit_stats url cs s :
  st_stats (snd (resubmit cfg c url cs s)) = st_stats s \/
  st_stats (snd (resubmit cfg c url cs s)) = incr_resubmitted (st_stats s).
Proof.
  unfold resubmit. destruct (submitter c) as [f|]; [|left; reflexivity].
  destruct (Qle_bool _ _); [|left; reflexivity]. run.
  destruct (f url cs); [right | left]; reflexivity.
Qed.

(** Steps 1 to 4, stage by stage. *)
Lemma before_resubmit_run (event : Poller.event) (s : daemon) :
  before_resubmit cfg c event s =
  match Poller.extract_tweet_url event with
  | Raise e => (Raise e, s)
  | Ret None => (Ret None, with_stats incr_errors s)
  | Ret (Some EmptyString) => (Ret None, with_stats incr_errors s)
  | Ret (Some u) =>
      let s1 := with_stats incr_processed (log_scrape u s) in
      match analyze_tweet_content c (mock_tweet c u) with
      | Raise e => (Raise e, s1)
      | Ret a =>
          match log_summary a with
          | Raise e => (Raise e, s1)
          | Ret _ =>
              match store_to_filecoin cfg c (mock_tweet c u) a s1 with
              | (Raise e, s2) => (Raise e, s2)
              | (Ret sr, s2) =>
                  let s3 := with_stats incr_stored s2 in
                  match dict_item sr "ipfs_cid" with
                  | Raise e => (Raise e, s3)
                  | Ret _ =>
                      match dict_item sr "root_cid" with
                      | Raise e => (Raise e, s3)
                      | Ret _ =>
                          match store_on_chain c (mock_tweet c u) a sr
                                  (Poller.depositor event) s3 with
                          | (Ret _, s4) => (Ret (Some (u, a)), s4)
                          | (Raise e, s4) => (Raise e, s4)
                          end
                      end
                  end
              end
          end
      end
  end.
Proof.
  unfold before_resubmit, scrape_single_tweet.
  remember (store_to_filecoin cfg c) as F eqn:HF.
  remember (store_on_chain c) as G eqn:HG.
  remember (analyze_tweet_content c) as A eqn:HA.
  remember log_summary as L eqn:HL.
  remember (mock_tweet c) as K eqn:HK.
  run.
  destruct (Poller.extract_tweet_url event) as [[[|ch url]|]|e]; simpl; try reflexivity.
  set (u := String ch url).
  assert (Ht : truthy (VDict (K u)) = true) by (subst K; apply mock_tweet_truthy).
  simpl in Ht. rewrite Ht. simpl.
  destruct (A (K u)) as [a|]; simpl; [|reflexivity].
  destruct (L a); simpl; [|reflexivity].
  destruct (F (K u) a _) as [[sr|] s2]; simpl; [|reflexivity].
  destruct (dict_item sr "ipfs_cid"); simpl; [|reflexivity].
  destruct (dict_item sr "root_cid"); simpl; [|reflexivity].
  destruct (G (K u) a sr _ _) as [[tx|] s4]; reflexivity.
Qed.

Lemma stats_step_error (st : stats) : stats_step st (incr_errors st).
Proof. unfold stats_step. destruct st; simpl. lia. Qed.

(** One event: the call returns, and the counters make one step. *)
Lemma process_tweet_event_step (event : Poller.event) (s : daemon) :
  fst (process_tweet_event cfg c event s) = Ret tt /\
  stats_step (st_stats s) (st_stats (snd (process_tweet_event cfg c event s))).
Proof.
  rewrite process_tweet_event_stages, before_resubmit_run.
  destruct (Poller.extract_tweet_url event) as [[[|ch url]|]|e];
    try (split; [reflexivity | apply stats_step_error]).
  set (u := String ch url). cbv zeta.
  set (s1 := with_stats incr_processed (log_scrape u s)).
  assert (H1 : st_stats s1 = incr_processed (st_stats s)) by reflexivity.
  clearbody s1.
  assert (Hfail : forall e s', st_stats s' = incr_processed (st_stats s) \/
                               st_stats s' = incr_stored (incr_processed (st_stats s)) ->
            fst (finish cfg c (Raise e, s')) = Ret tt /\
            stats_step (st_stats s) (st_stats (snd (finish cfg c (Raise e, s'))))).
  { intros e s' Hs'. split; [reflexivity|].
    change (stats_step (st_stats s) (incr_errors (st_stats s'))).
    destruct Hs' as [-> | ->]; destruct (st_stats s); unfold stats_step; simpl; lia. }
  destruct (analyze_tweet_content c (mock_tweet c u)) as [a|]; [|apply Hfail; auto].
  destruct (log_summary a); [|apply Hfail; auto].
  pose proof (store_to_filecoin_stats cfg c (mock_tweet c u) a s1) as H2.
  destruct (store_to_filecoin cfg c (mock_tweet c u) a s1) as [[sr|] s2]; simpl in H2;
    [|apply Hfail; left; congruence].
  set (s3 := with_stats incr_stored s2).
  assert (H3 : st_stats s3 = incr_stored (incr_processed (st_stats s))).
  { change (incr_stored (st_stats s2) = incr_stored (incr_processed (st_stats s))).
    congruence. }
  clearbody s3.
  destruct (dict_item sr "ipfs_cid"); [|apply Hfail; auto].
  destruct (dict_item sr "root_cid"); [|apply Hfail; auto].
  pose proof (store_on_chain_stats (mock_tweet c u) a sr (Poller.depositor event) s3) as H4.
  pose proof (store_on_chain_returns c (mock_tweet c u) a sr (Poller.depositor event) s3)
    as [tx Htx].
  destruct (store_on_chain c (mock_tweet c u) a sr (Poller.depositor event) s3)
    as [[tx'|] s4]; cbn [fst snd] in H4, Htx; [|discriminate].
  cbn [finish]. split; [apply resubmit_returns|].
  pose proof (resubmit_stats u (combined_controversy a) s4) as H5.
  destruct (resubmit cfg c u (combined_controversy a) s4) as [r s5]. cbn [fst snd] in *.
  unfold stats_step.
  destruct H5 as [-> | ->]; destruct H4 as [-> | [-> _]]; rewrite H3;
    destruct (st_stats s); simpl; lia.
Qed.

Lemma stats_step_consistent (st st' : stats) :
  stats_step st st' -> stats_consistent st -> stats_consistent st'.
Proof. unfold stats_step, stats_consistent. destruct st, st'; simpl. lia. Qed.

End StageFacts.

Section ReturnsFacts.
Context {St : Type}.

Lemma returns_ret {A} (a : A) : returns (@ret St A a).
Proof. intros s. eexists. reflexivity. Qed.

Lemma returns_modify (g : St -> St) : returns (modify g).
Proof. intros s. eexists. reflexivity. Qed.

Lemma returns_try_except {A} (m : M St A) (h : exn -> M St A) :
  (forall e, returns (h e)) -> returns (try_except m h).
Proof.
  intros H s. unfold try_except. destruct (m s) as [[a|e] s']; [eexists; reflexivity|].
  apply H.
Qed.

End ReturnsFacts.

Ltac returns_step :=
  lazymatch goal with
  | |- forall _, _ => intro
  | |- returns (ret _) => apply returns_ret
  | |- returns (modify _) => apply returns_modify
  | |- returns (try_except _ _) => apply returns_try_except
  | |- returns (match ?x with _ => _ end) => destruct x
  end.

Section StorageFacts.
Import Daemon.
Variable cfg : config.
Variable c : components.

Lemma price_block_written a : preserves written (price_block c a).
Proof. unfold price_block. frame. Qed.

Lemma price_block_uploaded a : preserves uploaded (price_block c a).
Proof. unfold price_block. frame. Qed.

(** The price lookup of the storage step cannot make the step fail when
    the classification names a token. *)
Lemma price_block_returns a : has_token a -> returns (price_block c a).
Proof.
  intros Ht. unfold price_block.
  destruct (price_aggregator c) as [feeds|]; [|apply returns_ret].
  destruct (ecosystem a) as [eco|] eqn:He; [|apply returns_ret].
  destruct (truthy (VDict eco)); [|apply returns_ret].
  destruct (Ht eco He) as [token Htok].
  unfold dict_item. rewrite Htok.
  intros s. unfold bind, lift.
  revert s. change (returns (match token with
                             | VStr "UNKNOWN" => ret None
                             | VStr symbol =>
                                 try_except
                                   (let* price_info :=
                                      zoom st_prices set_prices
                                        (Prices.get_price feeds symbol true) in
                                    ret (Some price_info))
                                   (fun _ => ret None)
                             | _ => ret None
                             end)).
  repeat returns_step.
Qed.

Lemma store_to_filecoin_run td a s :
  store_to_filecoin cfg c td a s =
  match price_block c a s with
  | (Raise e, s1) => (Raise e, s1)
  | (Ret price, s1) =>
      let full :=
        {| fd_tweet := td; fd_analysis := a; fd_timestamp := utcnow_iso c;
           fd_controversy_score := combined_controversy a; fd_price := price |} in
      match write_json c (data_file cfg c) full with
      | Raise e => (Raise e, s1)
      | Ret _ =>
          (store_file c (data_file cfg c),
           log_upload (data_file cfg c) (log_write (data_file cfg c) full s1))
      end
  end.
Proof.
  unfold store_to_filecoin, data_file. unfold bind at 1.
  destruct (price_block c a s) as [[price|e] s1]; [|reflexivity].
  run. destruct (write_json c _ _) as [[]|]; reflexivity.
Qed.

Lemma analyze_tweet_content_ecosystem td a :
  analyze_tweet_content c td = Ret a ->
  ecosystem a = ecosystem_block c (dict_get td "content" (VStr "")).
Proof.
  unfold analyze_tweet_content.
  destruct (analyze_tweet c _) as [[ds txt]|]; simpl; [|discriminate].
  destruct (match sentiment_block c _ with Some _ => _ | None => _ end); simpl;
    [|discriminate].
  intros [= <-]. reflexivity.
Qed.

Lemma store_on_chain_no_ecosystem td a sr sub s :
  ecosystem a = None -> store_on_chain c td a sr sub s = (Ret None, s).
Proof.
  intros He. unfold store_on_chain. destruct (registry c) as [r|]; [|reflexivity].
  assert (H : exists e, on_chain_data c r td a sr sub = Raise e).
  { unfold on_chain_data. rewrite He.
    repeat (first [ solve [eexists; reflexivity] | apply obind_raises; intro ]). }
  destruct H as [e H]. run. rewrite H. reflexivity.
Qed.

End StorageFacts.

Section EventFacts.
Import Daemon.
Variable cfg : config.
Variable c : components.

Lemma finish_quiet r s' :
  registry_calls (snd (finish cfg c (r, s'))) = registry_calls s' /\
  registered_of (snd (finish cfg c (r, s'))) = registered_of s'.
Proof.
  destruct r as [[[url a]|]|e]; cbn [finish snd].
  - split; [apply resubmit_registry | apply resubmit_registered].
  - split; reflexivity.
  - split; destruct s'; reflexivity.
Qed.

Lemma before_resubmit_quiet event s :
  (forall content, ecosystem_block c content = None) ->
  registry_calls (snd (before_resubmit cfg c event s)) = registry_calls s /\
  registered_of (snd (before_resubmit cfg c event s)) = registered_of s.
Proof.
  intros Hno. rewrite before_resubmit_run.
  destruct (Poller.extract_tweet_url event) as [[[|ch url]|]|e];
    try (split; destruct s; reflexivity).
  set (u := String ch url). cbv zeta.
  set (s1 := with_stats incr_processed (log_scrape u s)).
  assert (H1 : registry_calls s1 = registry_calls s /\ registered_of s1 = registered_of s)
    by (split; destruct s; reflexivity).
  clearbody s1.
  destruct (analyze_tweet_content c (mock_tweet c u)) as [a|] eqn:Ha; [|exact H1].
  destruct (log_summary a); [|exact H1].
  pose proof (store_to_filecoin_registry cfg c (mock_tweet c u) a s1) as H2.
  pose proof (store_to_filecoin_stats cfg c (mock_tweet c u) a s1) as H3.
  assert (H4 : forall s2, registry_calls s2 = registry_calls s1 -> st_stats s2 = st_stats s1 ->
                          registry_calls s2 = registry_calls s /\
                          registered_of s2 = registered_of s).
  { intros s2 Hr Hs. destruct H1 as [<- <-]. split; [exact Hr|].
    unfold registered_of. rewrite Hs. reflexivity. }
  destruct (store_to_filecoin cfg c (mock_tweet c u) a s1) as [[sr|] s2]; cbn [snd] in H2, H3;
    [|apply H4; assumption].
  set (s3 := with_stats incr_stored s2).
  assert (H5 : registry_calls s3 = registry_calls s /\ registered_of s3 = registered_of s).
  { destruct (H4 s2 H2 H3) as [<- <-]. split; destruct s2; reflexivity. }
  clearbody s3.
  destruct (dict_item sr "ipfs_cid"); [|exact H5].
  destruct (dict_item sr "root_cid"); [|exact H5].
  rewrite store_on_chain_no_ecosystem; [exact H5|].
  rewrite (analyze_tweet_content_ecosystem c _ _ Ha). apply Hno.
Qed.

Lemma process_events_steps (events : list Poller.event) :
  forall s,
    fst (DaemonLoop.process_events cfg c events s) = Ret tt /\
    (let st := st_stats s in
     let st' := st_stats (snd (DaemonLoop.process_events cfg c events s)) in
     let n := Z.of_nat (length events) in
     let dpro := tweets_processed st' - tweets_processed st in
     let dsto := tweets_stored st' - tweets_stored st in
     let dreg := tweets_registered st' - tweets_registered st in
     let dres := tweets_resubmitted st' - tweets_resubmitted st in
     let derr := errors st' - errors st in
     0 <= dreg <= dsto /\ 0 <= dres <= dsto /\ dsto <= dpro <= n /\
     0 <= derr <= n /\ n <= dpro + derr /\ dreg + derr <= n /\ dres + derr <= n).
Proof.
  induction events as [|event events IH]; intros s.
  - split; [reflexivity|]. simpl. lia.
  - cbn [DaemonLoop.process_events]. unfold bind.
    destruct (process_tweet_event_step cfg c event s) as [Hr Hs].
    destruct (process_tweet_event cfg c event s) as [r s1]. cbn [fst snd] in Hr, Hs.
    subst r. destruct (IH s1) as [IHr IHs]. split; [exact IHr|].
    cbv zeta in IHs |- *. unfold stats_step in Hs.
    rewrite length_cons, Nat2Z.inj_succ.
    destruct (st_stats s), (st_stats s1),
      (st_stats (snd (DaemonLoop.process_events cfg c events s1))).
    simpl in *. lia.
Qed.

End EventFacts.

(** X18: processing one event never raises, and moves the counters by one
    step: every counter by at most one; stored only if processed,
    registered or resubmitted only if stored; an event not counted as
    processed is counted as an error; an event counted as an error is
    neither registered nor resubmitted. *)
Theorem process_tweet_event_accounting
  (cfg : config) (c : Daemon.components) (event : Poller.event) (s : Daemon.daemon) :
  fst (Daemon.process_tweet_event cfg c event s) = Ret tt /\
  stats_step (Daemon.st_stats s)
    (Daemon.st_stats (snd (Daemon.process_tweet_event cfg c event s))) /\
  (stats_consistent (Daemon.st_stats s) ->
   stats_consistent (Daemon.st_stats (snd (Daemon.process_tweet_event cfg c event s)))).
Proof.
  destruct (process_tweet_event_step cfg c event s) as [Hr Hs].
  split; [exact Hr|]. split; [exact Hs|]. apply stats_step_consistent. exact Hs.
Qed.


(** X20: a daemon without a classification (the classifier could not be
    built, or it raises) never registers anything: processing an event
    makes no call to the registry contract and leaves the registration
    counter as it was, whatever the registry would answer. *)
Theorem no_classification_no_registration
  (cfg : config) (c : Daemon.components) (event : Poller.event) (s : Daemon.daemon) :
  (forall content, Daemon.ecosystem_block c content = None) ->
  Daemon.registry_calls (snd (Daemon.process_tweet_event cfg c event s))
    = Daemon.registry_calls s /\
  Daemon.tweets_registered (Daemon.st_stats (snd (Daemon.process_tweet_event cfg c event s)))
    = Daemon.tweets_registered (Daemon.st_stats s).
Proof.
  intros Hno. rewrite process_tweet_event_stages.
  destruct (before_resubmit_quiet cfg c event s Hno) as [H1 H2].
  destruct (before_resubmit cfg c event s) as [r s']. cbn [snd] in H1, H2.
  destruct (finish_quiet cfg c r s') as [H3 H4].
  split; [congruence|]. unfold registered_of in *. congruence.
Qed.

Lemma no_classification_no_registration_witness :
  let c := without_classifier
             (components_with (5 # 10) None (Some (node_answering false)) None) in
  Daemon.registry_calls (snd (Daemon.process_tweet_event cfg_default c event_x daemon_fresh))
    = Daemon.registry_calls daemon_fresh /\
  Daemon.tweets_registered
    (Daemon.st_stats (snd (Daemon.process_tweet_event cfg_default c event_x daemon_fresh)))
    = Daemon.tweets_registered (Daemon.st_stats daemon_fresh).
Proof.
  intros c.
  apply (no_classification_no_registration cfg_default c event_x daemon_fresh).
  intros content. reflexivity.
Defined.

(** X21: [store_to_filecoin] uploads only what it has written: either the
    data file is written and then uploaded, once each and under the same
    path, or the step raises before writing and nothing is uploaded. *)
Theorem store_to_filecoin_writes_before_upload
  (cfg : config) (c : Daemon.components) (td : gmap string pyval) (a : Daemon.analysis)
  (s : Daemon.daemon) :
  let r := Daemon.store_to_filecoin cfg c td a s in
  (exists full,
     Daemon.written (snd r) = (Daemon.written s ++ [(data_file cfg c, full)])%list /\
     Daemon.uploaded (snd r) = (Daemon.uploaded s ++ [data_file cfg c])%list /\
     Daemon.fd_tweet full = td /\
     Daemon.fd_controversy_score full = Daemon.combined_controversy a /\
     fst r = Daemon.store_file c (data_file cfg c)) \/
  (Daemon.written (snd r) = Daemon.written s /\
   Daemon.uploaded (snd r) = Daemon.uploaded s /\
   exists e, fst r = Raise e).
Proof.
  cbv zeta. rewrite store_to_filecoin_run.
  pose proof (price_block_written c a s) as Hw.
  pose proof (price_block_uploaded c a s) as Hu.
  destruct (Daemon.price_block c a s) as [[price|e] s1]; cbn [snd] in Hw, Hu.
  - cbv zeta. destruct (Daemon.write_json c _ _) as [[]|e].
    + left. eexists. cbn [fst snd]. rewrite <- Hw, <- Hu.
      split; [destruct s1; reflexivity|]. split; [destruct s1; reflexivity|].
      repeat split.
    + right. cbn [fst snd]. eauto.
  - right. cbn [fst snd]. eauto.
Qed.

(** X22: when the classification names a token, a failure of the price
    lookup cannot fail the storage step: the step raises only if the data
    file cannot be written or the upload raises. *)
Theorem price_lookup_never_fails_storage
  (cfg : config) (c : Daemon.components) (td : gmap string pyval) (a : Daemon.analysis)
  (s : Daemon.daemon) :
  has_token a ->
  (forall full, Daemon.write_json c (data_file cfg c) full = Ret tt) ->
  fst (Daemon.store_to_filecoin cfg c td a s) = Daemon.store_file c (data_file cfg c).
Proof.
  intros Ht Hw. rewrite store_to_filecoin_run.
  destruct (price_block_returns c a Ht s) as [price Hp].
  destruct (Daemon.price_block c a s) as [r s1]. cbn [fst] in Hp. subst r.
  cbv zeta. rewrite Hw. reflexivity.
Qed.

Lemma price_lookup_never_fails_storage_witness :
  let c := with_price_feeds (feeds_down 5000) (components_with (80 # 100) None None None) in
  fst (Prices.get_price (feeds_down 5000) "BTC" true aggregator_after_btc) = Raise TypeError /\
  fst (Daemon.store_to_filecoin cfg_default c (Daemon.mock_tweet c "https://x.com/user/status/123")
         analysis_btc daemon_after_btc)
  = Daemon.store_file c (data_file cfg_default c).
Proof.
  intros c. split; [reflexivity|].
  apply (price_lookup_never_fails_storage cfg_default c
           (Daemon.mock_tweet c "https://x.com/user/status/123") analysis_btc daemon_after_btc).
  - intros eco [= <-]. eexists. reflexivity.
  - intros full. reflexivity.
Defined.

(* ===================================================================== *)
(** * What is sent to the registry *)
(* ===================================================================== *)

Lemma py_int_nonneg (x : Q) : (0 <= x)%Q -> py_int x = Qfloor x /\ 0 <= Qfloor x.
Proof.
  intros H. unfold py_int. apply Qle_bool_iff in H as Hb. rewrite Hb.
  split; [reflexivity|]. apply (Qfloor_resp_le 0 x) in H. exact H.
Qed.





Section RegistryMore.
Import Registry.
Variable n : node.


End RegistryMore.


(** X24: for an analysis computed by [analyze_tweet_content] from a
    removal-risk score between 0 and 1, the two scores sent to the registry
    are whole percentages between 0 and 100, and the controversy score is
    never above the deletion likelihood. *)
Theorem on_chain_scores_are_percentages
  (c : Daemon.components) (r : Registry.node) (td : gmap string pyval) (a : Daemon.analysis)
  (sr : gmap string pyval) (sub : pyval) :
  Daemon.analyze_tweet_content c td = Ret a ->
  (0 <= Daemon.deletion_likelihood a <= 1)%Q ->
  match Daemon.on_chain_data c r td a sr sub with
  | Ret d =>
      exists k1 k2,
        d !! "controversyScore" = Some (VInt k1) /\
        d !! "deletionLikelihood" = Some (VInt k2) /\
        0 <= k1 <= k2 /\ k2 <= 100
  | Raise _ => True
  end.
Proof.
  intros Ha [H0 H1].
  pose proof (combined_score_computed c td a Ha) as Hc.
  assert (Hcd : (0 <= Daemon.combined_controversy a)%Q /\
                (Daemon.combined_controversy a <= Daemon.deletion_likelihood a)%Q).
  { destruct (Daemon.sentiment a); rewrite Hc; split; lra. }
  destruct Hcd as [Hc0 Hc1].
  unfold Daemon.on_chain_data. cbv zeta.
  destruct (if truthy _ then _ else _) as [cid|]; cbn [obind]; [|exact I].
  destruct (Daemon.as_str TypeError _) as [url|]; cbn [obind]; [|exact I].
  destruct (Daemon.ecosystem a) as [eco|]; cbn [obind]; [|exact I].
  exists (py_int (Daemon.combined_controversy a * 100)),
         (py_int (Daemon.deletion_likelihood a * 100)).
  split; [reflexivity|]. split; [reflexivity|].
  destruct (py_int_nonneg (Daemon.combined_controversy a * 100)) as [-> Hk1]; [lra|].
  destruct (py_int_nonneg (Daemon.deletion_likelihood a * 100)) as [-> Hk2]; [lra|].
  split; [split; [exact Hk1|]|].
  - apply Qfloor_resp_le. lra.
  - apply Z.le_trans with (Qfloor 100%Q); [apply Qfloor_resp_le; lra|].
    assert (Hf : Qfloor 100%Q = 100) by reflexivity. rewrite Hf. lia.
Qed.

Lemma on_chain_scores_are_percentages_witness :
  let c := components_with (80 # 100) None None None in
  match Daemon.on_chain_data c (node_answering false)
          (Daemon.mock_tweet c "https://x.com/user/status/123") analysis_080
          (<["ipfs_cid" := VStr "QmData"]> ∅) (VStr "0xdepositor") with
  | Ret d =>
      exists k1 k2,
        d !! "controversyScore" = Some (VInt k1) /\
        d !! "deletionLikelihood" = Some (VInt k2) /\
        0 <= k1 <= k2 /\ k2 <= 100
  | Raise _ => True
  end.
Proof.
  intros c.
  apply (on_chain_scores_are_percentages c (node_answering false)
           (Daemon.mock_tweet c "https://x.com/user/status/123") analysis_080
           (<["ipfs_cid" := VStr "QmData"]> ∅) (VStr "0xdepositor")).
  - reflexivity.
  - split; discriminate.
Defined.




(* ===================================================================== *)
(** * The classifier and the submitter's gate *)
(* ===================================================================== *)

Section ClassifierFacts.
Import Classifier.

Lemma _calculate_confidence_bounds (text token : string) :
  (0 <= _calculate_confidence text token <= 1)%Q.
Proof.
  unfold _calculate_confidence.
  destruct (String.eqb token "UNKNOWN"); [split; discriminate|].
  cbv zeta. split; [|apply py_min1_le].
  apply py_min1_ge.
  destruct (Str.contains ("$" ++ Str.lower token) (Str.lower text));
    [|destruct (Str.contains (Str.lower token) (Str.lower text))];
    destruct (negb _ && Str.contains _ (Str.lower text));
    destruct (find _ variations) as [[? vars]|];
    try destruct (existsb _ vars); lra.
Qed.

Lemma _calculate_confidence_unknown (text : string) :
  _calculate_confidence text "UNKNOWN" = 0%Q.
Proof. reflexivity. Qed.

End ClassifierFacts.

(** X27: [classify_tweet] never raises.  Its dict names a supported token
    or ["UNKNOWN"], with a confidence between 0 and 1 that is 0 for
    ["UNKNOWN"]; the model is asked at most once, and not at all for a
    blank text. *)
Theorem classify_tweet_is_total
  (l : Classifier.llm) (text : string) (log : list string) :
  exists d tok conf,
    fst (Classifier.classify_tweet l text log) = Ret d /\
    d !! "token" = Some (VStr tok) /\
    d !! "confidence" = Some (VFloat conf) /\
    (tok = "UNKNOWN" \/ In tok Classifier.supported_tokens) /\
    (0 <= conf <= 1)%Q /\
    (tok = "UNKNOWN" -> conf = 0%Q /\ d !! "ecosystem" = Some (VStr "Unknown")) /\
    (snd (Classifier.classify_tweet l text log) = log \/
     snd (Classifier.classify_tweet l text log) = (log ++ [text])%list) /\
    (Str.strip text = "" -> snd (Classifier.classify_tweet l text log) = log).
Proof.
  unfold Classifier.classify_tweet.
  destruct (String.eqb text "" || String.eqb (Str.strip text) "") eqn:Hblank.
  - exists Classifier.unknown_result, "UNKNOWN", 0%Q. cbn [fst snd ret].
    repeat split; auto; discriminate.
  - apply orb_false_iff in Hblank as [_ Hs]. apply String.eqb_neq in Hs.
    unfold try_except, bind, modify, lift, ret. cbv beta.
    destruct (Classifier.invoke l text) as [content|e]; cbv beta iota zeta; cbn [fst snd].
    + set (tok0 := Str.upper (Str.strip content)).
      destruct (existsb (String.eqb tok0) Classifier.supported_tokens) eqn:Hsup; cbn [negb andb].
      * destruct (String.eqb tok0 "UNKNOWN") eqn:Hunk; cbn [negb andb].
        -- apply String.eqb_eq in Hunk.
           eexists _, tok0, _. split; [reflexivity|].
           split; [reflexivity|]. split; [reflexivity|].
           split; [left; exact Hunk|].
           split; [apply _calculate_confidence_bounds|].
           split; [|split; [right; reflexivity | intros; contradiction]].
           intros _. rewrite Hunk. split; reflexivity.
        -- apply String.eqb_neq in Hunk.
           eexists _, tok0, _. split; [reflexivity|].
           split; [reflexivity|]. split; [reflexivity|].
           split.
           { right. apply existsb_exists in Hsup as (x & Hin & Heq).
             apply String.eqb_eq in Heq. subst x. exact Hin. }
           split; [apply _calculate_confidence_bounds|].
           split; [intros; contradiction|].
           split; [right; reflexivity | intros; contradiction].
      * destruct (String.eqb tok0 "UNKNOWN") eqn:Hunk; cbn [negb andb].
        -- apply String.eqb_eq in Hunk.
           eexists _, tok0, _. split; [reflexivity|].
           split; [reflexivity|]. split; [reflexivity|].
           split; [left; exact Hunk|].
           split; [apply _calculate_confidence_bounds|].
           split; [|split; [right; reflexivity | intros; contradiction]].
           intros _. rewrite Hunk. split; reflexivity.
        -- eexists _, "UNKNOWN", _. split; [reflexivity|].
           split; [reflexivity|]. split; [reflexivity|].
           split; [left; reflexivity|].
           split; [split; discriminate|].
           split; [intros _; split; reflexivity|].
           split; [right; reflexivity | intros; contradiction].
    + eexists _, "UNKNOWN", 0%Q. split; [reflexivity|].
      split; [reflexivity|]. split; [reflexivity|].
      split; [left; reflexivity|].
      split; [split; discriminate|].
      split; [intros _; split; reflexivity|].
      split; [right; reflexivity | intros; contradiction].
Qed.

(** X28: the gate of [submit_if_controversial] is the gate of the
    daemon's resubmission stage: both call [submit_tweet] for exactly the
    scores at or above the threshold, with the same arguments.  They differ
    in what happens when the call raises: the daemon goes on, the
    submitter's method lets the exception through. *)
Theorem submitter_gate_is_the_daemon_gate
  (cfg : config) (c : Daemon.components) (submit_tweet : string -> Q -> outcome string)
  (url : string) (score : Q) (s : Daemon.daemon) :
  Daemon.submitter c = Some submit_tweet ->
  Daemon.submitted (snd (Daemon.resubmit cfg c url score s))
    = (Daemon.submitted s
         ++ snd (Submitter.submit_if_controversial cfg submit_tweet url score []))%list /\
  (fst (Submitter.submit_if_controversial cfg submit_tweet url score []) = Ret None
   <-> (score < AUTO_SUBMIT_THRESHOLD cfg)%Q) /\
  fst (Daemon.resubmit cfg c url score s) = Ret tt /\
  (forall e, submit_tweet url score = Raise e ->
     (AUTO_SUBMIT_THRESHOLD cfg <= score)%Q ->
     fst (Submitter.submit_if_controversial cfg submit_tweet url score []) = Raise e).
Proof.
  intros Hs. split; [|split; [|split]].
  - unfold Daemon.resubmit, Submitter.submit_if_controversial, Submitter.should_submit.
    rewrite Hs. destruct (Qle_bool _ _); [|simpl; rewrite app_nil_r; reflexivity].
    run. destruct (submit_tweet url score); reflexivity.
  - unfold Submitter.submit_if_controversial, Submitter.should_submit.
    destruct (Qle_bool (AUTO_SUBMIT_THRESHOLD cfg) score) eqn:Hle.
    + apply Qle_bool_iff in Hle. run.
      split; [destruct (submit_tweet url score); discriminate | intros Hlt; lra].
    + split; [intros _ | reflexivity].
      destruct (Qlt_le_dec score (AUTO_SUBMIT_THRESHOLD cfg)) as [Hlt|Hge]; [exact Hlt|].
      apply Qle_bool_iff in Hge. congruence.
  - apply resubmit_returns.
  - intros e He Hle. unfold Submitter.submit_if_controversial, Submitter.should_submit.
    apply Qle_bool_iff in Hle. rewrite Hle. run. rewrite He. reflexivity.
Qed.

Lemma submitter_gate_is_the_daemon_gate_witness :
  let c := components_with (80 # 100) None None (Some (fun _ _ => Raise ExternalError)) in
  Daemon.submitted (snd (Daemon.resubmit cfg_default c "https://x.com/user/status/123"
                           (80 # 100) daemon_fresh))
    = (Daemon.submitted daemon_fresh
         ++ snd (Submitter.submit_if_controversial cfg_default
                   (fun _ _ => Raise ExternalError) "https://x.com/user/status/123"
                   (80 # 100) []))%list /\
  (fst (Submitter.submit_if_controversial cfg_default (fun _ _ => Raise ExternalError)
          "https://x.com/user/status/123" (80 # 100) []) = Ret None
   <-> (80 # 100 < AUTO_SUBMIT_THRESHOLD cfg_default)%Q) /\
  fst (Daemon.resubmit cfg_default c "https://x.com/user/status/123" (80 # 100) daemon_fresh)
    = Ret tt /\
  (forall e, (fun (_ : string) (_ : Q) => @Raise string ExternalError)
               "https://x.com/user/status/123" (80 # 100) = Raise e ->
     (AUTO_SUBMIT_THRESHOLD cfg_default <= 80 # 100)%Q ->
     fst (Submitter.submit_if_controversial cfg_default (fun _ _ => Raise ExternalError)
            "https://x.com/user/status/123" (80 # 100) []) = Raise e).
Proof.
  intros c.
  apply (submitter_gate_is_the_daemon_gate cfg_default c (fun _ _ => Raise ExternalError)
           "https://x.com/user/status/123" (80 # 100) daemon_fresh).
  reflexivity.
Defined.

Section SupportedTokens.
Import Prices.
Variable w : feeds.

Lemma _get_from_coingecko_request (symbol id : string) (s : aggregator) :
  dict_get (get_token_info symbol) "coingecko_id" VNone = VStr id ->
  id <> "" ->
  source_log (snd (_get_from_coingecko w symbol s))
  = (source_log s ++ [Request "CoinGecko" id])%list.
Proof.
  intros Hid Hne. unfold _get_from_coingecko. rewrite Hid.
  apply String.eqb_neq in Hne. rewrite Hne. run.
  destruct (coingecko_http w id) as [data|]; simpl; [|reflexivity].
  destruct (data !! id) as [[| | | | | |entry]|]; simpl; try reflexivity.
  destruct (dict_item entry "usd") as [p|]; simpl; [|reflexivity].
  destruct (as_number (dict_get entry "last_updated_at" _)); simpl; [|reflexivity].
  destruct (utcfromtimestamp_iso w _) as [iso|]; simpl; [|reflexivity].
  unfold format_4f. destruct (as_number p); reflexivity.
Qed.

Lemma supported_token_has_id (symbol : string) :
  In symbol Classifier.supported_tokens ->
  exists id, dict_get (get_token_info symbol) "coingecko_id" VNone = VStr id /\ id <> "" /\
             exists chain, dict_get (get_token_info symbol) "chain" VNone = VStr chain.
Proof.
  unfold Classifier.supported_tokens, SUPPORTED_TOKENS. cbn [map fst].
  intros Hin.
  repeat (destruct Hin as [<- | Hin];
          [eexists; split; [reflexivity|]; split; [discriminate | eexists; reflexivity]|]).
  destruct Hin.
Qed.

End SupportedTokens.

(** X29: every token of [SUPPORTED_TOKENS] has a chain and a non-empty
    CoinGecko id in [get_token_info], in whatever case the symbol is
    written, and [_get_from_coingecko] sends exactly one request for it,
    for that id. *)
Theorem supported_token_is_asked_of_coingecko
  (w : Prices.feeds) (symbol : string) (s : Prices.aggregator) :
  In (Str.upper symbol) Classifier.supported_tokens ->
  exists id,
    dict_get (get_token_info symbol) "coingecko_id" VNone = VStr id /\
    id <> "" /\
    Prices.source_log (snd (Prices._get_from_coingecko w symbol s))
    = (Prices.source_log s ++ [Prices.Request "CoinGecko" id])%list.
Proof.
  intros Hin. destruct (supported_token_has_id _ Hin) as (id & Hid & Hne & _).
  rewrite get_token_info_upper in Hid.
  exists id. split; [exact Hid|]. split; [exact Hne|].
  apply _get_from_coingecko_request; assumption.
Qed.

Lemma supported_token_is_asked_of_coingecko_witness :
  exists id,
    dict_get (get_token_info "fil") "coingecko_id" VNone = VStr id /\
    id <> "" /\
    Prices.source_log (snd (Prices._get_from_coingecko (feeds_down 1000) "fil"
                              Prices.empty_aggregator))
    = (Prices.source_log Prices.empty_aggregator ++ [Prices.Request "CoinGecko" id])%list.
Proof.
  apply (supported_token_is_asked_of_coingecko (feeds_down 1000) "fil"
           Prices.empty_aggregator).
  simpl. do 16 right. left. reflexivity.
Defined.

(** X30: one run of the daemon with [--once], a poll followed by the loop
    over its batch, never raises: the poller ends as [poll_once] leaves it,
    and every event of the batch is accounted for, as processed or as an
    error. *)
Theorem once_run_accounts_for_every_event
  (cfg : config) (c : Daemon.components) (w : Poller.chain)
  (p : Poller.poller) (d : Daemon.daemon) :
  exists events,
    fst (Poller.poll_once cfg w p) = Ret events /\
    fst (DaemonLoop.poll_and_process cfg c w (p, d)) = Ret tt /\
    fst (snd (DaemonLoop.poll_and_process cfg c w (p, d))) = snd (Poller.poll_once cfg w p) /\
    (let st := Daemon.st_stats d in
     let st' := Daemon.st_stats (snd (snd (DaemonLoop.poll_and_process cfg c w (p, d)))) in
     let n := Z.of_nat (length events) in
     let dpro := Daemon.tweets_processed st' - Daemon.tweets_processed st in
     let dsto := Daemon.tweets_stored st' - Daemon.tweets_stored st in
     let derr := Daemon.errors st' - Daemon.errors st in
     n <= dpro + derr /\ 0 <= dsto <= dpro /\ dpro <= n /\ 0 <= derr <= n).
Proof.
  destruct (poll_once_returns cfg w p) as [events He]. exists events.
  split; [exact He|].
  unfold DaemonLoop.poll_and_process, bind, zoom. cbn [fst snd].
  destruct (Poller.poll_once cfg w p) as [r p']. cbn [fst snd] in *. subst r.
  destruct (process_events_steps cfg c events d) as [Hr Hs].
  destruct (DaemonLoop.process_events cfg c events d) as [r d']. cbn [fst snd] in *.
  split; [exact Hr|]. split; [reflexivity|]. lia.
Qed.
